(** * splus-gaia-astrometry: the per-tile differencer of [main.py]

    A shallow embedding of [SplusGaiaAst.get_gaia],
    [SplusGaiaAst.calculate_astdiff] and of the [__main__] block of
    [src/main.py], with the properties of the pipeline proved over it.

    Numbers are Python floats, that is IEEE binary64: they are the
    primitive floats of Rocq, whose operations round as numpy's do.
    Effects (files, directories, log lines, remote queries, worker
    processes) go through an explicit world and an exception monad. *)

From Stdlib Require Import ZArith Floats Uint63 Ascii String Sorted.
From stdpp Require Import gmap strings list.

Set Warnings "-inexact-float".
#[local] Open Scope string_scope.

(** ** Python exceptions and the world the script acts on *)

Inductive exn : Type :=
| TypeError (msg : string)
| NameError (name : string)
| KeyError (key : string)
| IndexError
| ValueError
| OSError (path : string)
| FileNotFoundError (path : string)
| FileExistsError (path : string)
| NotADirectoryError (path : string)
| EmptyDataError
| AssertionError (msg : string)
| ArgumentTypeError (msg : string)
| QueryError
| SystemExit (code : option Z).

Inductive result (A : Type) : Type :=
| Ok (a : A)
| Raise (e : exn).
Arguments Ok {A} a.
Arguments Raise {A} e.

Inductive level : Type := INFO | WARNING | ERROR.

(** A table is a list of named columns, as a pandas DataFrame, a FITS
    record array or an astropy Table is indexed by the script.  A masked
    cell of an astropy column is carried as nan: [to_pandas] writes it so
    and [np.ma.masked_invalid] treats both alike. *)
Abbreviation column := (list float).
Abbreviation table := (list (string * list float)).

(** The data of an HDU is a table, or None for an HDU that holds no table
    (the primary HDU of a catalogue).  A pickle is a response that
    astroquery saved, opaque to the script. *)
Inductive file : Type :=
| Csv (t : table)
| Fits (hdus : list (option table))
| Text (lines : list string)
| Pickle (payload : string).

Inductive event : Type :=
| Log (lvl : level) (msg : string)
| Print (msg : string)
| OpenFile (path : string)
| WriteFile (path : string)
| Query (catalog : string) (ra dec radius : float)
| ProcStart (job : list string)
| Sleep.

Record world : Type := World {
  files : gmap string file;
  dirs : gset string;
  trace : list event
}.

Definition emit (e : event) (w : world) : world :=
  World (files w) (dirs w) (trace w ++ [e]).

(** ** The monad of effectful code *)

Definition M (A : Type) : Type := world -> result A * world.

Definition ret {A} (a : A) : M A := fun w => (Ok a, w).
Definition raise {A} (e : exn) : M A := fun w => (Raise e, w).
Definition bind {A B} (m : M A) (k : A -> M B) : M B :=
  fun w => match m w with
           | (Ok a, w') => k a w'
           | (Raise e, w') => (Raise e, w')
           end.

Notation "x <- m ;; k" := (bind m (fun x => k))
  (at level 100, m at next level, right associativity).
Notation "m ;;; k" := (bind m (fun _ => k))
  (at level 100, right associativity).

Definition lift_result {A} (r : result A) : M A := fun w => (r, w).

(** [try: body finally: cleanup] of Python: the cleanup runs on both
    exits and the exception of the body, if any, is raised again. *)
Definition try_finally {A} (body : M A) (cleanup : M unit) : M A :=
  fun w => match body w with
           | (Ok a, w') =>
               match cleanup w' with
               | (Ok _, w'') => (Ok a, w'')
               | (Raise e, w'') => (Raise e, w'')
               end
           | (Raise e, w') =>
               match cleanup w' with
               | (Ok _, w'') => (Raise e, w'')
               | (Raise e', w'') => (Raise e', w'')
               end
           end.

(** [try: body except <class>: handler], the class given by the
    exceptions it has *)
Definition try_except {A} (class : exn -> bool) (body : M A) (handler : exn -> M A)
  : M A :=
  fun w => match body w with
           | (Raise e, w') => if class e then handler e w' else (Raise e, w')
           | r => r
           end.

Definition is_FileExistsError (e : exn) : bool :=
  match e with
  | FileExistsError _ => true
  | _ => false
  end.

Definition is_OSError (e : exn) : bool :=
  match e with
  | OSError _ | FileNotFoundError _ | FileExistsError _ | NotADirectoryError _ => true
  | _ => false
  end.

(** [try: body except TypeError: handler] *)
Definition try_except_TypeError {A} (body : M A) (handler : M A) : M A :=
  fun w => match body w with
           | (Raise (TypeError _), w') => handler w'
           | r => r
           end.

Definition logger (lvl : level) (msg : string) : M unit :=
  fun w => (Ok tt, emit (Log lvl msg) w).
Definition print (msg : string) : M unit :=
  fun w => (Ok tt, emit (Print msg) w).

Definition os_path_isfile (p : string) : M bool :=
  fun w => (Ok (bool_decide (is_Some (files w !! p))), w).

(** Every read of a file leaves an [OpenFile] event, found or not. *)
Definition open_file (p : string) : M file :=
  fun w => let w' := emit (OpenFile p) w in
           match files w !! p with
           | Some f => (Ok f, w')
           | None => (Raise (FileNotFoundError p), w')
           end.

Definition to_csv (p : string) (t : table) : M unit :=
  fun w => (Ok tt, World (<[p := Csv t]> (files w)) (dirs w) (trace w ++ [WriteFile p])).

(** ** [os.path.join] and string helpers *)

Definition startswith_sep (s : string) : bool :=
  match s with
  | String "/"%char _ => true
  | _ => false
  end.

Fixpoint endswith_sep (s : string) : bool :=
  match s with
  | EmptyString => false
  | String c EmptyString => bool_decide (c = "/"%char)
  | String _ s' => endswith_sep s'
  end.

(** posixpath.join on two components *)
Definition os_path_join (a b : string) : string :=
  if startswith_sep b then b
  else if bool_decide (a = "") || endswith_sep a then a ++ b
  else a ++ "/" ++ b.

(** [s.rstrip('/')] *)
Fixpoint rstrip_sep (s : string) : string :=
  match s with
  | EmptyString => EmptyString
  | String c s' =>
      let r := rstrip_sep s' in
      if bool_decide (c = "/"%char) && bool_decide (r = "") then "" else String c r
  end.

(** [(p[:i], p[i:])] for [i] just after the last separator of [p] *)
Fixpoint split_last_sep (p : string) : string * string :=
  match p with
  | EmptyString => ("", "")
  | String c p' =>
      let ht := split_last_sep p' in
      if bool_decide (ht.1 = "") then
        if bool_decide (c = "/"%char) then ("/", p') else ("", String c p')
      else (String c ht.1, ht.2)
  end.

(** posixpath.split: the head loses its trailing separators, unless it is
    made of separators only *)
Definition os_path_split (p : string) : string * string :=
  let ht := split_last_sep p in
  (if bool_decide (rstrip_sep ht.1 = "") then ht.1 else rstrip_sep ht.1, ht.2).

(** ** Directories

    A directory is named by the text of its path, trailing separators
    apart; '.', '..', repeated separators and links are not resolved.  The
    root is there; the empty head of a relative path stands for the current
    directory, which is there too. *)

Definition entry_of (p : string) : string :=
  if startswith_sep p && bool_decide (rstrip_sep p = "") then "/" else rstrip_sep p.

Definition is_dir (w : world) (p : string) : bool :=
  let e := entry_of p in
  bool_decide (e = "/") || (negb (bool_decide (e = "")) && bool_decide (e ∈ dirs w)).

Definition os_path_isdir (p : string) : M bool :=
  fun w => (Ok (is_dir w p), w).
Definition os_path_exists (p : string) : M bool :=
  fun w => (Ok (bool_decide (is_Some (files w !! p)) || is_dir w p), w).

(** [os.mkdir]: the entry must be new, and its parent a directory *)
Definition os_mkdir (p : string) : M unit :=
  fun w =>
    let e := entry_of p in
    let parent := (os_path_split e).1 in
    if bool_decide (e = "") then (Raise (FileNotFoundError p), w)
    else if is_dir w e || bool_decide (is_Some (files w !! e))
    then (Raise (FileExistsError p), w)
    else if bool_decide (is_Some (files w !! parent))
    then (Raise (NotADirectoryError p), w)
    else if bool_decide (parent = "") || is_dir w parent
    then (Ok tt, World (files w) ({[e]} ∪ dirs w) (trace w))
    else (Raise (FileNotFoundError p), w).

(** [os.makedirs(name, exist_ok=True)], as the standard library has it:
    the missing ancestors first, then the directory; an error of the last
    step is passed over when the directory is there.  The recursion is on
    the head of the path, which is shorter than the path. *)
Fixpoint os_makedirs_from (fuel : nat) (name : string) : M unit :=
  let ht := os_path_split name in
  let ht := if bool_decide (ht.2 = "") then os_path_split ht.1 else ht in
  let head := ht.1 in
  let tail := ht.2 in
  finished <-
    (if negb (bool_decide (head = "")) && negb (bool_decide (tail = "")) then
       e <- os_path_exists head;;
       if e then ret false
       else
         (match fuel with
          | 0 => ret tt
          | S fuel' =>
              try_except is_FileExistsError (os_makedirs_from fuel' head)
                (fun _ => ret tt)
          end);;;
         ret (bool_decide (tail = "."))
     else ret false);;
  if (finished : bool) then ret tt
  else
    try_except is_OSError (os_mkdir name)
      (fun e => b <- os_path_isdir name;; if b then ret tt else raise e).

Definition os_makedirs (name : string) : M unit :=
  os_makedirs_from (String.length name) name.

(** ** Columns, boolean masks and row selection *)

Fixpoint col_lookup (t : table) (name : string) : option column :=
  match t with
  | [] => None
  | (n, c) :: t' => if bool_decide (n = name) then Some c else col_lookup t' name
  end.

(** [t[name]]: a KeyError when the table has no such column *)
Definition getitem (t : table) (name : string) : M column :=
  match col_lookup t name with
  | Some c => ret c
  | None => raise (KeyError name)
  end.

(** [a & b] on boolean vectors *)
Definition vand (a b : list bool) : list bool := zip_with andb a b.

(** [l[m]] for a boolean vector [m] *)
Fixpoint mask_select {A} (m : list bool) (l : list A) : list A :=
  match m, l with
  | b :: m', x :: l' => if b then x :: mask_select m' l' else mask_select m' l'
  | _, _ => []
  end.

Definition table_mask (m : list bool) (t : table) : table :=
  map (fun nc => (nc.1, mask_select m nc.2)) t.

(** [c[idx]] for a vector of row numbers: out of range is an IndexError *)
Definition take_rows (idx : list nat) (c : column) : option column :=
  mapM (fun i => c !! i) idx.

Definition table_take (idx : list nat) (t : table) : M table :=
  match mapM (fun nc => pair nc.1 <$> take_rows idx nc.2) t with
  | Some t' => ret t'
  | None => raise IndexError
  end.

(** All columns of a well-formed table have the same number of rows. *)
Definition table_wf (n : nat) (t : table) : Prop :=
  Forall (fun nc => length nc.2 = n) t.

(** ** [np.percentile], default linear method *)

Definition float_of_nat (n : nat) : float := of_uint63 (Uint63.of_Z (Z.of_nat n)).

(** floor of a non-negative finite float, as an index *)
Definition floor_index (x : float) : nat :=
  match Prim2SF x with
  | S754_finite false m e => Z.to_nat (Z.shiftl (Z.pos m) e)
  | _ => 0
  end.

Fixpoint insert_sorted (x : float) (l : list float) : list float :=
  match l with
  | [] => [x]
  | y :: l' => if (x <=? y)%float then x :: y :: l' else y :: insert_sorted x l'
  end.

Definition sort_floats (l : list float) : list float := foldr insert_sorted [] l.

(** numpy's [_lerp] *)
Definition lerp (a b t : float) : float :=
  let diff_b_a := (b - a)%float in
  if (0.5 <=? t)%float then (b - diff_b_a * (1 - t))%float
  else (a + diff_b_a * t)%float.

(** The percentile of a vector that has an entry and no nan: the virtual
    index [(n-1)*(q/100)], its floor, and the interpolation between the two
    neighbours in sorted order. *)
Definition percentile (a : list float) (q : float) : float :=
  let n := length a in
  let s := sort_floats a in
  let virtual_index := (float_of_nat (n - 1) * (q / 100))%float in
  if (float_of_nat (n - 1) <=? virtual_index)%float then List.last s nan
  else
    let previous := floor_index virtual_index in
    let gamma := (virtual_index - float_of_nat previous)%float in
    lerp (nth previous s nan) (nth (S previous) s nan) gamma.

(** [np.percentile(a, q)]: of no entry there is no percentile, the index
    into the sorted vector is out of bounds *)
Definition np_percentile (a : list float) (q : float) : M float :=
  match a with
  | [] => raise IndexError
  | _ :: _ => ret (percentile a q)
  end.

(** ** The object [SplusGaiaAst] *)

Record SplusGaiaAst : Type := {
  tiles : string;
  workdir : string;
  datadir : option string;
  gaia_dr : string;
  cat_name_preffix : string;
  cat_name_suffix : string;
  cathdu : nat;
  racolumn : string;
  decolumn : string;
  mag_column : string;
  flags_column : option string;
  clstar_column : option string;
  fwhm_column : option string;
  sn_column : option string;
  filetype : string;
  angle : float;
  sn_limit : float;
  output : string;
  savefig : bool;
  bins : Z;
  limit : float;
  debug : bool;
  verbose : bool
}.

(** The defaults of the command line (lines 47-93) *)
Definition parser_defaults (tiles workdir : string) : SplusGaiaAst := {|
  tiles := tiles;
  workdir := workdir;
  datadir := None;
  gaia_dr := "355";
  cat_name_preffix := "";
  cat_name_suffix := "";
  cathdu := 1;
  racolumn := "RA";
  decolumn := "DEC";
  mag_column := "MAG_AUTO";
  flags_column := None;
  clstar_column := None;
  fwhm_column := None;
  sn_column := None;
  filetype := ".fits";
  angle := 1.0%float;
  sn_limit := 10.0%float;
  output := "splus_gaia_astrometry";
  savefig := false;
  bins := 1000%Z;
  limit := 0.5%float;
  debug := false;
  verbose := false
|}.

(** [gasp.datadir = d] *)
Definition set_datadir (g : SplusGaiaAst) (d : option string) : SplusGaiaAst := {|
  tiles := tiles g;
  workdir := workdir g;
  datadir := d;
  gaia_dr := gaia_dr g;
  cat_name_preffix := cat_name_preffix g;
  cat_name_suffix := cat_name_suffix g;
  cathdu := cathdu g;
  racolumn := racolumn g;
  decolumn := decolumn g;
  mag_column := mag_column g;
  flags_column := flags_column g;
  clstar_column := clstar_column g;
  fwhm_column := fwhm_column g;
  sn_column := sn_column g;
  filetype := filetype g;
  angle := angle g;
  sn_limit := sn_limit g;
  output := output g;
  savefig := savefig g;
  bins := bins g;
  limit := limit g;
  debug := debug g;
  verbose := verbose g
|}.

(** What [parse_args] returns: the attributes [SplusGaiaAst.__init__]
    copies, and the path of the footprint. *)
Record Namespace : Type := {
  ns_gasp : SplusGaiaAst;
  ns_footprint : string
}.

(** The survey footprint: the column of names and the numeric columns. *)
Record footprint_table : Type := {
  fp_NAME : list string;
  fp_cols : table
}.

(** ** The libraries the script delegates to

    Their results are taken as given: the sky match of astropy (for each
    survey entry the row number of its nearest reference entry and the
    separation to it, in arcsec), numpy's cosine of an angle in degrees,
    argparse, the reader of the footprint, pandas on the lines of the list
    of tiles, [os.path.abspath] (which knows the current directory), and
    the number of one-second polls that find a worker alive.

    The Vizier query goes through astroquery, which keeps the responses it
    got in files of its cache directory, one file a request, named by a
    hash of the request.  [query_region] is given the catalogue, the centre
    and the radius, the cache directory and the files and directories as
    they are; it answers with the tables, with what it writes to the file
    of the request if it writes it, and with the directories it makes. *)
Class Ecosystem : Type := {
  match_to_catalog_3d :
    column -> column -> column -> column -> result (list nat * list float);
  np_cos_deg : float -> float;
  query_region :
    string -> float -> float -> float -> string -> gmap string file -> gset string ->
    result (list table) * option file * gset string;
  request_hash : string -> float -> float -> float -> string;
  parse_args : list string -> result Namespace;
  ascii_read_footprint : file -> result footprint_table;
  pd_read_names : list string -> result (list string);
  os_path_abspath : string -> string;
  polls_alive : nat
}.

(** The names bound at module level when the code of the class runs: the
    imports, the functions and the class, and the assignments of the
    [__main__] block that precede its [sys.exit()]. *)
Definition module_globals : list string :=
  ["contour_pdf"; "os"; "sys"; "np"; "ascii"; "fits"; "SkyCoord"; "u"; "Angle";
   "Vizier"; "pd"; "plt"; "multiprocessing"; "time"; "glob"; "argparse";
   "logging"; "colorlog"; "parser"; "SplusGaiaAst"; "plot_diffs";
   "call_logger"; "get_footprint"; "get_fields_names"; "code_path"; "args";
   "gasp"; "textfile_path"; "fields"; "footprint"; "field_names"].

(** Reading a name that is neither local nor bound at module level *)
Definition global_name (name : string) : M unit :=
  if bool_decide (name ∈ module_globals) then ret tt else raise (NameError name).

Fixpoint for_each {A} (l : list A) (body : A -> M unit) : M unit :=
  match l with
  | [] => ret tt
  | x :: l' => body x ;;; for_each l' body
  end.

Definition index0 {A} (l : list A) : M A :=
  match l with
  | x :: _ => ret x
  | [] => raise IndexError
  end.

(** [ascii.read(path, format='csv')] and [pd.read_csv(path)] *)
Definition read_csv (p : string) : M table :=
  f <- open_file p;;
  match f with
  | Csv t => ret t
  | Fits _ | Text _ | Pickle _ => raise ValueError
  end.

(** [fits.open(path)[hdu].data] *)
Definition fits_open_data (p : string) (hdu : nat) : M (option table) :=
  f <- open_file p;;
  match f with
  | Fits hdus =>
      match hdus !! hdu with
      | Some data => ret data
      | None => raise IndexError
      end
  | Csv _ | Text _ | Pickle _ => raise (OSError p)
  end.

(** ** The paths of the script *)

(** Where [get_gaia] saves the catalogue it fetched (lines 184-185) *)
Definition get_gaia_cat_path (workdir gaia_dr tilename : string) : string :=
  os_path_join workdir ("gaia_" ++ gaia_dr ++ "_" ++ tilename ++ ".csv").

(** The directory [get_gaia] creates before it saves (lines 186-188) *)
Definition get_gaia_cat_dir (workdir gaia_dr : string) : string :=
  os_path_join workdir ("gaia_" ++ gaia_dr).

(** The cache directory of astroquery that [get_gaia] sets (line 169) *)
Definition vizier_cache_path (workdir : string) : string :=
  os_path_join workdir ".astropy/cache/astroquery/Vizier/".

(** Where [calculate_astdiff] looks for a saved catalogue (lines 256-257) *)
Definition astdiff_gaia_cat_path (workdir gaia_dr tile : string) : string :=
  os_path_join workdir ("gaia_" ++ gaia_dr ++ "/" ++ tile ++ ".csv").

Definition results_dir_of (workdir : string) : string :=
  os_path_join workdir "results/".

(** The per-tile result file (lines 245-246) *)
Definition path_to_results_of (results_dir tile : string) : string :=
  os_path_join results_dir (tile ++ "_mar-gaiaDR3_diff.csv").

Definition survey_cat_path (workdir pre tile suf : string) : string :=
  os_path_join workdir (pre ++ tile ++ suf).

(** ** The survey catalogue *)

(** What holds the survey catalogue: the record array of a FITS table, or a
    frame of pandas *)
Inductive frame : Type := FitsRec | DataFrame.

Inductive survey_data : Type :=
| Catalogue (kind : frame) (t : table)
| NoData.

(** ** The quality selection (lines 294-319) *)

Section Pipeline.
Context `{Eco : Ecosystem}.

Definition mag_stage (self : SplusGaiaAst) (scat : table) : M (list bool) :=
  mag <- getitem scat (mag_column self);;
  let sample := map (fun x => (14 <? x)%float) mag in
  mag' <- getitem scat (mag_column self);;
  ret (vand sample (map (fun x => (x <? 19)%float) mag')).

Definition flags_stage (self : SplusGaiaAst) (scat : table) (sample : list bool)
  : M (list bool) :=
  match flags_column self with
  | None =>
      logger WARNING "FLAGS column not available. Skipping using flags to object selection";;;
      ret sample
  | Some c =>
      flags <- getitem scat c;;
      ret (vand sample (map (fun x => (x =? 0)%float) flags))
  end.

Definition clstar_stage (self : SplusGaiaAst) (scat : table) (sample : list bool)
  : M (list bool) :=
  match clstar_column self with
  | None =>
      logger WARNING "CLASS_STAR column not available. Skipping using CLASS_STAR to object selection";;;
      ret sample
  | Some c =>
      try_finally
        (clstar <- getitem scat c;;
         ret (vand sample (map (fun x => (0.95 <? x)%float) clstar)))
        (logger WARNING "Column for CLASS_STAR not found. Ignoring")
  end.

Definition fwhm_stage (self : SplusGaiaAst) (scat : table) (sample : list bool)
  : M (list bool) :=
  match fwhm_column self with
  | None =>
      logger WARNING "FWHM column not available. Skipping using FWHM to object selection";;;
      ret sample
  | Some c =>
      fwhm <- getitem scat c;;
      ret (vand sample (map (fun x => (x * 3600 <? 2.5)%float) fwhm))
  end.

Definition sn_stage (self : SplusGaiaAst) (scat : table) (sample : list bool)
  : M (list bool) :=
  match sn_column self with
  | None =>
      logger WARNING "SN column not available. Skipping using SN to object selection";;;
      ret sample
  | Some c =>
      sn <- getitem scat c;;
      ret (vand sample (map (fun x => (sn_limit self <? x)%float) sn))
  end.

Definition quality_sample (self : SplusGaiaAst) (scat : table) : M (list bool) :=
  sample <- mag_stage self scat;;
  sample <- flags_stage self scat sample;;
  sample <- clstar_stage self scat sample;;
  sample <- fwhm_stage self scat sample;;
  sn_stage self scat sample.

(** ** Matching, outlier trim and differences (lines 286-343) *)

(** [idx] and [separation = d2d < 5.0 * u.arcsec] *)
Definition sky_match (self : SplusGaiaAst) (scat gaia_data : table)
  : M (list nat * list bool) :=
  ra_s <- getitem scat (racolumn self);;
  dec_s <- getitem scat (decolumn self);;
  ra_g <- getitem gaia_data "RAJ2000";;
  dec_g <- getitem gaia_data "DEJ2000";;
  m <- lift_result (match_to_catalog_3d ra_s dec_s ra_g dec_g);;
  ret (m.1, map (fun d => (d <? 5.0)%float) m.2).

(** [abs(finalgaia['pmRA']) + abs(finalgaia['pmDE'])] *)
Definition abspm_of (finalgaia : table) : M column :=
  pmRA <- getitem finalgaia "pmRA";;
  pmDE <- getitem finalgaia "pmDE";;
  ret (zip_with (fun a b => (abs a + abs b)%float) pmRA pmDE).

(** The mask of [np.ma.masked_invalid]: true where the value is not finite *)
Definition masked_invalid_mask (a : column) : list bool :=
  map (fun x => negb (is_finite x)) a.

(** [lmt] of line 327 *)
Definition outlier_limit (abspm : column) : M float :=
  np_percentile (mask_select (map negb (masked_invalid_mask abspm)) abspm) 95.

(** [mask] of line 328 *)
Definition outlier_mask (abspm : column) (lmt : float) : list bool :=
  vand (map (fun x => (x <? lmt)%float) abspm)
       (map negb (masked_invalid_mask abspm)).

Definition dediff_of (dec_s dec_g : float) : float := (3600 * (dec_s - dec_g))%float.
Definition radiff_of (ra_s ra_g dec_g : float) : float :=
  (3600 * (ra_s - ra_g) * np_cos_deg dec_g)%float.

(** The dictionary [d] of lines 329-342, a table of seven columns *)
Definition differences (self : SplusGaiaAst) (finalscat finalgaia : table)
    (abspm : column) (mask : list bool) : M table :=
  dec_s <- getitem finalscat (decolumn self);;
  dec_g <- getitem finalgaia "DEJ2000";;
  let dediff := zip_with dediff_of (mask_select mask dec_s) (mask_select mask dec_g) in
  ra_s <- getitem finalscat (racolumn self);;
  ra_g <- getitem finalgaia "RAJ2000";;
  let radiff :=
    zip_with (fun sg d => radiff_of sg.1 sg.2 d)
             (zip (mask_select mask ra_s) (mask_select mask ra_g))
             (mask_select mask dec_g) in
  ret [("RA", mask_select mask ra_s);
       ("DEC", mask_select mask dec_s);
       ("RAJ2000", mask_select mask ra_g);
       ("DEJ2000", mask_select mask dec_g);
       ("radiff", radiff);
       ("dediff", dediff);
       ("abspm", mask_select mask abspm)].

(** [t[m]] for the reference catalogue, an astropy Table, and a boolean
    vector [m]: an array selects rows; a pandas Series is no index of a
    Table, a ValueError *)
Definition table_getitem (kind : frame) (m : list bool) (t : table) : M table :=
  match kind with
  | FitsRec => ret (table_mask m t)
  | DataFrame => raise ValueError
  end.

(** Lines 286-343: from the two catalogues to the table of results.  The
    kind of the survey catalogue is the kind of the vectors computed from
    its columns: arrays for a FITS record, Series for a frame of pandas. *)
Definition astdiff_table (self : SplusGaiaAst) (kind : frame) (scat gaia_data : table)
  : M table :=
  m <- sky_match self scat gaia_data;;
  let idx := m.1 in
  let separation := m.2 in
  sample <- quality_sample self scat;;
  let finalscat := table_mask (vand separation sample) scat in
  gaia_idx <- table_take idx gaia_data;;
  finalgaia <- table_getitem kind (vand separation sample) gaia_idx;;
  abspm <- abspm_of finalgaia;;
  lmt <- outlier_limit abspm;;
  differences self finalscat finalgaia abspm (outlier_mask abspm lmt).

(** The survey catalogue as [calculate_astdiff] holds it.  The data of an
    HDU without a table is None, and None has no items: line 287 raises. *)
Definition astdiff_survey (self : SplusGaiaAst) (scat : survey_data)
    (gaia_data : table) : M table :=
  match scat with
  | Catalogue kind t => astdiff_table self kind t gaia_data
  | NoData => raise (TypeError "'NoneType' object is not subscriptable")
  end.

(** ** [get_gaia] (lines 133-198) *)

(** The file in which astroquery keeps the response to a request *)
Definition request_file (cache_location catalog : string) (coords : float * float)
    (radius : float) : string :=
  os_path_join cache_location (request_hash catalog coords.1 coords.2 radius ++ ".pickle").

Definition vizier_query (catalog : string) (coords : float * float) (radius : float)
    (cache_location : string) : M (list table) :=
  fun w =>
    let p := request_file cache_location catalog coords radius in
    let r := query_region catalog coords.1 coords.2 radius cache_location
               (files w) (dirs w) in
    (r.1.1,
     World (match r.1.2 with
            | Some f => <[p := f]> (files w)
            | None => files w
            end)
           (r.2 ∪ dirs w)
           (trace w ++ [Query catalog coords.1 coords.2 radius])).

Definition get_gaia (self : SplusGaiaAst) (tile_coords : float * float)
    (tilename : string) (workdir_arg gaia_dr_arg : option string)
    (angle_arg : option float) : M table :=
  let workdir := default (workdir self) workdir_arg in
  let gaia_dr := default (gaia_dr self) gaia_dr_arg in
  let angle := default (angle self) angle_arg in
  logger INFO "Querying gaia/vizier";;;
  let cache_path := vizier_cache_path workdir in
  b <- os_path_isdir cache_path;;
  (if b then ret tt
   else
     try_except is_FileExistsError (os_makedirs cache_path)
       (fun _ => logger INFO ("File " ++ cache_path ++ " already exists. Skipping")));;;
  tables <- vizier_query ("I/" ++ gaia_dr) tile_coords angle cache_path;;
  gaia_data <- index0 tables;;
  ra <- getitem gaia_data "RAJ2000";;
  de <- getitem gaia_data "DEJ2000";;
  let mask := vand (map is_nan ra) (map is_nan de) in
  let gaia_data := table_mask (map negb mask) gaia_data in
  (* line 181: [logger], not [self.logger] *)
  global_name "logger";;;
  logger INFO "Gaia_data is %s";;;
  let gaia_cat_path := get_gaia_cat_path workdir gaia_dr tilename in
  b <- os_path_isdir (get_gaia_cat_dir workdir gaia_dr);;
  (if b then ret tt
   else
     try_except is_FileExistsError (os_mkdir (get_gaia_cat_dir workdir gaia_dr))
       (fun _ => logger INFO ("File " ++ get_gaia_cat_dir workdir gaia_dr
                              ++ " already exists. Skipping")));;;
  (if verbose self
   then logger INFO ("Saving gaia catalogue to cache " ++ gaia_cat_path)
   else ret tt);;;
  to_csv gaia_cat_path gaia_data;;;
  ret gaia_data.

(** The default of the parameter [angle] of [get_gaia] *)
Definition get_gaia_angle_default : float := 1.0%float.

(** ** [calculate_astdiff] (lines 200-348) *)

(** Lines 264-284: the survey catalogue, by the configured file type *)
Definition load_survey (self : SplusGaiaAst) (workdir pre suf tile : string)
  : M survey_data :=
  if bool_decide (filetype self = ".fits") then
    try_except_TypeError
      (data <- fits_open_data (survey_cat_path workdir pre tile suf) (cathdu self);;
       ret (match data with
            | Some t => Catalogue FitsRec t
            | None => NoData
            end))
      (logger ERROR "Catalogue is not in FITS format. Define the proper format of the default variable filetype";;;
       raise (TypeError "Catalogue is not in FITS format"))
  else if bool_decide (filetype self = ".csv") then
    try_except_TypeError
      (t <- read_csv (survey_cat_path workdir pre tile suf);;
       ret (Catalogue DataFrame t))
      (logger ERROR "Catalogue is not in CSV format. Define the proper format of the default variable filetype";;;
       raise (TypeError "Catalogue is not in CSV format"))
  else
    logger ERROR "Filetype for input catalogue not supported. Use FITS or CSV";;;
    raise (TypeError "Filetype for input catalogue not supported").

(** Lines 251-262: the centre of the tile and the reference catalogue *)
Definition load_gaia (self : SplusGaiaAst) (footprint : footprint_table)
    (field_names : list string) (workdir gaia_dr tile : string) : M table :=
  ra <- getitem (fp_cols footprint) "RA";;
  let sra := mask_select (map (fun n => bool_decide (n = tile)) field_names) ra in
  dec <- getitem (fp_cols footprint) "DEC";;
  let sdec := mask_select (map (fun n => bool_decide (n = tile)) field_names) dec in
  sra0 <- index0 sra;;
  sdec0 <- index0 sdec;;
  let tile_coords := (sra0, sdec0) in
  let gaia_cat_path := astdiff_gaia_cat_path workdir gaia_dr tile in
  b <- os_path_isfile gaia_cat_path;;
  if b then
    logger INFO "Reading gaia cat from database";;;
    read_csv gaia_cat_path
  else
    get_gaia self tile_coords tile None None (Some get_gaia_angle_default).

(** The body of the loop over the tiles (lines 242-346) *)
Definition astdiff_tile (self : SplusGaiaAst) (footprint : footprint_table)
    (field_names : list string) (workdir gaia_dr pre suf results_dir tile : string)
  : M unit :=
  if bool_decide (tile = "fakename") then
    logger INFO "This is a filler name"
  else
    let path_to_results := path_to_results_of results_dir tile in
    b <- os_path_isfile path_to_results;;
    if b then
      logger INFO ("Catalogue for tile " ++ tile ++ " already exists. Skipping")
    else
      gaia_data <- load_gaia self footprint field_names workdir gaia_dr tile;;
      scat <- load_survey self workdir pre suf tile;;
      results <- astdiff_survey self scat gaia_data;;
      logger INFO ("saving results to " ++ path_to_results);;;
      print ("saving results to " ++ path_to_results);;;
      to_csv path_to_results results.

(** [fields] is the module-level name the loop reads; it is given here as
    the list of the values the iteration yields. *)
Definition calculate_astdiff (self : SplusGaiaAst) (fields : list string)
    (footprint : footprint_table) (field_names : list string)
    (workdir_arg gaia_dr_arg cat_name_preffix_arg cat_name_suffix_arg : option string)
  : M unit :=
  let gaia_dr := default (gaia_dr self) gaia_dr_arg in
  let workdir := default (workdir self) workdir_arg in
  let pre := default (cat_name_preffix self) cat_name_preffix_arg in
  let suf := default (cat_name_suffix self) cat_name_suffix_arg in
  let results_dir := results_dir_of workdir in
  b <- os_path_isdir results_dir;;
  (if b then ret tt else os_mkdir results_dir);;;
  for_each fields
    (astdiff_tile self footprint field_names workdir gaia_dr pre suf results_dir).

End Pipeline.

(** ** The [__main__] block (lines 548-630) *)

Section Main.
Context `{Eco : Ecosystem}.

(** [call_logger] resets and installs the logging handlers *)
Definition call_logger : M unit := ret tt.

Definition sys_exit {A} (code : option Z) : M A := raise (SystemExit code).

(** [parser()]: [sys.argv] holds the program name alone, or argparse reads it *)
Definition parser (argv : list string) : M Namespace :=
  if bool_decide (length argv = 1) then
    print "usage";;;
    raise (ArgumentTypeError "No arguments provided. Showing the help message.")
  else lift_result (parse_args argv).

Definition get_footprint (foot_path : string) : M footprint_table :=
  let path_to_foot := os_path_abspath foot_path in
  fun w => match open_file path_to_foot w with
           | (Ok f, w') => lift_result (ascii_read_footprint f) w'
           | (Raise (FileNotFoundError _), w') =>
               (logger ERROR ("Footprint file " ++ path_to_foot ++ " not found");;;
                sys_exit (Some 1%Z)) w'
           | (Raise e, w') => (Raise e, w')
           end.

Fixpoint replace_underscore (s : string) : string :=
  match s with
  | EmptyString => EmptyString
  | String c s' =>
      String (if bool_decide (c = "_"%char) then "-"%char else c) (replace_underscore s')
  end.

Definition get_fields_names (footprint : footprint_table) : list string :=
  map replace_underscore (fp_NAME footprint).

(** [pd.read_csv(textfile_path, sep=' ', header=None, names=['NAME'])]: the
    column [NAME] of the frame.  A file with no line, or with empty lines
    only, has no column to parse; the lines of any other are pandas' to
    read. *)
Definition read_fields (p : string) : M (list string) :=
  f <- open_file p;;
  match f with
  | Text lines =>
      if forallb (fun l => bool_decide (l = "")) lines then raise EmptyDataError
      else lift_result (pd_read_names lines)
  | Csv _ | Fits _ | Pickle _ => raise ValueError
  end.

Definition num_procs : nat := 8.

Fixpoint unique_count (l : list string) : nat :=
  match l with
  | [] => 0
  | x :: l' => if bool_decide (x ∈ l') then unique_count l' else S (unique_count l')
  end.

(** [np.array(b).reshape((rows, len(b) / rows))] *)
Fixpoint chunks (fuel width : nat) (b : list string) : list (list string) :=
  match fuel with
  | 0 => []
  | S fuel' => take width b :: chunks fuel' width (drop width b)
  end.

Definition reshape (rows : nat) (b : list string) : M (list (list string)) :=
  if bool_decide (length b `mod` rows = 0)
  then ret (chunks rows (length b `div` rows) b)
  else raise ValueError.

Definition process_start (job : list string) : M unit :=
  fun w => (Ok tt, emit (ProcStart job) w).

Definition time_sleep : M unit := fun w => (Ok tt, emit Sleep w).

(** The join: one poll a second while a worker is alive *)
Fixpoint poll_jobs (alive : nat) : M unit :=
  match alive with
  | 0 => print "All jobs finished"
  | S alive' => time_sleep;;; poll_jobs alive'
  end.

(** Lines 571-610: the fan-out over worker processes *)
Definition fan_out (b : list string) : M unit :=
  if bool_decide (num_procs = 1) then
    let num_fields := unique_count b in
    b <- (if bool_decide (0 < num_fields `mod` num_procs) then
            print "reprojecting";;;
            let increase_to := num_fields `div` num_procs + 1 in
            let b := (b ++ replicate (increase_to * num_procs - num_fields) "fakename")%list in
            print "already fulfill the conditions";;;
            ret b
          else ret b);;
    tiles <- reshape num_procs b;;
    print "calculating for a total of";;;
    print "creating";;;
    let jobs := tiles in
    print "starting";;;
    for_each jobs process_start;;;
    poll_jobs polls_alive;;;
    print "Done!"
  else ret tt.

(** What follows [sys.exit()] at line 569.  The stacking and the plot under
    [if make_plot:] are not embedded: the name [make_plot] is bound nowhere,
    reading it raises. *)
Definition main_after_exit (fields : list string) : M unit :=
  fan_out fields;;;
  global_name "make_plot".

Definition main (argv : list string) : M unit :=
  call_logger;;;
  args <- parser argv;;
  let gasp :=
    set_datadir (ns_gasp args)
      (Some (default (workdir (ns_gasp args)) (datadir (ns_gasp args)))) in
  let textfile_path := os_path_join (workdir gasp) (tiles gasp) in
  e <- os_path_exists textfile_path;;
  (if e then ret tt
   else raise (AssertionError ("File " ++ textfile_path ++ " does not exist")));;;
  fields <- read_fields textfile_path;;
  footprint <- get_footprint (ns_footprint args);;
  let field_names := get_fields_names footprint in
  (sys_exit None : M unit);;;
  main_after_exit fields.

End Main.

(** * Properties *)

(** ** Running monadic code *)

Lemma bind_ok {A B} (m : M A) (k : A -> M B) w a w' :
  m w = (Ok a, w') -> bind m k w = k a w'.
Proof. intros H. unfold bind. by rewrite H. Qed.

Lemma bind_raise {A B} (m : M A) (k : A -> M B) w e w' :
  m w = (Raise e, w') -> bind m k w = (Raise e, w').
Proof. intros H. unfold bind. by rewrite H. Qed.

Lemma bind_ok_inv {A B} (m : M A) (k : A -> M B) w b w' :
  bind m k w = (Ok b, w') -> exists a w1, m w = (Ok a, w1) /\ k a w1 = (Ok b, w').
Proof.
  unfold bind. destruct (m w) as [[a|e] w1]; intros H; [eauto | discriminate].
Qed.

Lemma bind_assoc {A B C} (m : M A) (f : A -> M B) (k : B -> M C) w :
  bind (bind m f) k w = bind m (fun a => bind (f a) k) w.
Proof. unfold bind. by destruct (m w) as [[a|e] w1]. Qed.

Lemma bind_ext {A B} (m : M A) (f g : A -> M B) w :
  (forall a w1, f a w1 = g a w1) -> bind m f w = bind m g w.
Proof. intros H. unfold bind. by destruct (m w) as [[a|e] w1]. Qed.

Lemma getitem_some t name c w :
  col_lookup t name = Some c -> getitem t name w = (Ok c, w).
Proof. intros H. unfold getitem. by rewrite H. Qed.

Lemma getitem_none t name w :
  col_lookup t name = None -> getitem t name w = (Raise (KeyError name), w).
Proof. intros H. unfold getitem. by rewrite H. Qed.

Lemma getitem_world {t name} {w : world} {r w'} :
  getitem t name w = (r, w') -> w' = w.
Proof. unfold getitem. destruct (col_lookup t name); unfold ret, raise; congruence. Qed.

Lemma isfile_true p w :
  is_Some (files w !! p) -> os_path_isfile p w = (Ok true, w).
Proof. intros H. unfold os_path_isfile. by rewrite bool_decide_eq_true_2. Qed.

Lemma isfile_false p w :
  files w !! p = None -> os_path_isfile p w = (Ok false, w).
Proof.
  intros H. unfold os_path_isfile. rewrite bool_decide_eq_false_2; [done|].
  rewrite H. by intros [? ?].
Qed.

(** ** Paths *)

Lemma os_path_join_relative a b :
  startswith_sep b = false -> a <> "" -> endswith_sep a = false ->
  os_path_join a b = a ++ "/" ++ b.
Proof.
  intros Hb Ha He. unfold os_path_join. rewrite Hb, He.
  by rewrite bool_decide_eq_false_2.
Qed.

Lemma string_app_cons x (a b : string) : String x a ++ b = String x (a ++ b).
Proof. done. Qed.

Lemma string_app_assoc (a b c : string) : (a ++ b) ++ c = a ++ b ++ c.
Proof. induction a as [|x a IH]; [done|]. by rewrite !string_app_cons, IH. Qed.

Lemma endswith_sep_app a b :
  b <> "" -> endswith_sep (a ++ b) = endswith_sep b.
Proof.
  intros Hb. induction a as [|x a IH]; [done|].
  rewrite string_app_cons. simpl. destruct (a ++ b) eqn:E; [|done].
  destruct a, b; simplify_eq/=.
Qed.

Lemma os_path_join_inj a b1 b2 :
  startswith_sep b1 = false -> startswith_sep b2 = false ->
  os_path_join a b1 = os_path_join a b2 -> b1 = b2.
Proof.
  intros H1 H2. unfold os_path_join. rewrite H1, H2.
  destruct (bool_decide (a = "") || endswith_sep a); intros H.
  - by apply (inj (String.app a)) in H.
  - apply (inj (String.app a)) in H. by simplify_eq/=.
Qed.

(** The last character of a path tells a pickle of astroquery from a
    table of the script. *)
Fixpoint last_char (s : string) : option ascii :=
  match s with
  | EmptyString => None
  | String c EmptyString => Some c
  | String _ s' => last_char s'
  end.

(** [s.endswith(suffix)] *)
Fixpoint endswith (suffix s : string) : bool :=
  match s with
  | EmptyString => bool_decide (suffix = "")
  | String c s' => bool_decide (String c s' = suffix) || endswith suffix s'
  end.

Definition is_pickle (p : string) : bool := endswith ".pickle" p.

Lemma last_char_app a b : b <> "" -> last_char (a ++ b) = last_char b.
Proof.
  intros Hb. induction a as [|x a IH]; [done|].
  rewrite string_app_cons. simpl. destruct (a ++ b) eqn:E; [|done].
  destruct a, b; simplify_eq/=.
Qed.

Lemma endswith_last_char suffix s :
  suffix <> "" -> endswith suffix s = true -> last_char s = last_char suffix.
Proof.
  intros Hs. induction s as [|c s IH]; simpl.
  - intros H. by apply bool_decide_eq_true_1 in H.
  - intros [H|H]%orb_true_elim.
    + apply bool_decide_eq_true_1 in H. by rewrite <- H.
    + rewrite <- (IH H). destruct s; [|done].
      simpl in H. by apply bool_decide_eq_true_1 in H.
Qed.

Lemma last_char_join a b : b <> "" -> last_char (os_path_join a b) = last_char b.
Proof.
  intros Hb. unfold os_path_join. destruct (startswith_sep b); [done|].
  destruct (_ || _); [by apply last_char_app|].
  rewrite last_char_app; [|by destruct b]. apply (last_char_app "/" b Hb).
Qed.

Lemma last_char_suffix a b suffix :
  suffix <> "" -> last_char (os_path_join a (b ++ suffix)) = last_char suffix.
Proof.
  intros Hs. rewrite last_char_join; [by apply last_char_app|].
  destruct b; [done|]. by rewrite string_app_cons.
Qed.

Lemma endswith_app suffix a : endswith suffix (a ++ suffix) = true.
Proof.
  induction a as [|c a IH].
  - destruct suffix; simpl; [done|]. by rewrite bool_decide_eq_true_2.
  - rewrite string_app_cons. simpl. by rewrite IH, orb_true_r.
Qed.

Lemma endswith_join suffix a b :
  suffix <> "" -> endswith suffix (os_path_join a (b ++ suffix)) = true.
Proof.
  intros Hs. unfold os_path_join. destruct (startswith_sep _).
  - apply endswith_app.
  - destruct (_ || _); rewrite <- ?string_app_assoc; apply endswith_app.
Qed.

(** A path whose text ends in 'v', as those of the tables do, is no pickle. *)
Lemma csv_is_no_pickle p : last_char p = Some "v"%char -> is_pickle p = false.
Proof.
  intros Hp. destruct (is_pickle p) eqn:E; [|done].
  apply endswith_last_char in E; [|done]. rewrite Hp in E. discriminate.
Qed.

(** ** The directories *)

(** Code that leaves the files and the trace as they are: it changes
    directories at most *)
Definition quiet {A} (m : M A) : Prop :=
  forall w, files (m w).2 = files w /\ trace (m w).2 = trace w.

Lemma quiet_ret {A} (a : A) : quiet (ret a).
Proof. done. Qed.
Lemma quiet_raise {A} e : quiet (raise (A := A) e).
Proof. done. Qed.
Lemma quiet_isdir p : quiet (os_path_isdir p).
Proof. done. Qed.
Lemma quiet_exists p : quiet (os_path_exists p).
Proof. done. Qed.

Lemma quiet_mkdir p : quiet (os_mkdir p).
Proof. intros w. unfold os_mkdir. by repeat case_match. Qed.

Lemma quiet_bind {A B} (m : M A) (k : A -> M B) :
  quiet m -> (forall a, quiet (k a)) -> quiet (bind m k).
Proof.
  intros Hm Hk w. unfold bind. destruct (Hm w) as [H1 H2].
  destruct (m w) as [[a|e] w1]; simpl in *; [|done].
  destruct (Hk a w1) as [H3 H4]. by rewrite H3, H4.
Qed.

Lemma quiet_try_except {A} class (body : M A) handler :
  quiet body -> (forall e, quiet (handler e)) -> quiet (try_except class body handler).
Proof.
  intros Hb Hh w. unfold try_except. destruct (Hb w) as [H1 H2].
  destruct (body w) as [[a|e] w1]; simpl in *; [done|].
  destruct (class e); [|done].
  destruct (Hh e w1) as [H3 H4]. by rewrite H3, H4.
Qed.

Lemma quiet_makedirs_from fuel name : quiet (os_makedirs_from fuel name).
Proof.
  revert name. induction fuel as [|fuel IH]; intros name; simpl.
  - apply quiet_bind.
    + case_match; [|apply quiet_ret].
      apply quiet_bind; [apply quiet_exists|]. intros [|]; [apply quiet_ret|].
      apply quiet_bind; [apply quiet_ret | intros; apply quiet_ret].
    + intros [|]; [apply quiet_ret|].
      apply quiet_try_except; [apply quiet_mkdir|]. intros e.
      apply quiet_bind; [apply quiet_isdir|]. intros [|];
        [apply quiet_ret | apply quiet_raise].
  - apply quiet_bind.
    + case_match; [|apply quiet_ret].
      apply quiet_bind; [apply quiet_exists|]. intros [|]; [apply quiet_ret|].
      apply quiet_bind; [|intros; apply quiet_ret].
      apply quiet_try_except; [apply IH | intros; apply quiet_ret].
    + intros [|]; [apply quiet_ret|].
      apply quiet_try_except; [apply quiet_mkdir|]. intros e.
      apply quiet_bind; [apply quiet_isdir|]. intros [|];
        [apply quiet_ret | apply quiet_raise].
Qed.

Lemma quiet_makedirs name : quiet (os_makedirs name).
Proof. apply quiet_makedirs_from. Qed.

(** A directory made under [try: ... except FileExistsError:] with a line
    of the log for handler: the files stay, and the trace gets that line
    or nothing. *)
Lemma make_dir_step (mk : M unit) msg w :
  quiet mk ->
  let r := try_except is_FileExistsError mk (fun _ => logger INFO msg) w in
  files r.2 = files w /\
  (trace r.2 = trace w \/
   (r.1 = Ok tt /\ trace r.2 = (trace w ++ [Log INFO msg])%list)).
Proof.
  intros Hq. simpl. unfold try_except. destruct (Hq w) as [H1 H2].
  destruct (mk w) as [[[]|e] w1]; simpl in *; [by auto|].
  destruct (is_FileExistsError e); simpl; [|by auto].
  rewrite H1, H2. auto.
Qed.

Section PipelineFacts.
Context `{Eco : Ecosystem}.

(** *** The recursion of [os.makedirs] *)

Lemma split_last_sep_app p : (split_last_sep p).1 ++ (split_last_sep p).2 = p.
Proof.
  induction p as [|c p IH]; [done|]. simpl.
  case_bool_decide as Hh.
  - rewrite Hh in IH. simpl in IH. case_bool_decide as Hc; simpl.
    + by subst c.
    + done.
  - simpl. by rewrite string_app_cons, IH.
Qed.

Lemma string_length_app (a b : string) :
  String.length (a ++ b) = String.length a + String.length b.
Proof.
  induction a as [|c a IH]; [done|]. rewrite string_app_cons. simpl. by rewrite IH.
Qed.

Lemma rstrip_sep_length s : String.length (rstrip_sep s) <= String.length s.
Proof.
  induction s as [|c s IH]; [done|]. simpl.
  destruct (_ && _); simpl; lia.
Qed.

Lemma os_path_split_length p :
  String.length (os_path_split p).1 + String.length (os_path_split p).2
  <= String.length p.
Proof.
  unfold os_path_split. simpl.
  pose proof (split_last_sep_app p) as H.
  apply (f_equal String.length) in H. rewrite string_length_app in H.
  pose proof (rstrip_sep_length (split_last_sep p).1).
  case_bool_decide; lia.
Qed.

(** The head [os.makedirs] recurses on, and the tail it tests *)
Definition makedirs_split (name : string) : string * string :=
  let ht := os_path_split name in
  if bool_decide (ht.2 = "") then os_path_split ht.1 else ht.

Lemma makedirs_head_shorter name :
  (makedirs_split name).2 <> "" ->
  String.length (makedirs_split name).1 < String.length name.
Proof.
  unfold makedirs_split. cbv zeta.
  pose proof (os_path_split_length name) as H1.
  pose proof (os_path_split_length (os_path_split name).1) as H2.
  case_bool_decide as Ht; intros Hne.
  - destruct ((os_path_split (os_path_split name).1).2) eqn:E; [done|].
    cbn [String.length] in H2. lia.
  - destruct ((os_path_split name).2) eqn:E; [done|].
    cbn [String.length] in H1. lia.
Qed.

Lemma bind_ext_l {A B} (m m' : M A) (k : A -> M B) w :
  m w = m' w -> bind m k w = bind m' k w.
Proof. intros H. unfold bind. by rewrite H. Qed.

Lemma try_except_ext {A} class (body body' : M A) handler w :
  body w = body' w ->
  try_except class body handler w = try_except class body' handler w.
Proof. intros H. unfold try_except. by rewrite H. Qed.

(** The fuel of [os_makedirs] is enough: with more of it the call is the
    same *)
Lemma os_makedirs_from_fuel f1 f2 name w :
  String.length name <= f1 -> String.length name <= f2 ->
  os_makedirs_from f1 name w = os_makedirs_from f2 name w.
Proof.
  revert f2 name w. induction f1 as [|f1 IH]; intros f2 name w H1 H2.
  - destruct name; [|simpl in H1; lia]. destruct f2; by vm_compute.
  - destruct f2 as [|f2].
    { destruct name; [|simpl in H2; lia]. by vm_compute. }
    pose proof (makedirs_head_shorter name) as Hs.
    cbn [os_makedirs_from]. fold (makedirs_split name) in *.
    destruct (negb (bool_decide ((makedirs_split name).1 = ""))
              && negb (bool_decide ((makedirs_split name).2 = ""))) eqn:Hc;
      [|done].
    apply andb_true_iff in Hc as [_ Hc]. apply negb_true_iff in Hc.
    apply bool_decide_eq_false in Hc. specialize (Hs Hc).
    apply bind_ext_l. apply bind_ext. intros [|] w1; [done|].
    apply bind_ext_l, try_except_ext, IH; lia.
Qed.

Lemma os_makedirs_fuel fuel name w :
  String.length name <= fuel -> os_makedirs_from fuel name w = os_makedirs name w.
Proof. intros H. by apply os_makedirs_from_fuel. Qed.

(** ** The skip of a tile whose result exists *)

Lemma astdiff_tile_skip self footprint field_names workdir gaia_dr pre suf
    results_dir tile w :
  tile <> "fakename" ->
  is_Some (files w !! path_to_results_of results_dir tile) ->
  astdiff_tile self footprint field_names workdir gaia_dr pre suf results_dir tile w
  = (Ok tt, emit (Log INFO ("Catalogue for tile " ++ tile ++ " already exists. Skipping")) w).
Proof.
  intros Hne Hf. unfold astdiff_tile.
  rewrite bool_decide_eq_false_2 by done.
  by rewrite (bind_ok _ _ _ _ _ (isfile_true _ _ Hf)).
Qed.

(** ** The two paths of the reference catalogue *)

(** The steps of [get_gaia] up to the query (lines 160-176): the line of
    the log and the cache directory of astroquery *)
Definition before_query (cache_path : string) : M unit :=
  logger INFO "Querying gaia/vizier";;;
  b <- os_path_isdir cache_path;;
  if b then ret tt
  else
    try_except is_FileExistsError (os_makedirs cache_path)
      (fun _ => logger INFO ("File " ++ cache_path ++ " already exists. Skipping")).

Lemma before_query_dir cache_path w :
  is_dir w cache_path = true ->
  before_query cache_path w = (Ok tt, emit (Log INFO "Querying gaia/vizier") w).
Proof.
  intros Hd. unfold before_query, bind, logger, os_path_isdir.
  change (is_dir (emit (Log INFO "Querying gaia/vizier") w) cache_path)
    with (is_dir w cache_path).
  by rewrite Hd.
Qed.

Lemma before_query_outcome cache_path w :
  files (before_query cache_path w).2 = files w /\
  exists skip : bool,
    trace (before_query cache_path w).2
    = (trace w ++ Log INFO "Querying gaia/vizier"
         :: (if skip
             then [Log INFO ("File " ++ cache_path ++ " already exists. Skipping")]
             else []))%list /\
    (skip = true -> (before_query cache_path w).1 = Ok tt) /\
    (is_dir w cache_path = true ->
     skip = false /\ (before_query cache_path w).1 = Ok tt).
Proof.
  pose proof (make_dir_step (os_makedirs cache_path)
                ("File " ++ cache_path ++ " already exists. Skipping")
                (emit (Log INFO "Querying gaia/vizier") w) (quiet_makedirs _))
    as [Hf Ht].
  assert (before_query cache_path w
          = (if is_dir w cache_path then ret tt
             else try_except is_FileExistsError (os_makedirs cache_path)
                    (fun _ => logger INFO
                                ("File " ++ cache_path ++ " already exists. Skipping")))
              (emit (Log INFO "Querying gaia/vizier") w)) as -> by done.
  destruct (is_dir w cache_path) eqn:Hd.
  { split; [done|]. by exists false. }
  cbv zeta in Hf, Ht.
  destruct (try_except _ _ _ _) as [r w1]. simpl in *.
  split; [done|]. destruct Ht as [Ht|[Hr Ht]].
  - exists false. by rewrite Ht.
  - exists true. rewrite Ht, <- app_assoc. by auto.
Qed.

(** What the query leaves: the files with the file of the request written
    or not, and one event. *)
Lemma vizier_query_outcome catalog coords radius cache_location w :
  exists r w',
    vizier_query catalog coords radius cache_location w = (r, w') /\
    (files w' = files w \/
     exists f, files w'
               = <[request_file cache_location catalog coords radius := f]> (files w)) /\
    trace w' = (trace w ++ [Query catalog coords.1 coords.2 radius])%list.
Proof.
  unfold vizier_query. eexists _, _. split; [done|]. split; [|done]. simpl.
  destruct (query_region _ _ _ _ _ _ _) as [[r [f|]] ds]; simpl; eauto.
Qed.

(** The steps of [get_gaia] after the query (lines 177-198) *)
Definition after_query (self : SplusGaiaAst) (workdir gaia_dr tilename : string)
    (tables : list table) : M table :=
  gaia_data <- index0 tables;;
  ra <- getitem gaia_data "RAJ2000";;
  de <- getitem gaia_data "DEJ2000";;
  let mask := vand (map is_nan ra) (map is_nan de) in
  let gaia_data := table_mask (map negb mask) gaia_data in
  global_name "logger";;;
  logger INFO "Gaia_data is %s";;;
  let gaia_cat_path := get_gaia_cat_path workdir gaia_dr tilename in
  b <- os_path_isdir (get_gaia_cat_dir workdir gaia_dr);;
  (if b then ret tt
   else
     try_except is_FileExistsError (os_mkdir (get_gaia_cat_dir workdir gaia_dr))
       (fun _ => logger INFO ("File " ++ get_gaia_cat_dir workdir gaia_dr
                              ++ " already exists. Skipping")));;;
  (if verbose self
   then logger INFO ("Saving gaia catalogue to cache " ++ gaia_cat_path)
   else ret tt);;;
  to_csv gaia_cat_path gaia_data;;;
  ret gaia_data.

Lemma get_gaia_steps self tile_coords tilename workdir_arg gaia_dr_arg angle_arg w :
  get_gaia self tile_coords tilename workdir_arg gaia_dr_arg angle_arg w
  = (before_query (vizier_cache_path (default (workdir self) workdir_arg));;;
     tables <- vizier_query ("I/" ++ default (gaia_dr self) gaia_dr_arg) tile_coords
                 (default (angle self) angle_arg)
                 (vizier_cache_path (default (workdir self) workdir_arg));;
     after_query self (default (workdir self) workdir_arg)
       (default (gaia_dr self) gaia_dr_arg) tilename tables) w.
Proof.
  unfold get_gaia, before_query. rewrite bind_assoc.
  apply bind_ext. intros [] w1. by rewrite bind_assoc.
Qed.

(** After the query [get_gaia] changes nothing more: it goes to line 181
    at the latest, which reads the name [logger], bound neither in
    [get_gaia] nor at module level. *)
Lemma after_query_raises self workdir gaia_dr tilename (tables : list table) w :
  exists e,
    after_query self workdir gaia_dr tilename tables w = (Raise e, w) /\
    forall t ts ra de,
      tables = t :: ts -> col_lookup t "RAJ2000" = Some ra ->
      col_lookup t "DEJ2000" = Some de -> e = NameError "logger".
Proof.
  unfold after_query. destruct tables as [|t ts]; [by eexists|].
  rewrite (bind_ok _ _ _ _ _ (eq_refl : index0 (t :: ts) w = (Ok t, w))).
  destruct (col_lookup t "RAJ2000") as [ra|] eqn:Hra.
  2: { rewrite (bind_raise _ _ _ _ _ (getitem_none _ _ _ Hra)).
       eexists. split; [done|]. intros; simplify_eq. }
  rewrite (bind_ok _ _ _ _ _ (getitem_some _ _ _ _ Hra)).
  destruct (col_lookup t "DEJ2000") as [de|] eqn:Hde.
  2: { rewrite (bind_raise _ _ _ _ _ (getitem_none _ _ _ Hde)).
       eexists. split; [done|]. intros; simplify_eq. }
  rewrite (bind_ok _ _ _ _ _ (getitem_some _ _ _ _ Hde)).
  rewrite (bind_raise _ _ _ _ _
             (eq_refl : global_name "logger" w = (Raise (NameError "logger"), w))).
  eexists. split; [done|]. by intros.
Qed.

(** Every call of [get_gaia] ends by an exception.  It leaves the files as
    they were, the file of its request apart, which the query may have
    written; it adds to the trace its line of the log, the line of the
    cache path that is a file, if it is, and the query, if it got there. *)
Lemma get_gaia_outcome self tile_coords tilename workdir_arg gaia_dr_arg angle_arg w :
  let cache_path := vizier_cache_path (default (workdir self) workdir_arg) in
  let catalog := "I/" ++ default (gaia_dr self) gaia_dr_arg in
  let radius := default (angle self) angle_arg in
  exists e w',
    get_gaia self tile_coords tilename workdir_arg gaia_dr_arg angle_arg w
    = (Raise e, w') /\
    (files w' = files w \/
     exists f, files w'
               = <[request_file cache_path catalog tile_coords radius := f]> (files w)) /\
    exists skip sent : bool,
      trace w'
      = (trace w ++ Log INFO "Querying gaia/vizier"
           :: (if skip
               then [Log INFO ("File " ++ cache_path ++ " already exists. Skipping")]
               else [])
           ++ (if sent then [Query catalog tile_coords.1 tile_coords.2 radius] else []))%list /\
      (sent = false -> files w' = files w) /\
      (is_dir w cache_path = true -> skip = false /\ sent = true).
Proof.
  simpl. rewrite get_gaia_steps.
  destruct (before_query_outcome
              (vizier_cache_path (default (workdir self) workdir_arg)) w)
    as (Hf & skip & Ht & Hskip & Hdir).
  unfold bind at 1.
  destruct (before_query _ w) as [[[]|e] w1] eqn:Hb; simpl in *.
  - unfold bind.
    destruct (vizier_query_outcome
                ("I/" ++ default (gaia_dr self) gaia_dr_arg) tile_coords
                (default (angle self) angle_arg)
                (vizier_cache_path (default (workdir self) workdir_arg)) w1)
      as (r & w2 & -> & Hq & Hqt).
    destruct r as [tables|e].
    + destruct (after_query_raises self (default (workdir self) workdir_arg)
                  (default (gaia_dr self) gaia_dr_arg) tilename tables w2)
        as (e & -> & _).
      exists e, w2. split; [done|]. rewrite Hf in Hq. split; [done|].
      exists skip, true. rewrite Hqt, Ht, <- app_assoc. simpl.
      split; [done|]. split; [done|].
      intros Hd. by destruct (Hdir Hd) as [-> _].
    + exists e, w2. split; [done|]. rewrite Hf in Hq. split; [done|].
      exists skip, true. rewrite Hqt, Ht, <- app_assoc. simpl.
      split; [done|]. split; [done|].
      intros Hd. by destruct (Hdir Hd) as [-> _].
  - exists e, w1. split; [done|]. split; [by left|].
    destruct skip; [by specialize (Hskip eq_refl)|].
    exists false, false. rewrite Ht, app_nil_r. split; [done|]. split; [done|].
    intros Hd. by destruct (Hdir Hd) as [_ ?].
Qed.

Lemma get_gaia_raises self tile_coords tilename workdir_arg gaia_dr_arg angle_arg w :
  exists e w', get_gaia self tile_coords tilename workdir_arg gaia_dr_arg angle_arg w
               = (Raise e, w') /\
               forall p, is_pickle p = false -> files w' !! p = files w !! p.
Proof.
  destruct (get_gaia_outcome self tile_coords tilename workdir_arg gaia_dr_arg
              angle_arg w) as (e & w' & Hrun & Hf & _).
  exists e, w'. split; [done|]. intros p Hp.
  destruct Hf as [->|[f ->]]; [done|].
  rewrite lookup_insert_ne; [done|]. intros <-.
  unfold request_file in Hp. unfold is_pickle in Hp.
  by rewrite endswith_join in Hp.
Qed.

(** C5. The catalogue-cache round trip does not hold: the file [get_gaia]
    saves to (workdir/gaia_<release>_<tile>.csv) is never the file
    [calculate_astdiff] looks for (workdir/gaia_<release>/<tile>.csv), and
    a call of [get_gaia] leaves every file as it was, so the cache that
    the differencer reads is not filled by a fetch. *)
Theorem gaia_cache_paths_differ self tile_coords workdir_arg gaia_dr_arg angle_arg
    workdir gaia_dr tile w :
  get_gaia_cat_path workdir gaia_dr tile <> astdiff_gaia_cat_path workdir gaia_dr tile /\
  files (get_gaia self tile_coords tile workdir_arg gaia_dr_arg angle_arg w).2
    !! astdiff_gaia_cat_path workdir gaia_dr tile
  = files w !! astdiff_gaia_cat_path workdir gaia_dr tile /\
  get_gaia_cat_path "/w" "355" "T1" = "/w/gaia_355_T1.csv" /\
  astdiff_gaia_cat_path "/w" "355" "T1" = "/w/gaia_355/T1.csv".
Proof.
  split; [|split; [|done]].
  - unfold get_gaia_cat_path, astdiff_gaia_cat_path. intros H.
    apply os_path_join_inj in H; [|done..].
    apply (inj (String.app "gaia_")), (inj (String.app gaia_dr)) in H.
    discriminate.
  - destruct (get_gaia_raises self tile_coords tile workdir_arg gaia_dr_arg
                angle_arg w) as (e & w' & -> & Hf). simpl. apply Hf.
    apply csv_is_no_pickle. unfold astdiff_gaia_cat_path.
    rewrite <- !string_app_assoc. by rewrite last_char_suffix.
Qed.

(** ** The result file and the release *)

Lemma to_csv_file p t w :
  to_csv p t w = (Ok tt, World (<[p := Csv t]> (files w)) (dirs w)
                               (trace w ++ [WriteFile p])).
Proof. done. Qed.

Lemma astdiff_tile_writes self footprint field_names workdir gaia_dr pre suf
    results_dir tile w w1 :
  tile <> "fakename" ->
  astdiff_tile self footprint field_names workdir gaia_dr pre suf results_dir tile w
  = (Ok tt, w1) ->
  is_Some (files w1 !! path_to_results_of results_dir tile).
Proof.
  intros Hne. unfold astdiff_tile. rewrite bool_decide_eq_false_2 by done.
  unfold os_path_isfile at 1. unfold bind at 1.
  destruct (bool_decide (is_Some (files w !! _))) eqn:Hb.
  - apply bool_decide_eq_true_1 in Hb. unfold logger. by intros [= <-].
  - intros H.
    apply bind_ok_inv in H as (gaia_data & w2 & _ & H).
    apply bind_ok_inv in H as (scat & w3 & _ & H).
    apply bind_ok_inv in H as (results & w4 & _ & H).
    apply bind_ok_inv in H as ([] & w5 & _ & H).
    apply bind_ok_inv in H as ([] & w6 & _ & H).
    rewrite to_csv_file in H. injection H as <-. simpl.
    rewrite lookup_insert_eq. eauto.
Qed.

(** C10. The result file of a tile is workdir/results/<tile>_mar-gaiaDR3_diff.csv,
    a path without the release identifier; once a run under one release has
    processed the tile, the file is there, and a run under any other
    release (and any other settings) skips the tile. *)
Theorem result_path_ignores_release self footprint field_names workdir gaia_dr
    pre suf tile w w1 :
  workdir <> "" -> endswith_sep workdir = false -> startswith_sep tile = false ->
  tile <> "fakename" ->
  astdiff_tile self footprint field_names workdir gaia_dr pre suf
    (results_dir_of workdir) tile w = (Ok tt, w1) ->
  path_to_results_of (results_dir_of workdir) tile
  = workdir ++ "/results/" ++ tile ++ "_mar-gaiaDR3_diff.csv" /\
  is_Some (files w1 !! (workdir ++ "/results/" ++ tile ++ "_mar-gaiaDR3_diff.csv")) /\
  forall self' gaia_dr' pre' suf',
    astdiff_tile self' footprint field_names workdir gaia_dr' pre' suf'
      (results_dir_of workdir) tile w1
    = (Ok tt, emit (Log INFO ("Catalogue for tile " ++ tile ++ " already exists. Skipping")) w1).
Proof.
  intros Hw He Ht Hne Hrun.
  assert (path_to_results_of (results_dir_of workdir) tile
          = workdir ++ "/results/" ++ tile ++ "_mar-gaiaDR3_diff.csv") as Hp.
  { unfold path_to_results_of, results_dir_of.
    rewrite (os_path_join_relative workdir) by done.
    unfold os_path_join.
    assert (startswith_sep (tile ++ "_mar-gaiaDR3_diff.csv") = false) as ->.
    { destruct tile; done. }
    assert (endswith_sep (workdir ++ "/" ++ "results/") = true) as ->.
    { by rewrite endswith_sep_app. }
    rewrite orb_true_r. by rewrite string_app_assoc. }
  pose proof (astdiff_tile_writes _ _ _ _ _ _ _ _ _ _ _ Hne Hrun) as Hf.
  split; [done|]. split; [by rewrite <- Hp|].
  intros. by apply astdiff_tile_skip.
Qed.

End PipelineFacts.

(** ** No file is overwritten *)

(** Code that leaves the files as they are *)
Definition keeps_files {A} (m : M A) : Prop :=
  forall w, files (m w).2 = files w.

(** Code that leaves as it is every file but the pickles of astroquery *)
Definition keeps_tables {A} (m : M A) : Prop :=
  forall w p, is_pickle p = false -> files (m w).2 !! p = files w !! p.

(** Code that leaves as it is every file that exists, the pickles apart *)
Definition grows_files {A} (m : M A) : Prop :=
  forall w p f, is_pickle p = false ->
    files w !! p = Some f -> files (m w).2 !! p = Some f.

Create HintDb keeps.

Lemma keeps_ret {A} (a : A) : keeps_files (ret a).
Proof. done. Qed.
Lemma keeps_raise {A} e : keeps_files (raise (A := A) e).
Proof. done. Qed.
Lemma keeps_lift_result {A} (r : result A) : keeps_files (lift_result r).
Proof. done. Qed.
Lemma keeps_logger lvl msg : keeps_files (logger lvl msg).
Proof. done. Qed.
Lemma keeps_print msg : keeps_files (print msg).
Proof. done. Qed.
Lemma keeps_isfile p : keeps_files (os_path_isfile p).
Proof. done. Qed.
Lemma keeps_isdir p : keeps_files (os_path_isdir p).
Proof. done. Qed.
Lemma keeps_mkdir p : keeps_files (os_mkdir p).
Proof. intros w. apply quiet_mkdir. Qed.
Lemma keeps_getitem t name : keeps_files (getitem t name).
Proof. intros w. unfold getitem. by destruct (col_lookup t name). Qed.
Lemma keeps_index0 {A} (l : list A) : keeps_files (index0 l).
Proof. intros w. by destruct l. Qed.
Lemma keeps_open_file p : keeps_files (open_file p).
Proof. intros w. unfold open_file. by destruct (files w !! p). Qed.
Lemma keeps_table_take idx t : keeps_files (table_take idx t).
Proof. intros w. unfold table_take. by destruct (mapM _ t). Qed.

Lemma keeps_bind {A B} (m : M A) (k : A -> M B) :
  keeps_files m -> (forall a, keeps_files (k a)) -> keeps_files (bind m k).
Proof.
  intros Hm Hk w. unfold bind. specialize (Hm w).
  destruct (m w) as [[a|e] w1]; simpl in *; [|done].
  by rewrite Hk.
Qed.

Lemma keeps_try_finally {A} (body : M A) cleanup :
  keeps_files body -> keeps_files cleanup -> keeps_files (try_finally body cleanup).
Proof.
  intros Hb Hc w. unfold try_finally. specialize (Hb w).
  destruct (body w) as [[a|e] w1]; simpl in *; specialize (Hc w1);
    destruct (cleanup w1) as [[[]|e'] w2]; simpl in *; congruence.
Qed.

Lemma keeps_try_except {A} (body handler : M A) :
  keeps_files body -> keeps_files handler ->
  keeps_files (try_except_TypeError body handler).
Proof.
  intros Hb Hh w. unfold try_except_TypeError. specialize (Hb w).
  destruct (body w) as [[a|[]] w1]; simpl in *; try done.
  by rewrite Hh.
Qed.

Lemma keeps_read_csv p : keeps_files (read_csv p).
Proof.
  apply keeps_bind; [apply keeps_open_file|]. by intros [].
Qed.

Lemma keeps_fits_open_data p hdu : keeps_files (fits_open_data p hdu).
Proof.
  apply keeps_bind; [apply keeps_open_file|].
  intros [t|hdus|l|b]; try done. intros w. by destruct (hdus !! hdu).
Qed.

Lemma keeps_tables_of_keeps {A} (m : M A) : keeps_files m -> keeps_tables m.
Proof. intros H w p _. by rewrite H. Qed.

Lemma keeps_tables_bind {A B} (m : M A) (k : A -> M B) :
  keeps_tables m -> (forall a, keeps_tables (k a)) -> keeps_tables (bind m k).
Proof.
  intros Hm Hk w p Hp. unfold bind. specialize (Hm w p Hp).
  destruct (m w) as [[a|e] w1]; simpl in *; [|done].
  by rewrite Hk.
Qed.

#[local] Hint Resolve keeps_ret keeps_raise keeps_lift_result keeps_logger
  keeps_print keeps_isfile keeps_isdir keeps_mkdir keeps_getitem keeps_index0
  keeps_open_file keeps_table_take keeps_read_csv keeps_fits_open_data : keeps.

Ltac keeps :=
  repeat first
    [ solve [auto with keeps]
    | apply keeps_bind; [|intros]
    | apply keeps_try_finally
    | apply keeps_try_except ].

Lemma grows_of_keeps {A} (m : M A) : keeps_files m -> grows_files m.
Proof. intros H w p f _ Hp. by rewrite H. Qed.

Lemma grows_bind {A B} (m : M A) (k : A -> M B) :
  grows_files m -> (forall a, grows_files (k a)) -> grows_files (bind m k).
Proof.
  intros Hm Hk w p f Hn Hp. unfold bind. specialize (Hm w p f Hn Hp).
  destruct (m w) as [[a|e] w1]; simpl in *; [|done].
  by apply Hk.
Qed.

Lemma grows_for_each {A} (l : list A) (body : A -> M unit) :
  (forall x, grows_files (body x)) -> grows_files (for_each l body).
Proof.
  intros Hb. induction l as [|x l IH]; simpl.
  - by apply grows_of_keeps.
  - apply grows_bind; [apply Hb | by intros _].
Qed.

Section FrameFacts.
Context `{Eco : Ecosystem}.

Lemma keeps_quality_sample self scat : keeps_files (quality_sample self scat).
Proof.
  unfold quality_sample, mag_stage, flags_stage, clstar_stage, fwhm_stage, sn_stage.
  keeps.
  - destruct (flags_column self); keeps.
  - destruct (clstar_column self); keeps.
  - destruct (fwhm_column self); keeps.
  - destruct (sn_column self); keeps.
Qed.

#[local] Hint Resolve keeps_quality_sample : keeps.

Lemma keeps_np_percentile a q : keeps_files (np_percentile a q).
Proof. intros w. by destruct a. Qed.

Lemma keeps_table_getitem kind m t : keeps_files (table_getitem kind m t).
Proof. intros w. by destruct kind. Qed.

#[local] Hint Resolve keeps_np_percentile keeps_table_getitem : keeps.

Lemma keeps_astdiff_table self kind scat gaia_data :
  keeps_files (astdiff_table self kind scat gaia_data).
Proof.
  unfold astdiff_table, sky_match, abspm_of, outlier_limit, differences. keeps.
Qed.

Lemma keeps_astdiff_survey self scat gaia_data :
  keeps_files (astdiff_survey self scat gaia_data).
Proof. destruct scat; [apply keeps_astdiff_table | done]. Qed.

Lemma keeps_tables_get_gaia self tile_coords tilename workdir_arg gaia_dr_arg angle_arg :
  keeps_tables (get_gaia self tile_coords tilename workdir_arg gaia_dr_arg angle_arg).
Proof.
  intros w p Hp.
  destruct (get_gaia_raises self tile_coords tilename workdir_arg gaia_dr_arg
              angle_arg w) as (e & w' & -> & Hf). by apply Hf.
Qed.

(** The reference catalogue: the files stay, the pickle of a fetch apart. *)
Lemma keeps_tables_load_gaia self footprint field_names workdir gaia_dr tile :
  keeps_tables (load_gaia self footprint field_names workdir gaia_dr tile).
Proof.
  unfold load_gaia.
  repeat (apply keeps_tables_bind; [apply keeps_tables_of_keeps; keeps | intros]).
  match goal with |- keeps_tables (if ?b then _ else _) => destruct b end.
  - apply keeps_tables_of_keeps. keeps.
  - apply keeps_tables_get_gaia.
Qed.

Lemma keeps_load_survey self workdir pre suf tile :
  keeps_files (load_survey self workdir pre suf tile).
Proof.
  unfold load_survey. repeat case_bool_decide; keeps.
Qed.

(** A tile writes its result file only, and only where there was none. *)
Lemma grows_astdiff_tile self footprint field_names workdir gaia_dr pre suf
    results_dir tile :
  grows_files (astdiff_tile self footprint field_names workdir gaia_dr pre suf
                 results_dir tile).
Proof.
  intros w p f Hn Hp. unfold astdiff_tile.
  case_bool_decide; [done|].
  unfold bind at 1, os_path_isfile at 1.
  destruct (bool_decide (is_Some (files w !! _))) eqn:Hb; [done|].
  apply bool_decide_eq_false_1 in Hb.
  pose proof (keeps_tables_load_gaia self footprint field_names workdir gaia_dr tile
                w p Hn) as K1.
  unfold bind at 1.
  destruct (load_gaia _ _ _ _ _ _ w) as [[g|e] w1]; simpl in K1;
    [|by simpl; rewrite K1].
  pose proof (keeps_load_survey self workdir pre suf tile w1) as K2.
  unfold bind at 1.
  destruct (load_survey _ _ _ _ _ w1) as [[s|e] w2]; simpl in K2;
    [|by simpl; rewrite K2, K1].
  pose proof (keeps_astdiff_survey self s g w2) as K3.
  unfold bind at 1.
  destruct (astdiff_survey _ _ _ w2) as [[r|e] w3]; simpl in K3;
    [|by simpl; rewrite K3, K2, K1].
  simpl. rewrite lookup_insert_ne; [by rewrite K3, K2, K1|].
  intros <-. apply Hb. by rewrite Hp.
Qed.

Lemma grows_calculate_astdiff self fields footprint field_names wa ga pa sa :
  grows_files (calculate_astdiff self fields footprint field_names wa ga pa sa).
Proof.
  unfold calculate_astdiff.
  apply grows_bind; [apply grows_of_keeps; keeps|]. intros b.
  apply grows_bind; [apply grows_of_keeps; destruct b; keeps|]. intros _.
  apply grows_for_each. intros tile. apply grows_astdiff_tile.
Qed.

(** C2. A tile whose result file exists is not processed: the call returns,
    the files and directories are those of before (so the result file is
    untouched), and the one event it adds is a line of the log: no remote
    query, no file opened, no file written.  A whole run of the
    differencer, over any list of tiles and with any settings, leaves the
    file as it is too. *)
Theorem existing_result_is_skipped self footprint field_names workdir gaia_dr
    pre suf results_dir tile w :
  is_Some (files w !! path_to_results_of results_dir tile) ->
  let r := astdiff_tile self footprint field_names workdir gaia_dr pre suf
             results_dir tile w in
  r.1 = Ok tt /\ files r.2 = files w /\ dirs r.2 = dirs w /\
  (exists msg, trace r.2 = (trace w ++ [Log INFO msg])%list) /\
  forall self' fields footprint' field_names' wa ga pa sa,
    files (calculate_astdiff self' fields footprint' field_names' wa ga pa sa w).2
      !! path_to_results_of results_dir tile
    = files w !! path_to_results_of results_dir tile.
Proof.
  intros Hf.
  assert (forall self' fields footprint' field_names' wa ga pa sa,
    files (calculate_astdiff self' fields footprint' field_names' wa ga pa sa w).2
      !! path_to_results_of results_dir tile
    = files w !! path_to_results_of results_dir tile) as Hrun.
  { intros. destruct Hf as [f Hp]. rewrite Hp.
    apply grows_calculate_astdiff; [|done].
    apply csv_is_no_pickle. unfold path_to_results_of.
    by rewrite last_char_suffix. }
  destruct (decide (tile = "fakename")) as [->|Hne].
  - simpl. eauto 10.
  - simpl. rewrite astdiff_tile_skip by done. simpl. eauto 10.
Qed.

End FrameFacts.

(** ** The fan-out of the [__main__] block *)

Definition is_proc_start (e : event) : bool :=
  match e with
  | ProcStart _ => true
  | _ => false
  end.

(** From [w] to [w'] the trace has only grown, and by no start of a worker. *)
Definition launches_no_worker (w w' : world) : Prop :=
  exists evs, trace w' = (trace w ++ evs)%list /\
              forallb (fun e => negb (is_proc_start e)) evs = true.

Lemma launches_no_worker_refl w : launches_no_worker w w.
Proof. exists []. by rewrite app_nil_r. Qed.

Lemma launches_no_worker_emit w w' e :
  is_proc_start e = false -> launches_no_worker w w' ->
  launches_no_worker w (emit e w').
Proof.
  intros He (evs & Ht & Hf). exists (evs ++ [e])%list. split.
  - simpl. by rewrite Ht, app_assoc.
  - rewrite forallb_app, Hf. simpl. by rewrite He.
Qed.

Section MainFacts.
Context `{Eco : Ecosystem}.

Lemma fan_out_skipped b w : fan_out b w = (Ok tt, w).
Proof. done. Qed.

Lemma main_after_exit_raises fields w :
  main_after_exit fields w = (Raise (NameError "make_plot"), w).
Proof. done. Qed.

Ltac quiet :=
  repeat (apply launches_no_worker_emit; [done|]); apply launches_no_worker_refl.

Lemma main_raises argv w :
  exists e w', main argv w = (Raise e, w') /\ launches_no_worker w w'.
Proof.
  unfold main, bind, call_logger, parser, ret, raise, lift_result, print.
  destruct (bool_decide (length argv = 1)).
  { eexists _, _. split; [done|]. quiet. }
  destruct (parse_args argv) as [args|e]; [|eexists _, _; split; [done|quiet]].
  unfold os_path_exists.
  destruct (_ || _); simpl; [|eexists _, _; split; [done|quiet]].
  unfold read_fields, bind, open_file.
  destruct (files w !! _) as [[t|hdus|lines|b]|]; simpl;
    try (eexists _, _; split; [done|quiet]).
  destruct (forallb _ lines); simpl; [eexists _, _; split; [done|quiet]|].
  unfold lift_result.
  destruct (pd_read_names lines) as [fields|e]; simpl;
    [|eexists _, _; split; [done|quiet]].
  unfold get_footprint, open_file; simpl.
  destruct (files w !! os_path_abspath (ns_footprint args)) as [f|]; simpl.
  - unfold lift_result. destruct (ascii_read_footprint f) as [fp|e]; simpl.
    + unfold sys_exit, raise. eexists _, _. split; [done|quiet].
    + eexists _, _. split; [done|quiet].
  - unfold bind, logger, sys_exit, raise; simpl.
    eexists _, _. split; [done|quiet].
Qed.

(** C9. No execution of the main block reaches the fan-out: every run of
    [main] ends by an exception ([SystemExit] at the latest) and starts no
    worker process; the gate [num_procs == 1] is false, [num_procs] being
    8, so the code after the exit, run from any state, starts none
    either. *)
Theorem fan_out_never_runs argv fields w :
  (exists e, (main argv w).1 = Raise e) /\
  launches_no_worker w (main argv w).2 /\
  bool_decide (num_procs = 1) = false /\
  launches_no_worker w (main_after_exit fields w).2.
Proof.
  destruct (main_raises argv w) as (e & w' & -> & Hq).
  split; [by exists e|]. split; [done|]. split; [done|].
  rewrite main_after_exit_raises. apply launches_no_worker_refl.
Qed.

End MainFacts.

(** ** The quality selection, row by row *)

Lemma lookup_map {A B} (f : A -> B) (l : list A) i :
  map f l !! i = f <$> l !! i.
Proof. revert i. induction l as [|x l IH]; intros [|i]; simpl; auto. Qed.

Lemma vand_lookup a b i x y :
  a !! i = Some x -> b !! i = Some y -> vand a b !! i = Some (x && y).
Proof. intros Ha Hb. unfold vand. by rewrite lookup_zip_with, Ha, Hb. Qed.

Lemma vand_length a b n :
  length a = n -> length b = n -> length (vand a b) = n.
Proof. intros Ha Hb. unfold vand. rewrite length_zip_with. lia. Qed.

Lemma col_lookup_wf n t name c :
  table_wf n t -> col_lookup t name = Some c -> length c = n.
Proof.
  intros Hwf. induction Hwf as [|[m c'] t Hc Hwf IH]; simpl; [done|].
  case_bool_decide; [by intros [= <-] | done].
Qed.

(** The value of column [name] in row [i] *)
Definition cell (t : table) (name : string) (i : nat) : option float :=
  match col_lookup t name with
  | Some c => c !! i
  | None => None
  end.

(** A filter that is configured must hold of the row; one that is not
    configured asks nothing. *)
Definition optional_ok (col : option string) (cond : float -> bool)
    (scat : table) (i : nat) : bool :=
  match col with
  | None => true
  | Some c => match cell scat c i with
              | Some x => cond x
              | None => false
              end
  end.

(** The quality selection in the words of the specification *)
Definition passes_quality (self : SplusGaiaAst) (scat : table) (i : nat) : bool :=
  match cell scat (mag_column self) i with
  | Some m => (14 <? m)%float && (m <? 19)%float
  | None => false
  end
  && optional_ok (flags_column self) (fun x => (x =? 0)%float) scat i
  && optional_ok (clstar_column self) (fun x => (0.95 <? x)%float) scat i
  && optional_ok (fwhm_column self) (fun x => (x * 3600 <? 2.5)%float) scat i
  && optional_ok (sn_column self) (fun x => (sn_limit self <? x)%float) scat i.

Definition column_present (scat : table) (col : option string) : Prop :=
  forall c, col = Some c -> is_Some (col_lookup scat c).

(** The survey table has the magnitude column and every configured one. *)
Definition has_columns (self : SplusGaiaAst) (scat : table) : Prop :=
  is_Some (col_lookup scat (mag_column self)) /\
  column_present scat (flags_column self) /\
  column_present scat (clstar_column self) /\
  column_present scat (fwhm_column self) /\
  column_present scat (sn_column self).

(** The four optional filters *)
Inductive optional_filter : Type := Flags | ClassStar | Fwhm | SignalToNoise.

Definition filter_column (self : SplusGaiaAst) (f : optional_filter) : option string :=
  match f with
  | Flags => flags_column self
  | ClassStar => clstar_column self
  | Fwhm => fwhm_column self
  | SignalToNoise => sn_column self
  end.

Definition skip_warning (f : optional_filter) : string :=
  match f with
  | Flags => "FLAGS column not available. Skipping using flags to object selection"
  | ClassStar => "CLASS_STAR column not available. Skipping using CLASS_STAR to object selection"
  | Fwhm => "FWHM column not available. Skipping using FWHM to object selection"
  | SignalToNoise => "SN column not available. Skipping using SN to object selection"
  end.

Section QualityFacts.
Context `{Eco : Ecosystem}.

Definition filter_stage (f : optional_filter)
  : SplusGaiaAst -> table -> list bool -> M (list bool) :=
  match f with
  | Flags => flags_stage
  | ClassStar => clstar_stage
  | Fwhm => fwhm_stage
  | SignalToNoise => sn_stage
  end.

Definition filter_cond (self : SplusGaiaAst) (f : optional_filter) : float -> bool :=
  match f with
  | Flags => fun x => (x =? 0)%float
  | ClassStar => fun x => (0.95 <? x)%float
  | Fwhm => fun x => (x * 3600 <? 2.5)%float
  | SignalToNoise => fun x => (sn_limit self <? x)%float
  end.

Lemma quality_sample_stages self scat :
  quality_sample self scat =
  (sample <- mag_stage self scat;;
   sample <- filter_stage Flags self scat sample;;
   sample <- filter_stage ClassStar self scat sample;;
   sample <- filter_stage Fwhm self scat sample;;
   filter_stage SignalToNoise self scat sample).
Proof. done. Qed.

Lemma filter_stage_none (f : optional_filter) self scat sample w :
  filter_column self f = None ->
  filter_stage f self scat sample w
  = (Ok sample, emit (Log WARNING (skip_warning f)) w).
Proof.
  intros Hc. destruct f; simpl in *;
    unfold flags_stage, clstar_stage, fwhm_stage, sn_stage; by rewrite Hc.
Qed.

(** C8. An optional column that is not configured, its option left at
    None, is not fatal: its stage logs the warning, hands the selection on
    as it received it, and whatever follows the stage runs. *)
Theorem unconfigured_filter_is_skipped (f : optional_filter) self scat sample w :
  filter_column self f = None ->
  filter_stage f self scat sample w
  = (Ok sample, emit (Log WARNING (skip_warning f)) w) /\
  forall B (k : list bool -> M B),
    bind (filter_stage f self scat sample) k w
    = k sample (emit (Log WARNING (skip_warning f)) w).
Proof.
  intros Hc. pose proof (filter_stage_none f self scat sample w Hc) as H.
  split; [done|]. intros B k. by rewrite (bind_ok _ _ _ _ _ H).
Qed.

(** A configured class-star column: the [finally] clause logs its line on
    both exits, and an absent column stays a KeyError. *)
Lemma clstar_stage_absent self scat sample c w :
  clstar_column self = Some c -> col_lookup scat c = None ->
  clstar_stage self scat sample w
  = (Raise (KeyError c),
     emit (Log WARNING "Column for CLASS_STAR not found. Ignoring") w).
Proof.
  intros Hc Hl. unfold clstar_stage, try_finally. rewrite Hc.
  by rewrite (bind_raise _ _ _ _ _ (getitem_none _ _ _ Hl)).
Qed.

Lemma configured_stage f self scat sample c col w :
  filter_column self f = Some c -> col_lookup scat c = Some col ->
  exists w', filter_stage f self scat sample w
             = (Ok (vand sample (map (filter_cond self f) col)), w').
Proof.
  intros Hc Hl.
  destruct f; simpl in *;
    unfold flags_stage, clstar_stage, fwhm_stage, sn_stage, try_finally;
    rewrite Hc, ?(bind_ok _ _ _ _ _ (getitem_some _ _ _ _ Hl)); eauto.
Qed.

Lemma filter_stage_rows f self scat sample n w :
  table_wf n scat -> length sample = n ->
  column_present scat (filter_column self f) ->
  exists sample' w',
    filter_stage f self scat sample w = (Ok sample', w') /\
    length sample' = n /\
    forall i b, sample !! i = Some b ->
      sample' !! i = Some (b && optional_ok (filter_column self f) (filter_cond self f) scat i).
Proof.
  intros Hwf Hlen Hp. destruct (filter_column self f) as [c|] eqn:Hc.
  - destruct (Hp c eq_refl) as [col Hl].
    destruct (configured_stage f self scat sample c col w Hc Hl) as [w' Hrun].
    pose proof (col_lookup_wf _ _ _ _ Hwf Hl) as Hcol.
    eexists _, _. split; [exact Hrun|]. split.
    + apply vand_length; [done|]. by rewrite length_map.
    + intros i b Hi. unfold optional_ok, cell. rewrite Hl.
      assert (i < length col) as Hlt.
      { rewrite Hcol, <- Hlen. by eapply lookup_lt_Some. }
      destruct (lookup_lt_is_Some_2 _ _ Hlt) as [x Hx]. rewrite Hx.
      apply vand_lookup; [done|]. by rewrite lookup_map, Hx.
  - pose proof (filter_stage_none f self scat sample w Hc) as Hrun.
    eexists _, _. split; [exact Hrun|]. split; [done|].
    intros i b Hi. simpl. by rewrite andb_true_r.
Qed.

Lemma mag_stage_rows self scat n w :
  table_wf n scat -> is_Some (col_lookup scat (mag_column self)) ->
  exists sample,
    mag_stage self scat w = (Ok sample, w) /\
    length sample = n /\
    forall i, i < n ->
      sample !! i = Some match cell scat (mag_column self) i with
                         | Some m => (14 <? m)%float && (m <? 19)%float
                         | None => false
                         end.
Proof.
  intros Hwf [mag Hl]. pose proof (col_lookup_wf _ _ _ _ Hwf Hl) as Hlen.
  eexists. split; [|split].
  - unfold mag_stage. by rewrite !(bind_ok _ _ _ _ _ (getitem_some _ _ _ _ Hl)).
  - apply vand_length; by rewrite length_map.
  - intros i Hi. unfold cell. rewrite Hl.
    destruct (lookup_lt_is_Some_2 mag i) as [m Hm]; [lia|]. rewrite Hm.
    apply vand_lookup; by rewrite lookup_map, Hm.
Qed.

(** C3. On a survey table that has the magnitude column and the columns
    that are configured, the quality selection returns, and it keeps row
    [i] exactly when the magnitude is strictly between 14 and 19 and every
    configured optional condition holds of the row; a filter that is not
    configured does not constrain it: under the defaults of the command
    line, which configure none, a row of magnitude 18.5 with flags = 1 is
    kept. *)
Theorem quality_selection_rows self scat n w :
  table_wf n scat -> has_columns self scat ->
  (exists sample w',
     quality_sample self scat w = (Ok sample, w') /\
     length sample = n /\
     forall i, i < n -> sample !! i = Some (passes_quality self scat i)) /\
  (quality_sample (parser_defaults "tiles" "workdir")
     [("MAG_AUTO", [18.5]%float); ("FLAGS", [1]%float)] w).1 = Ok [true].
Proof.
  intros Hwf (Hmag & Hfl & Hcl & Hfw & Hsn). split; [|by vm_compute].
  destruct (mag_stage_rows self scat n w Hwf Hmag) as (s0 & R0 & L0 & P0).
  destruct (filter_stage_rows Flags self scat s0 n w Hwf L0 Hfl)
    as (s1 & w1 & R1 & L1 & P1).
  destruct (filter_stage_rows ClassStar self scat s1 n w1 Hwf L1 Hcl)
    as (s2 & w2 & R2 & L2 & P2).
  destruct (filter_stage_rows Fwhm self scat s2 n w2 Hwf L2 Hfw)
    as (s3 & w3 & R3 & L3 & P3).
  destruct (filter_stage_rows SignalToNoise self scat s3 n w3 Hwf L3 Hsn)
    as (s4 & w4 & R4 & L4 & P4).
  exists s4, w4. split; [|split; [done|]].
  - rewrite quality_sample_stages.
    rewrite (bind_ok _ _ _ _ _ R0), (bind_ok _ _ _ _ _ R1),
      (bind_ok _ _ _ _ _ R2), (bind_ok _ _ _ _ _ R3). exact R4.
  - intros i Hi. unfold passes_quality.
    by rewrite (P4 i _ (P3 i _ (P2 i _ (P1 i _ (P0 i Hi))))).
Qed.

End QualityFacts.

(** ** The separation threshold *)

Lemma SFcompare_antisym a b :
  SFcompare b a = option_map CompOpp (SFcompare a b).
Proof.
  destruct a as [s1| s1| |s1 m1 e1], b as [s2| s2| |s2 m2 e2]; simpl;
    try done; try (by destruct s1); try (by destruct s2);
    try (by destruct s1, s2).
  destruct s1, s2; simpl; try done;
    rewrite (Z.compare_antisym e1 e2); destruct (e1 ?= e2)%Z; simpl; try done;
    fold (Pos.compare m1 m2); fold (Pos.compare m2 m1);
    rewrite (Pos.compare_antisym m1 m2); by destruct (m1 ?= m2)%positive.
Qed.

(** [x <= y] excludes [y < x], on floats as on reals. *)
Lemma float_leb_not_ltb x y :
  (x <=? y)%float = true -> (y <? x)%float = false.
Proof.
  rewrite FloatAxioms.leb_spec, FloatAxioms.ltb_spec. unfold SFleb, SFltb.
  rewrite (SFcompare_antisym (Prim2SF x) (Prim2SF y)).
  by destruct (SFcompare (Prim2SF x) (Prim2SF y)) as [[]|].
Qed.

Lemma vand_true a b i :
  vand a b !! i = Some true -> a !! i = Some true /\ b !! i = Some true.
Proof.
  unfold vand. rewrite lookup_zip_with.
  destruct (a !! i) as [[]|], (b !! i) as [[]|]; simpl; by intros [=].
Qed.

Section MatchFacts.
Context `{Eco : Ecosystem}.

Lemma sky_match_ok self scat gaia_data ra_s dec_s ra_g dec_g idx d2d w :
  col_lookup scat (racolumn self) = Some ra_s ->
  col_lookup scat (decolumn self) = Some dec_s ->
  col_lookup gaia_data "RAJ2000" = Some ra_g ->
  col_lookup gaia_data "DEJ2000" = Some dec_g ->
  match_to_catalog_3d ra_s dec_s ra_g dec_g = Ok (idx, d2d) ->
  sky_match self scat gaia_data w
  = (Ok (idx, map (fun d => (d <? 5.0)%float) d2d), w).
Proof.
  intros H1 H2 H3 H4 Hm. unfold sky_match.
  rewrite (bind_ok _ _ _ _ _ (getitem_some _ _ _ _ H1)),
    (bind_ok _ _ _ _ _ (getitem_some _ _ _ _ H2)),
    (bind_ok _ _ _ _ _ (getitem_some _ _ _ _ H3)),
    (bind_ok _ _ _ _ _ (getitem_some _ _ _ _ H4)).
  unfold bind, lift_result. by rewrite Hm.
Qed.

(** C7. A survey entry whose separation to its nearest reference entry is
    5 arcsec or more is not selected, whatever the quality selection says
    of it; an entry that is selected has a separation strictly below
    5 arcsec. *)
Theorem far_entries_are_excluded self scat gaia_data ra_s dec_s ra_g dec_g
    idx d2d w :
  col_lookup scat (racolumn self) = Some ra_s ->
  col_lookup scat (decolumn self) = Some dec_s ->
  col_lookup gaia_data "RAJ2000" = Some ra_g ->
  col_lookup gaia_data "DEJ2000" = Some dec_g ->
  match_to_catalog_3d ra_s dec_s ra_g dec_g = Ok (idx, d2d) ->
  exists separation,
    sky_match self scat gaia_data w = (Ok (idx, separation), w) /\
    forall (sample : list bool) i d, d2d !! i = Some d ->
      ((5 <=? d)%float = true ->
         separation !! i = Some false /\ vand separation sample !! i <> Some true) /\
      (vand separation sample !! i = Some true -> (d <? 5)%float = true).
Proof.
  intros H1 H2 H3 H4 Hm. eexists. split.
  { by apply (sky_match_ok _ _ _ ra_s dec_s ra_g dec_g). }
  intros sample i d Hd.
  assert (map (fun d => (d <? 5.0)%float) d2d !! i = Some (d <? 5)%float) as Hs.
  { by rewrite lookup_map, Hd. }
  split.
  - intros Hle. apply float_leb_not_ltb in Hle. rewrite Hs, Hle.
    split; [done|]. intros [Ht _]%vand_true. by rewrite Hs, Hle in Ht.
  - intros [Ht _]%vand_true. rewrite Hs in Ht. by injection Ht.
Qed.

End MatchFacts.

(** ** The outlier trim *)

(** The values the percentile is taken over, in the words of the
    specification: the finite ones *)
Definition finite_values (a : column) : column := List.filter is_finite a.

Lemma valid_values_are_finite_values a :
  mask_select (map negb (masked_invalid_mask a)) a = finite_values a.
Proof.
  unfold masked_invalid_mask, finite_values.
  induction a as [|x a IH]; [done|].
  simpl. rewrite negb_involutive, IH. by destruct (is_finite x).
Qed.

(** The limit of line 327 is there when a value is finite, and it is the
    percentile of the finite values. *)
Lemma outlier_limit_ok abspm lmt w w' :
  outlier_limit abspm w = (Ok lmt, w') ->
  finite_values abspm <> [] /\ lmt = percentile (finite_values abspm) 95 /\ w' = w.
Proof.
  unfold outlier_limit. rewrite valid_values_are_finite_values.
  unfold np_percentile. destruct (finite_values abspm); [done|].
  by intros [= <- <-].
Qed.

Lemma outlier_limit_none abspm w :
  finite_values abspm = [] -> outlier_limit abspm w = (Raise IndexError, w).
Proof.
  intros H. unfold outlier_limit. by rewrite valid_values_are_finite_values, H.
Qed.

(** The mask of line 328, entry by entry *)
Lemma outlier_mask_rows abspm lmt :
  outlier_mask abspm lmt = map (fun x => is_finite x && (x <? lmt)%float) abspm.
Proof.
  unfold outlier_mask, masked_invalid_mask, vand.
  induction abspm as [|x a IH]; [done|].
  simpl. by rewrite negb_involutive, IH, andb_comm.
Qed.

(** *** The sorted vector of the percentile *)

Lemma SFcompare_none a b :
  SFcompare a b = None -> a = S754_nan \/ b = S754_nan.
Proof.
  destruct a as [[]|[]| |[] m1 e1], b as [[]|[]| |[] m2 e2]; simpl; auto;
    discriminate.
Qed.

Lemma not_nan_spec x : is_nan x = false -> Prim2SF x <> S754_nan.
Proof.
  unfold is_nan. rewrite FloatAxioms.eqb_spec. intros H E. by rewrite E in H.
Qed.

(** The order of the floats that are numbers is total. *)
Lemma float_leb_total x y :
  is_nan x = false -> is_nan y = false ->
  (x <=? y)%float = false -> (y <=? x)%float = true.
Proof.
  intros Hx%not_nan_spec Hy%not_nan_spec.
  rewrite !FloatAxioms.leb_spec. unfold SFleb.
  rewrite (SFcompare_antisym (Prim2SF x) (Prim2SF y)).
  destruct (SFcompare (Prim2SF x) (Prim2SF y)) as [[]|] eqn:E; try done.
  by destruct (SFcompare_none _ _ E).
Qed.

Definition float_le (x y : float) : Prop := (x <=? y)%float = true.

Lemma insert_sorted_perm x l : insert_sorted x l ≡ₚ x :: l.
Proof.
  induction l as [|y l IH]; [done|]. simpl.
  destruct (x <=? y)%float; [done|]. by rewrite IH, Permutation_swap.
Qed.

Lemma sort_floats_perm l : sort_floats l ≡ₚ l.
Proof.
  induction l as [|x l IH]; [done|]. simpl.
  by rewrite insert_sorted_perm, IH.
Qed.

Lemma insert_sorted_HdRel x y l :
  float_le y x -> HdRel float_le y l -> HdRel float_le y (insert_sorted x l).
Proof.
  intros Hyx Hl. destruct l as [|z l]; simpl; [by constructor|].
  destruct (x <=? z)%float; constructor; [done|]. by inversion Hl.
Qed.

Lemma insert_sorted_Sorted x l :
  is_nan x = false -> Forall (fun y => is_nan y = false) l ->
  Sorted float_le l -> Sorted float_le (insert_sorted x l).
Proof.
  intros Hx Hl Hs. induction l as [|y l IH]; simpl.
  - by repeat constructor.
  - apply Forall_cons in Hl as [Hy Hl]. inversion Hs as [|? ? Hs' Hh]; subst.
    destruct (x <=? y)%float eqn:E.
    + constructor; [done|]. by constructor.
    + constructor; [by apply IH|].
      apply insert_sorted_HdRel; [|done]. by apply float_leb_total.
Qed.

Lemma sort_floats_Sorted l :
  Forall (fun y => is_nan y = false) l -> Sorted float_le (sort_floats l).
Proof.
  induction l as [|x l IH]; intros Hl; simpl; [constructor|].
  apply Forall_cons in Hl as [Hx Hl].
  apply insert_sorted_Sorted; [done| |by apply IH].
  by rewrite sort_floats_perm.
Qed.

Lemma is_finite_not_nan x : is_finite x = true -> is_nan x = false.
Proof. unfold is_finite. by destruct (is_nan x). Qed.

Lemma finite_values_not_nan a : Forall (fun y => is_nan y = false) (finite_values a).
Proof.
  unfold finite_values. apply List.Forall_forall. intros x [_ Hx]%filter_In.
  by apply is_finite_not_nan.
Qed.

(** ** The pairs, in the words of the specification *)

(** A matched pair: a survey entry, the reference entry nearest to it, and
    the summed absolute proper motion of the reference entry *)
Record matched_pair : Type := MatchedPair {
  s_ra : float;
  s_dec : float;
  g_ra : float;
  g_dec : float;
  g_pm : float
}.

(** The pair of survey row [i] *)
Definition pair_at (self : SplusGaiaAst) (scat gaia_data : table) (idx : list nat)
    (i : nat) : option matched_pair :=
  ra ← cell scat (racolumn self) i;
  dec ← cell scat (decolumn self) i;
  j ← idx !! i;
  raj ← cell gaia_data "RAJ2000" j;
  dej ← cell gaia_data "DEJ2000" j;
  pmra ← cell gaia_data "pmRA" j;
  pmde ← cell gaia_data "pmDE" j;
  Some (MatchedPair ra dec raj dej (abs pmra + abs pmde)).

(** The separation test and the quality selection, of survey row [i] *)
Definition passes_filters (self : SplusGaiaAst) (scat : table) (d2d : list float)
    (i : nat) : bool :=
  match d2d !! i with
  | Some d => (d <? 5)%float
  | None => false
  end && passes_quality self scat i.

(** The pairs that pass the filters, in the order of the survey *)
Definition filtered_pairs (self : SplusGaiaAst) (scat gaia_data : table)
    (idx : list nat) (d2d : list float) : list matched_pair :=
  omap (fun i => if passes_filters self scat d2d i
                 then pair_at self scat gaia_data idx i else None)
       (seq 0 (length idx)).

(** The 95th percentile of the finite proper motions of the pairs *)
Definition trim_limit (pairs : list matched_pair) : float :=
  percentile (finite_values (map g_pm pairs)) 95.

Definition survives_trim (lmt : float) (p : matched_pair) : bool :=
  is_finite (g_pm p) && (g_pm p <? lmt)%float.

(** The pairs the outlier trim keeps *)
Definition trimmed (pairs : list matched_pair) : list matched_pair :=
  List.filter (survives_trim (trim_limit pairs)) pairs.

(** ** Vectors and rows *)

Lemma mask_select_map {A B} (f : A -> B) (m : list bool) (l : list A) :
  mask_select m (map f l) = map f (mask_select m l).
Proof.
  revert l. induction m as [|b m IH]; intros [|x l]; simpl; try done.
  destruct b; simpl; by rewrite IH.
Qed.

Lemma mask_select_zip_with {A B C} (f : A -> B -> C) (m : list bool) a b :
  mask_select m (zip_with f a b) = zip_with f (mask_select m a) (mask_select m b).
Proof.
  revert a b. induction m as [|c m IH]; intros [|x a] [|y b]; simpl; try done.
  - by destruct c, (mask_select m a).
  - destruct c; simpl; by rewrite IH.
Qed.

Lemma mask_select_filter {A} (P : A -> bool) (l : list A) :
  mask_select (map P l) l = List.filter P l.
Proof. induction l as [|x l IH]; [done|]. simpl. by rewrite IH. Qed.

Lemma omap_mask_select {A B} (keep : A -> bool) (g : A -> B) (l : list A) :
  omap (fun x => if keep x then Some (g x) else None) l
  = mask_select (map keep l) (map g l).
Proof.
  induction l as [|x l IH]; [done|]. csimpl. rewrite <- IH. by destruct (keep x).
Qed.

Lemma omap_ext_in {A B} (f g : A -> option B) (l : list A) :
  (forall x, x ∈ l -> f x = g x) -> omap f l = omap g l.
Proof.
  induction l as [|x l IH]; intros H; [done|]. csimpl.
  rewrite (H x) by left. rewrite IH; [done|]. intros y Hy. apply H. by right.
Qed.

Lemma map_nth_seq (l : list float) :
  map (fun i => nth i l 0%float) (seq 0 (length l)) = l.
Proof.
  apply list_eq. intros i. rewrite lookup_map.
  destruct (l !! i) as [x|] eqn:E.
  - rewrite lookup_seq_lt by (by eapply lookup_lt_Some). simpl.
    f_equal. by apply nth_lookup_Some with (d := 0%float) in E.
  - rewrite lookup_seq_ge; [done|]. by apply lookup_ge_None.
Qed.

Lemma zip_with_map_pairs {A} (f g h : A -> float) (k : float * float -> float -> float)
    (l : list A) :
  zip_with k (zip (map f l) (map g l)) (map h l)
  = map (fun p => k (f p, g p) (h p)) l.
Proof. induction l as [|x l IH]; [done|]. simpl. by rewrite IH. Qed.

Lemma zip_with_map_same {A} (f g : A -> float) (k : float -> float -> float)
    (l : list A) :
  zip_with k (map f l) (map g l) = map (fun p => k (f p) (g p)) l.
Proof. induction l as [|x l IH]; [done|]. simpl. by rewrite IH. Qed.

Lemma take_rows_nth idx (c c' : column) i j :
  take_rows idx c = Some c' -> idx !! i = Some j ->
  c !! j = Some (nth i c' 0%float).
Proof.
  unfold take_rows. intros H%mapM_Some_1 Hi.
  destruct (Forall2_lookup_l _ _ _ _ _ H Hi) as (x & Hx & Hc).
  rewrite Hc. f_equal. symmetry. by apply nth_lookup_Some.
Qed.

Lemma take_rows_length idx (c c' : column) :
  take_rows idx c = Some c' -> length c' = length idx.
Proof.
  unfold take_rows. intros H%mapM_Some_1. symmetry. by eapply Forall2_length.
Qed.

(** ** From the rows written back to the pairs *)

(** The position in the vector of the [k]-th entry a mask selects *)
Fixpoint sel_index (m : list bool) (k : nat) : option nat :=
  match m with
  | [] => None
  | true :: m' => match k with
                  | 0 => Some 0
                  | S k' => S <$> sel_index m' k'
                  end
  | false :: m' => S <$> sel_index m' k
  end.

Lemma mask_select_lookup {A} (m : list bool) (l : list A) k :
  mask_select m l !! k = sel_index m k ≫= fun i => l !! i.
Proof.
  revert l k. induction m as [|[] m IH]; intros [|x l] k; simpl; try done.
  - destruct k; [done|]. by destruct (sel_index m k).
  - destruct k; [done|]. simpl. rewrite IH. by destruct (sel_index m k).
  - by destruct (sel_index m k).
  - rewrite IH. by destruct (sel_index m k).
Qed.

Lemma sel_index_true m k i : sel_index m k = Some i -> m !! i = Some true.
Proof.
  revert k i. induction m as [|[] m IH]; intros k i; simpl; [done| |].
  - destruct k; [by intros [= <-]|].
    destruct (sel_index m k) eqn:E; intros; simplify_eq/=. eauto.
  - destruct (sel_index m k) eqn:E; intros; simplify_eq/=. eauto.
Qed.

Lemma mask_select_cell (mask : list bool) (c : column) k x :
  mask_select mask c !! k = Some x ->
  exists j, sel_index mask k = Some j /\ c !! j = Some x.
Proof.
  rewrite mask_select_lookup. destruct (sel_index mask k) as [j|]; [|done].
  simpl. eauto.
Qed.

Lemma col_lookup_table_mask m (t : table) name :
  col_lookup (table_mask m t) name = mask_select m <$> col_lookup t name.
Proof.
  induction t as [|[n c] t IH]; [done|]. simpl. by case_bool_decide.
Qed.

Lemma table_mask_cell m (t : table) name c j x :
  col_lookup (table_mask m t) name = Some c -> c !! j = Some x ->
  exists i, sel_index m j = Some i /\ cell t name i = Some x.
Proof.
  rewrite col_lookup_table_mask. unfold cell.
  destruct (col_lookup t name) as [c0|]; [|done].
  intros [= <-] Hx. by apply mask_select_cell.
Qed.

Lemma take_rows_lookup idx (c c' : column) i x :
  take_rows idx c = Some c' -> c' !! i = Some x ->
  exists j, idx !! i = Some j /\ c !! j = Some x.
Proof.
  unfold take_rows. intros H%mapM_Some_1 Hx.
  by destruct (Forall2_lookup_r _ _ _ _ _ H Hx) as (j & ? & ?); eauto.
Qed.

Lemma table_take_col idx (t t' : table) w w' name c' :
  table_take idx t w = (Ok t', w') -> col_lookup t' name = Some c' ->
  exists c, col_lookup t name = Some c /\ take_rows idx c = Some c'.
Proof.
  unfold table_take.
  destruct (mapM _ t) as [t0|] eqn:E; [|done]. intros [= <- _].
  apply mapM_Some_1 in E. induction E as [|[n c] [n' c0] t t0 Hh E IH]; [done|].
  simpl in *. destruct (take_rows idx c) as [c1|] eqn:Ht; simplify_eq/=.
  case_bool_decide; [intros [= <-]; eauto | done].
Qed.

Lemma table_take_cell idx (t t' : table) w w' name i x :
  table_take idx t w = (Ok t', w') -> cell t' name i = Some x ->
  exists j, idx !! i = Some j /\ cell t name j = Some x.
Proof.
  intros Ht. unfold cell.
  destruct (col_lookup t' name) as [c'|] eqn:Hc; [|done]. intros Hx.
  destruct (table_take_col _ _ _ _ _ _ _ Ht Hc) as (c & -> & Hr).
  by eapply take_rows_lookup.
Qed.

Lemma table_take_world idx (t t' : table) w w' :
  table_take idx t w = (Ok t', w') -> w' = w.
Proof. unfold table_take. destruct (mapM _ t); by intros [=]. Qed.

Lemma getitem_ok_inv (t : table) name c w w' :
  getitem t name w = (Ok c, w') -> col_lookup t name = Some c /\ w' = w.
Proof. unfold getitem. destruct (col_lookup t name); by intros [=]; subst. Qed.

(** Row [k] of a table of results *)
Definition written_row (d : table) (k : nat)
    (ra dec raj dej radiff dediff : float) : Prop :=
  cell d "RA" k = Some ra /\ cell d "DEC" k = Some dec /\
  cell d "RAJ2000" k = Some raj /\ cell d "DEJ2000" k = Some dej /\
  cell d "radiff" k = Some radiff /\ cell d "dediff" k = Some dediff.

Lemma lookup_nth (l : list float) i :
  i < length l -> l !! i = Some (nth i l 0%float).
Proof.
  intros Hi. destruct (lookup_lt_is_Some_2 l i Hi) as [x Hx].
  rewrite Hx. f_equal. symmetry. by apply nth_lookup_Some.
Qed.

Lemma map_nth_seq_n (l : list float) n :
  length l = n -> l = map (fun i => nth i l 0%float) (seq 0 n).
Proof. intros <-. symmetry. apply map_nth_seq. Qed.

Section PairFacts.
Context `{Eco : Ecosystem}.

(** The table of results of a list of pairs, the differences by the
    formulas of the specification *)
Definition pairs_table (pairs : list matched_pair) : table :=
  [("RA", map s_ra pairs);
   ("DEC", map s_dec pairs);
   ("RAJ2000", map g_ra pairs);
   ("DEJ2000", map g_dec pairs);
   ("radiff",
    map (fun p => (3600 * (s_ra p - g_ra p) * np_cos_deg (g_dec p))%float) pairs);
   ("dediff", map (fun p => (3600 * (s_dec p - g_dec p))%float) pairs);
   ("abspm", map g_pm pairs)].

(** What the sky match answers for the two catalogues: for each survey
    entry the row of its nearest reference entry and the separation *)
Definition matched (self : SplusGaiaAst) (scat gaia_data : table)
  : option (list nat * list float) :=
  ra_s ← col_lookup scat (racolumn self);
  dec_s ← col_lookup scat (decolumn self);
  ra_g ← col_lookup gaia_data "RAJ2000";
  dec_g ← col_lookup gaia_data "DEJ2000";
  match match_to_catalog_3d ra_s dec_s ra_g dec_g with
  | Ok m => Some m
  | Raise _ => None
  end.

Lemma sky_match_matched self scat gaia_data idx separation w w' :
  sky_match self scat gaia_data w = (Ok (idx, separation), w') ->
  exists d2d,
    matched self scat gaia_data = Some (idx, d2d) /\
    separation = map (fun d => (d <? 5.0)%float) d2d /\ w' = w.
Proof.
  unfold sky_match. intros H.
  apply bind_ok_inv in H as (ra_s & w1 & [H1 ->]%getitem_ok_inv & H).
  apply bind_ok_inv in H as (dec_s & w2 & [H2 ->]%getitem_ok_inv & H).
  apply bind_ok_inv in H as (ra_g & w3 & [H3 ->]%getitem_ok_inv & H).
  apply bind_ok_inv in H as (dec_g & w4 & [H4 ->]%getitem_ok_inv & H).
  apply bind_ok_inv in H as ([idx' d2d] & w5 & Hl & H).
  unfold lift_result in Hl. injection Hl as Hl <-.
  unfold ret in H. injection H as <- <- <-.
  exists d2d. unfold matched. rewrite H1, H2, H3, H4. simpl. by rewrite Hl.
Qed.

Lemma matched_sky_match self scat gaia_data idx d2d w :
  matched self scat gaia_data = Some (idx, d2d) ->
  sky_match self scat gaia_data w
  = (Ok (idx, map (fun d => (d <? 5.0)%float) d2d), w).
Proof.
  unfold matched. intros H.
  destruct (col_lookup scat (racolumn self)) as [ra_s|] eqn:H1; [|done].
  destruct (col_lookup scat (decolumn self)) as [dec_s|] eqn:H2; [|done].
  destruct (col_lookup gaia_data "RAJ2000") as [ra_g|] eqn:H3; [|done].
  destruct (col_lookup gaia_data "DEJ2000") as [dec_g|] eqn:H4; [|done].
  simpl in H.
  destruct (match_to_catalog_3d ra_s dec_s ra_g dec_g) as [m|e] eqn:Hm; [|done].
  injection H as ->. by apply (sky_match_ok _ _ _ ra_s dec_s ra_g dec_g).
Qed.

(** A stage that returns had its column, if one is configured. *)
Lemma filter_stage_present (f : optional_filter) self scat sample sample' w w' :
  filter_stage f self scat sample w = (Ok sample', w') ->
  column_present scat (filter_column self f).
Proof.
  intros H c Hc. destruct (col_lookup scat c) as [col|] eqn:E; [by eauto|].
  exfalso. destruct f; simpl in *.
  - unfold flags_stage in H. rewrite Hc in H.
    by rewrite (bind_raise _ _ _ _ _ (getitem_none _ _ _ E)) in H.
  - by rewrite (clstar_stage_absent _ _ _ _ _ Hc E) in H.
  - unfold fwhm_stage in H. rewrite Hc in H.
    by rewrite (bind_raise _ _ _ _ _ (getitem_none _ _ _ E)) in H.
  - unfold sn_stage in H. rewrite Hc in H.
    by rewrite (bind_raise _ _ _ _ _ (getitem_none _ _ _ E)) in H.
Qed.

(** The selection that the code returns is the predicate of the
    specification, row by row. *)
Lemma quality_sample_passes self scat n sample w w' :
  table_wf n scat ->
  quality_sample self scat w = (Ok sample, w') ->
  length sample = n /\
  forall i, i < n -> sample !! i = Some (passes_quality self scat i).
Proof.
  intros Hwf Hrun. rewrite quality_sample_stages in Hrun.
  apply bind_ok_inv in Hrun as (s0 & w0 & H0 & Hrun).
  assert (is_Some (col_lookup scat (mag_column self))) as Hmag.
  { unfold mag_stage in H0.
    apply bind_ok_inv in H0 as (mag & w1 & [Hl _]%getitem_ok_inv & _). eauto. }
  destruct (mag_stage_rows self scat n w Hwf Hmag) as (s0' & R0 & L0 & P0).
  rewrite R0 in H0. injection H0 as <- <-.
  apply bind_ok_inv in Hrun as (s1 & w1 & H1 & Hrun).
  destruct (filter_stage_rows Flags self scat s0' n w Hwf L0
              (filter_stage_present _ _ _ _ _ _ _ H1)) as (s1' & w1' & R1 & L1 & P1).
  rewrite R1 in H1. injection H1 as <- <-.
  apply bind_ok_inv in Hrun as (s2 & w2 & H2 & Hrun).
  destruct (filter_stage_rows ClassStar self scat s1' n w1' Hwf L1
              (filter_stage_present _ _ _ _ _ _ _ H2)) as (s2' & w2' & R2 & L2 & P2).
  rewrite R2 in H2. injection H2 as <- <-.
  apply bind_ok_inv in Hrun as (s3 & w3 & H3 & Hrun).
  destruct (filter_stage_rows Fwhm self scat s2' n w2' Hwf L2
              (filter_stage_present _ _ _ _ _ _ _ H3)) as (s3' & w3' & R3 & L3 & P3).
  rewrite R3 in H3. injection H3 as <- <-.
  destruct (filter_stage_rows SignalToNoise self scat s3' n w3' Hwf L3
              (filter_stage_present _ _ _ _ _ _ _ Hrun)) as (s4 & w4 & R4 & L4 & P4).
  rewrite R4 in Hrun. injection Hrun as <- <-.
  split; [done|]. intros i Hi. unfold passes_quality.
  by rewrite (P4 i _ (P3 i _ (P2 i _ (P1 i _ (P0 i Hi))))).
Qed.

Lemma abspm_of_ok finalgaia abspm w w' :
  abspm_of finalgaia w = (Ok abspm, w') ->
  exists pmRA pmDE,
    col_lookup finalgaia "pmRA" = Some pmRA /\
    col_lookup finalgaia "pmDE" = Some pmDE /\
    abspm = zip_with (fun a b => (abs a + abs b)%float) pmRA pmDE /\ w' = w.
Proof.
  unfold abspm_of. intros H.
  apply bind_ok_inv in H as (pmRA & w1 & [H1 ->]%getitem_ok_inv & H).
  apply bind_ok_inv in H as (pmDE & w2 & [H2 ->]%getitem_ok_inv & H).
  injection H as <- <-. by exists pmRA, pmDE.
Qed.

Lemma differences_ok_inv self finalscat finalgaia abspm mask d w w' :
  differences self finalscat finalgaia abspm mask w = (Ok d, w') ->
  exists dec_s dec_g ra_s ra_g,
    col_lookup finalscat (decolumn self) = Some dec_s /\
    col_lookup finalgaia "DEJ2000" = Some dec_g /\
    col_lookup finalscat (racolumn self) = Some ra_s /\
    col_lookup finalgaia "RAJ2000" = Some ra_g /\
    d = [("RA", mask_select mask ra_s);
         ("DEC", mask_select mask dec_s);
         ("RAJ2000", mask_select mask ra_g);
         ("DEJ2000", mask_select mask dec_g);
         ("radiff",
          zip_with (fun sg d => radiff_of sg.1 sg.2 d)
                   (zip (mask_select mask ra_s) (mask_select mask ra_g))
                   (mask_select mask dec_g));
         ("dediff",
          zip_with dediff_of (mask_select mask dec_s) (mask_select mask dec_g));
         ("abspm", mask_select mask abspm)].
Proof.
  unfold differences. intros H.
  apply bind_ok_inv in H as (dec_s & w1 & [H1 ->]%getitem_ok_inv & H).
  apply bind_ok_inv in H as (dec_g & w2 & [H2 ->]%getitem_ok_inv & H).
  apply bind_ok_inv in H as (ra_s & w3 & [H3 ->]%getitem_ok_inv & H).
  apply bind_ok_inv in H as (ra_g & w4 & [H4 ->]%getitem_ok_inv & H).
  injection H as <- _. by exists dec_s, dec_g, ra_s, ra_g.
Qed.

(** The steps of lines 286-343, one by one, of a run that returns *)
Lemma astdiff_table_inv self kind scat gaia_data d w w' :
  astdiff_table self kind scat gaia_data w = (Ok d, w') ->
  exists idx separation sample gaia_idx abspm lmt w1 w2,
    kind = FitsRec /\
    sky_match self scat gaia_data w = (Ok (idx, separation), w1) /\
    quality_sample self scat w1 = (Ok sample, w2) /\
    table_take idx gaia_data w2 = (Ok gaia_idx, w2) /\
    abspm_of (table_mask (vand separation sample) gaia_idx) w2 = (Ok abspm, w2) /\
    finite_values abspm <> [] /\
    lmt = percentile (finite_values abspm) 95 /\
    differences self (table_mask (vand separation sample) scat)
      (table_mask (vand separation sample) gaia_idx) abspm (outlier_mask abspm lmt) w2
    = (Ok d, w').
Proof.
  unfold astdiff_table. intros H.
  apply bind_ok_inv in H as ([idx separation] & w1 & Hm & H).
  apply bind_ok_inv in H as (sample & w2 & Hq & H).
  apply bind_ok_inv in H as (gaia_idx & w3 & Ht & H).
  pose proof (table_take_world _ _ _ _ _ Ht) as ->.
  apply bind_ok_inv in H as (finalgaia & w4 & Hg & H).
  destruct kind; [|done]. injection Hg as <- <-.
  apply bind_ok_inv in H as (abspm & w5 & Ha & H).
  destruct (abspm_of_ok _ _ _ _ Ha) as (? & ? & _ & _ & _ & ->).
  apply bind_ok_inv in H as (lmt & w6 & Hl & H).
  apply outlier_limit_ok in Hl as (Hne & Hlmt & ->).
  by exists idx, separation, sample, gaia_idx, abspm, lmt, w1, w2.
Qed.

(** The table of results is the table of the pairs that pass the filters
    and the trim: the code, vector by vector, and the specification, pair
    by pair, say the same. *)
Lemma astdiff_table_pairs self kind scat gaia_data idx d2d d w w' :
  table_wf (length idx) scat -> length d2d = length idx ->
  matched self scat gaia_data = Some (idx, d2d) ->
  astdiff_table self kind scat gaia_data w = (Ok d, w') ->
  kind = FitsRec /\
  finite_values (map g_pm (filtered_pairs self scat gaia_data idx d2d)) <> [] /\
  d = pairs_table (trimmed (filtered_pairs self scat gaia_data idx d2d)).
Proof.
  intros Hwf Hlen Hmat Hrun.
  destruct (astdiff_table_inv _ _ _ _ _ _ _ Hrun)
    as (idx' & separation & sample & gaia_idx & abspm & lmt & w1 & w2 &
        -> & Hm & Hq & Ht & Ha & Hne & -> & Hd).
  destruct (sky_match_matched _ _ _ _ _ _ _ Hm) as (d2d' & Hmat' & -> & ->).
  rewrite Hmat in Hmat'. injection Hmat' as <- <-.
  destruct (quality_sample_passes _ _ _ _ _ _ Hwf Hq) as [Hslen Hsample].
  destruct (abspm_of_ok _ _ _ _ Ha) as (pa_f & pb_f & Hpa & Hpb & -> & _).
  apply differences_ok_inv in Hd
    as (dec_f & dg_f & ra_f & rg_f & Hds & Hdg & Hrs & Hrg & ->).
  set (n := length idx) in *.
  set (M := vand (map (fun d => (d <? 5.0)%float) d2d) sample) in *.
  rewrite col_lookup_table_mask in Hds, Hrs, Hdg, Hrg, Hpa, Hpb.
  destruct (col_lookup scat (decolumn self)) as [dec_s|] eqn:Eds; [|done].
  destruct (col_lookup scat (racolumn self)) as [ra_s|] eqn:Ers; [|done].
  destruct (col_lookup gaia_idx "DEJ2000") as [dg|] eqn:Edg; [|done].
  destruct (col_lookup gaia_idx "RAJ2000") as [rg|] eqn:Erg; [|done].
  destruct (col_lookup gaia_idx "pmRA") as [pa|] eqn:Epa; [|done].
  destruct (col_lookup gaia_idx "pmDE") as [pb|] eqn:Epb; [|done].
  simpl in Hds, Hrs, Hdg, Hrg, Hpa, Hpb.
  injection Hds as <-. injection Hrs as <-. injection Hdg as <-.
  injection Hrg as <-. injection Hpa as <-. injection Hpb as <-.
  destruct (table_take_col _ _ _ _ _ _ _ Ht Edg) as (dec_g & Gdg & Tdg).
  destruct (table_take_col _ _ _ _ _ _ _ Ht Erg) as (ra_g & Grg & Trg).
  destruct (table_take_col _ _ _ _ _ _ _ Ht Epa) as (pmra & Gpa & Tpa).
  destruct (table_take_col _ _ _ _ _ _ _ Ht Epb) as (pmde & Gpb & Tpb).
  pose proof (col_lookup_wf _ _ _ _ Hwf Eds) as Lds.
  pose proof (col_lookup_wf _ _ _ _ Hwf Ers) as Lrs.
  pose proof (take_rows_length _ _ _ Tdg) as Ldg.
  pose proof (take_rows_length _ _ _ Trg) as Lrg.
  pose proof (take_rows_length _ _ _ Tpa) as Lpa.
  pose proof (take_rows_length _ _ _ Tpb) as Lpb.
  fold n in Ldg, Lrg, Lpa, Lpb.
  set (row := fun i =>
         MatchedPair (nth i ra_s 0%float) (nth i dec_s 0%float)
                     (nth i rg 0%float) (nth i dg 0%float)
                     (abs (nth i pa 0%float) + abs (nth i pb 0%float))).
  set (R := map row (seq 0 n)).
  (* the vectors are the columns of the rows *)
  assert (ra_s = map s_ra R) as Cra.
  { unfold R. rewrite map_map. by apply map_nth_seq_n. }
  assert (dec_s = map s_dec R) as Cdec.
  { unfold R. rewrite map_map. by apply map_nth_seq_n. }
  assert (rg = map g_ra R) as Crg.
  { unfold R. rewrite map_map. by apply map_nth_seq_n. }
  assert (dg = map g_dec R) as Cdg.
  { unfold R. rewrite map_map. by apply map_nth_seq_n. }
  assert (zip_with (fun a b => (abs a + abs b)%float) pa pb = map g_pm R) as Cpm.
  { unfold R. rewrite map_map. simpl.
    rewrite (map_nth_seq_n pa n Lpa) at 1. rewrite (map_nth_seq_n pb n Lpb) at 1.
    by rewrite zip_with_map_same. }
  (* the mask is the two filters *)
  assert (M = map (passes_filters self scat d2d) (seq 0 n)) as HM.
  { apply list_eq. intros i. rewrite lookup_map.
    destruct (decide (i < n)) as [Hi|Hi].
    - rewrite lookup_seq_lt by done. simpl. unfold passes_filters.
      destruct (lookup_lt_is_Some_2 d2d i) as [x Hx]; [lia|]. rewrite Hx.
      apply vand_lookup; [by rewrite lookup_map, Hx | by apply Hsample].
    - rewrite lookup_seq_ge by lia. simpl. apply lookup_ge_None.
      unfold M, vand. rewrite length_zip_with, length_map. lia. }
  (* the pairs that pass the filters are the rows the mask selects *)
  assert (filtered_pairs self scat gaia_data idx d2d = mask_select M R) as HF.
  { unfold filtered_pairs. fold n.
    rewrite (omap_ext_in _
               (fun i => if passes_filters self scat d2d i then Some (row i) else None)).
    { by rewrite omap_mask_select, <- HM. }
    intros i Hi%elem_of_seq. destruct (passes_filters self scat d2d i); [|done].
    destruct (lookup_lt_is_Some_2 idx i) as [j Hj]; [lia|].
    unfold pair_at, cell. rewrite Ers, Eds, Grg, Gdg, Gpa, Gpb, Hj.
    rewrite (lookup_nth ra_s i), (lookup_nth dec_s i) by lia. simpl.
    rewrite (take_rows_nth _ _ _ _ _ Trg Hj), (take_rows_nth _ _ _ _ _ Tdg Hj),
      (take_rows_nth _ _ _ _ _ Tpa Hj), (take_rows_nth _ _ _ _ _ Tpb Hj).
    done. }
  split; [done|].
  rewrite <- mask_select_zip_with, Cpm, mask_select_map, <- HF in Hne.
  split; [done|].
  rewrite <- mask_select_zip_with, Cpm.
  rewrite Cra, Cdec, Crg, Cdg, !mask_select_map, <- HF.
  set (F := filtered_pairs self scat gaia_data idx d2d) in *.
  rewrite outlier_mask_rows, map_map.
  change (fun x => is_finite (g_pm x) && (g_pm x <? percentile (finite_values (map g_pm F)) 95)%float)
    with (survives_trim (trim_limit F)).
  rewrite ?mask_select_map, mask_select_filter.
  fold (trimmed F). unfold pairs_table.
  by rewrite zip_with_map_pairs, zip_with_map_same.
Qed.

(** C4. The trim keeps a matched pair exactly when its summed absolute
    proper motion, |pmRA| + |pmDE| of the reference entry, is finite and
    strictly below the 95th percentile of the finite sums: the table of
    results is the table of the pairs that pass the filters and have this
    property, and there is no table when no sum is finite.  The percentile
    is taken in the sorted vector of the finite sums; of the sums
    1, 2, ..., 100 the limit is 95.05 and the pairs kept are those of
    1, ..., 95. *)
Theorem outlier_trim_rows self kind scat gaia_data idx d2d d w w' :
  table_wf (length idx) scat -> length d2d = length idx ->
  matched self scat gaia_data = Some (idx, d2d) ->
  astdiff_table self kind scat gaia_data w = (Ok d, w') ->
  let pairs := filtered_pairs self scat gaia_data idx d2d in
  let valid := finite_values (map g_pm pairs) in
  let lmt := percentile valid 95 in
  (valid <> [] /\
   d = pairs_table (List.filter (fun p => is_finite (g_pm p) && (g_pm p <? lmt)%float)
                      pairs) /\
   (forall k x, cell d "abspm" k = Some x ->
      is_finite x = true /\ (x <? lmt)%float = true) /\
   (forall p, p ∈ pairs -> is_finite (g_pm p) = true -> (g_pm p <? lmt)%float = true ->
      exists k, cell d "abspm" k = Some (g_pm p) /\
                cell d "RA" k = Some (s_ra p) /\ cell d "DEC" k = Some (s_dec p))) /\
  (sort_floats valid ≡ₚ valid /\ Sorted float_le (sort_floats valid)) /\
  (exists abspm,
     abspm_of [("pmRA", map float_of_nat (seq 1 100)); ("pmDE", replicate 100 0%float)] w
     = (Ok abspm, w) /\
     abspm = map float_of_nat (seq 1 100) /\
     outlier_limit abspm w = (Ok 95.05%float, w) /\
     mask_select (outlier_mask abspm 95.05) abspm = map float_of_nat (seq 1 95)) /\
  percentile [16; 1; 8; 2; 4]%float 95 = 14.399999999999999%float.
Proof.
  intros Hwf Hlen Hmat Hrun. simpl.
  destruct (astdiff_table_pairs _ _ _ _ _ _ _ _ _ Hwf Hlen Hmat Hrun)
    as (_ & Hne & Hd).
  set (pairs := filtered_pairs self scat gaia_data idx d2d) in *.
  split; [|split; [|split]].
  - split; [done|]. split; [done|]. rewrite Hd. unfold pairs_table, cell. simpl.
    split.
    + intros k x Hx. rewrite lookup_map in Hx.
      destruct (trimmed pairs !! k) as [p|] eqn:Hp; [|done].
      injection Hx as <-. apply list_elem_of_lookup_2, list_elem_of_In in Hp.
      apply filter_In in Hp as [_ Hp]. by apply andb_true_iff in Hp.
    + intros p Hp Hfin Hlt.
      assert (p ∈ trimmed pairs) as Hin.
      { apply list_elem_of_In, filter_In. split; [by apply list_elem_of_In|].
        unfold survives_trim, trim_limit. by rewrite Hfin, Hlt. }
      apply list_elem_of_lookup_1 in Hin as [k Hk]. exists k.
      by rewrite !lookup_map, Hk.
  - split; [apply sort_floats_perm|].
    apply sort_floats_Sorted, finite_values_not_nan.
  - exists (map float_of_nat (seq 1 100)).
    split; [by vm_compute|]. split; [done|]. split; by vm_compute.
  - by vm_compute.
Qed.

(** Every row of the table of results is the pair of a survey entry and of
    its nearest reference entry, selected by the separation and by the
    quality selection, with the two differences of that pair. *)
Lemma astdiff_table_rows self kind scat gaia_data d w w' :
  astdiff_table self kind scat gaia_data w = (Ok d, w') ->
  exists idx separation sample w1 w2,
    sky_match self scat gaia_data w = (Ok (idx, separation), w1) /\
    quality_sample self scat w1 = (Ok sample, w2) /\
    forall k ra dec raj dej radiff dediff,
      written_row d k ra dec raj dej radiff dediff ->
      dediff = dediff_of dec dej /\ radiff = radiff_of ra raj dej /\
      exists i j,
        idx !! i = Some j /\
        separation !! i = Some true /\ sample !! i = Some true /\
        cell scat (racolumn self) i = Some ra /\
        cell scat (decolumn self) i = Some dec /\
        cell gaia_data "RAJ2000" j = Some raj /\
        cell gaia_data "DEJ2000" j = Some dej.
Proof.
  intros H.
  destruct (astdiff_table_inv _ _ _ _ _ _ _ H)
    as (idx & separation & sample & gaia_idx & abspm & lmt & w1 & w2 &
        _ & Hm & Hq & Ht & _ & _ & _ & Hd).
  apply differences_ok_inv in Hd
    as (dec_s & dec_g & ra_s & ra_g & Hds & Hdg & Hrs & Hrg & ->).
  exists idx, separation, sample, w1, w2. split; [done|]. split; [done|].
  simpl in *. set (mask := outlier_mask abspm lmt) in *.
  intros k ra dec raj dej radiff dediff (Hra & Hdec & Hraj & Hdej & Hrd & Hdd).
  unfold cell in Hra, Hdec, Hraj, Hdej, Hrd, Hdd. simpl in *.
  apply lookup_zip_with_Some in Hdd as (dec' & dej' & -> & Hdec' & Hdej').
  apply lookup_zip_with_Some in Hrd as ([ra' raj'] & dej'' & -> & Hz & Hdej'').
  apply lookup_zip_Some in Hz as [Hra' Hraj']. simplify_eq/=.
  split; [done|]. split; [done|].
  apply mask_select_cell in Hra as (j1 & Hk & Hra).
  apply mask_select_cell in Hdec as (j2 & Hk2 & Hdec).
  apply mask_select_cell in Hraj as (j3 & Hk3 & Hraj).
  apply mask_select_cell in Hdej as (j4 & Hk4 & Hdej). simplify_eq.
  destruct (table_mask_cell _ _ _ _ _ _ Hrs Hra) as (i & Hi & Cra).
  destruct (table_mask_cell _ _ _ _ _ _ Hds Hdec) as (i2 & Hi2 & Cdec).
  destruct (table_mask_cell _ _ _ _ _ _ Hrg Hraj) as (i3 & Hi3 & Craj).
  destruct (table_mask_cell _ _ _ _ _ _ Hdg Hdej) as (i4 & Hi4 & Cdej).
  simplify_eq.
  destruct (table_take_cell _ _ _ _ _ _ _ _ Ht Craj) as (j & Hj & Graj).
  destruct (table_take_cell _ _ _ _ _ _ _ _ Ht Cdej) as (j' & Hj' & Gdej).
  simplify_eq.
  apply sel_index_true, vand_true in Hi as [Hsep Hsam].
  by exists i, j.
Qed.

End PairFacts.


(** ** What a processed tile leaves behind *)

Section TileFacts.
Context `{Eco : Ecosystem}.

(** The reference catalogue is obtained from the cache file or not at all:
    [get_gaia] does not return. *)
Lemma load_gaia_ok_inv self footprint field_names workdir gaia_dr tile gaia_data w w1 :
  load_gaia self footprint field_names workdir gaia_dr tile w = (Ok gaia_data, w1) ->
  files w !! astdiff_gaia_cat_path workdir gaia_dr tile = Some (Csv gaia_data) /\
  w1 = emit (OpenFile (astdiff_gaia_cat_path workdir gaia_dr tile))
            (emit (Log INFO "Reading gaia cat from database") w).
Proof.
  unfold load_gaia. intros H.
  apply bind_ok_inv in H as (ra & w2 & [_ ->]%getitem_ok_inv & H).
  apply bind_ok_inv in H as (dec & w3 & [_ ->]%getitem_ok_inv & H).
  apply bind_ok_inv in H as (sra0 & w4 & H0 & H).
  assert (w4 = w) as ->.
  { unfold index0 in H0. destruct (mask_select _ ra); by injection H0. }
  apply bind_ok_inv in H as (sdec0 & w5 & H0' & H).
  assert (w5 = w) as ->.
  { unfold index0 in H0'. destruct (mask_select _ dec); by injection H0'. }
  unfold bind at 1, os_path_isfile at 1 in H.
  destruct (bool_decide _) eqn:Hb.
  - unfold bind, logger, read_csv, bind, open_file in H. simpl in H.
    destruct (files w !! _) as [[t|hdus|lines|b]|] eqn:Hf; simpl in H;
      unfold ret, raise in H; by simplify_eq.
  - destruct (get_gaia_raises self (sra0, sdec0) tile None None
                (Some get_gaia_angle_default) w) as (e & w' & Hg & _).
    by rewrite Hg in H.
Qed.

(** C1. The result file of a processed tile is the table of the matched
    pairs that pass the separation test, the quality selection and the
    outlier trim, one row a pair and in the order of the survey: for every
    such pair the Dec difference written is 3600*(survey Dec - reference
    Dec) and the RA difference 3600*(survey RA - reference RA)*cos(reference
    Dec), in binary64 arithmetic, and there is no other row.  For the Dec
    values 20.0 and 20.0005 the difference is the float -1.799999999995805,
    within 1e-11 of -1.8. *)
Theorem written_differences self footprint field_names workdir gaia_dr pre suf
    results_dir tile w w' :
  tile <> "fakename" ->
  files w !! path_to_results_of results_dir tile = None ->
  astdiff_tile self footprint field_names workdir gaia_dr pre suf results_dir tile w
  = (Ok tt, w') ->
  (exists gaia_data scat idx d2d d w1 w2,
     load_gaia self footprint field_names workdir gaia_dr tile w = (Ok gaia_data, w1) /\
     load_survey self workdir pre suf tile w1 = (Ok (Catalogue FitsRec scat), w2) /\
     matched self scat gaia_data = Some (idx, d2d) /\
     files w' !! path_to_results_of results_dir tile = Some (Csv d) /\
     (table_wf (length idx) scat -> length d2d = length idx ->
      let pairs := trimmed (filtered_pairs self scat gaia_data idx d2d) in
      d = pairs_table pairs /\
      (forall p, p ∈ pairs ->
         exists k,
           written_row d k (s_ra p) (s_dec p) (g_ra p) (g_dec p)
             (3600 * (s_ra p - g_ra p) * np_cos_deg (g_dec p))%float
             (3600 * (s_dec p - g_dec p))%float) /\
      (forall k ra dec raj dej radiff dediff,
         written_row d k ra dec raj dej radiff dediff ->
         dediff = (3600 * (dec - dej))%float /\
         radiff = (3600 * (ra - raj) * np_cos_deg dej)%float /\
         exists p, pairs !! k = Some p /\
                   s_ra p = ra /\ s_dec p = dec /\ g_ra p = raj /\ g_dec p = dej))) /\
  dediff_of 20.0 20.0005 = (-1.799999999995805)%float /\
  (abs (dediff_of 20.0 20.0005 - -1.8) <? 1e-11)%float = true.
Proof.
  intros Hne Hnone Hrun. split; [|by vm_compute].
  unfold astdiff_tile in Hrun. rewrite bool_decide_eq_false_2 in Hrun by done.
  rewrite (bind_ok _ _ _ _ _ (isfile_false _ _ Hnone)) in Hrun.
  apply bind_ok_inv in Hrun as (gaia_data & w1 & Hg & Hrun).
  apply bind_ok_inv in Hrun as (s & w2 & Hs & Hrun).
  apply bind_ok_inv in Hrun as (d & w5 & Ht & Hrun).
  apply bind_ok_inv in Hrun as ([] & w6 & _ & Hrun).
  apply bind_ok_inv in Hrun as ([] & w7 & _ & Hrun).
  rewrite to_csv_file in Hrun. injection Hrun as <-.
  destruct s as [kind scat|]; [|done]. simpl in Ht.
  destruct (astdiff_table_inv _ _ _ _ _ _ _ Ht)
    as (idx & separation & sample & gaia_idx & abspm & lmt & w3 & w4 &
        -> & Hm & _).
  destruct (sky_match_matched _ _ _ _ _ _ _ Hm) as (d2d & Hmat & _ & _).
  exists gaia_data, scat, idx, d2d, d, w1, w2.
  repeat (split; [done|]). split.
  { simpl. by rewrite lookup_insert_eq. }
  intros Hwf Hlen. simpl.
  destruct (astdiff_table_pairs _ _ _ _ _ _ _ _ _ Hwf Hlen Hmat Ht) as (_ & _ & ->).
  set (pairs := trimmed (filtered_pairs self scat gaia_data idx d2d)).
  split; [done|]. unfold written_row, pairs_table, cell. simpl. split.
  - intros p [k Hk]%list_elem_of_lookup_1. exists k.
    by rewrite !lookup_map, Hk.
  - intros k ra dec raj dej radiff dediff. rewrite !lookup_map.
    destruct (pairs !! k) as [p|]; simpl; [|by intros [? _]].
    intros (? & ? & ? & ? & ? & ?). simplify_eq. eauto 10.
Qed.

(** C6. With a file type other than '.fits' and '.csv', a tile that is
    still to be done and whose reference catalogue is obtained raises the
    TypeError of the unsupported file type.  By then the cache file of the
    reference catalogue has been opened and read; no other file is opened,
    the survey catalogue is not, and no file is written. *)
Theorem unsupported_filetype_raises self footprint field_names workdir gaia_dr
    pre suf results_dir tile gaia_data w w1 :
  filetype self <> ".fits" -> filetype self <> ".csv" ->
  tile <> "fakename" ->
  files w !! path_to_results_of results_dir tile = None ->
  load_gaia self footprint field_names workdir gaia_dr tile w = (Ok gaia_data, w1) ->
  astdiff_tile self footprint field_names workdir gaia_dr pre suf results_dir tile w
  = (Raise (TypeError "Filetype for input catalogue not supported"),
     emit (Log ERROR "Filetype for input catalogue not supported. Use FITS or CSV") w1) /\
  files w1 = files w /\
  trace w1 = (trace w ++ [Log INFO "Reading gaia cat from database";
                          OpenFile (astdiff_gaia_cat_path workdir gaia_dr tile)])%list.
Proof.
  intros Hf Hc Hne Hnone Hg. split.
  - unfold astdiff_tile. rewrite bool_decide_eq_false_2 by done.
    rewrite (bind_ok _ _ _ _ _ (isfile_false _ _ Hnone)).
    rewrite (bind_ok _ _ _ _ _ Hg).
    unfold load_survey. by rewrite !bool_decide_eq_false_2 by done.
  - apply load_gaia_ok_inv in Hg as [_ ->]. simpl.
    by rewrite <- app_assoc.
Qed.

End TileFacts.

(** * A worked tile

    One tile run through the embedding, for the examples of the
    specification and to instantiate the theorems above.  The libraries
    are played by small stand-ins: a flat-sky nearest neighbour for the
    sky match and a polynomial for the cosine. *)

Definition flat_dist2 (a b : float * float) : float :=
  ((a.1 - b.1) * (a.1 - b.1) + (a.2 - b.2) * (a.2 - b.2))%float.

Fixpoint nearest (p : float * float) (cat : list (float * float)) (i : nat)
    (best : nat * float) : nat * float :=
  match cat with
  | [] => best
  | q :: cat' =>
      if (flat_dist2 p q <? best.2)%float
      then nearest p cat' (S i) (i, flat_dist2 p q)
      else nearest p cat' (S i) best
  end.

Definition flat_sky_match (ra_s dec_s ra_g dec_g : column)
  : result (list nat * list float) :=
  match zip ra_g dec_g with
  | [] => Raise ValueError
  | cat =>
      let ms := map (fun p => nearest p cat 0 (0, infinity)) (zip ra_s dec_s) in
      Ok (map fst ms, map (fun m => (3600 * PrimFloat.sqrt m.2)%float) ms)
  end.

Definition cos_poly (deg : float) : float :=
  let r := (deg * 0.017453292519943295)%float in
  let r2 := (r * r)%float in
  (1 - r2 / 2 * (1 - r2 / 12 * (1 - r2 / 30 * (1 - r2 / 56 * (1 - r2 / 90)))))%float.

(** [os.path.abspath] for a process whose current directory is /w *)
Definition demo_abspath (p : string) : string :=
  if startswith_sep p then p else "/w/" ++ p.

Definition demo_eco : Ecosystem := {|
  match_to_catalog_3d := flat_sky_match;
  np_cos_deg := cos_poly;
  query_region := fun _ _ _ _ _ _ _ => (Raise QueryError, None, ∅);
  request_hash := fun _ _ _ _ => "0f3a";
  parse_args := fun _ => Raise (SystemExit (Some 2%Z));
  ascii_read_footprint := fun _ => Raise ValueError;
  pd_read_names := fun lines => Ok lines;
  os_path_abspath := demo_abspath;
  polls_alive := 0
|}.

Definition demo_survey : table :=
  [("RA", [10.0; 10.5; 11.0]%float);
   ("DEC", [20.0; 20.5; 21.0]%float);
   ("MAG_AUTO", [18.5; 17.0; 16.0]%float);
   ("FLAGS", [1; 0; 0]%float)].

Definition demo_gaia : table :=
  [("RAJ2000", [10.001; 10.5001; 11.01]%float);
   ("DEJ2000", [20.0005; 20.5001; 21.0]%float);
   ("pmRA", [1; 2; 30]%float);
   ("pmDE", [-1; -2; 40]%float)].

Definition demo_footprint : footprint_table := {|
  fp_NAME := ["T1"; "T2"];
  fp_cols := [("RA", [0.6667; 1.5]%float); ("DEC", [20.0; -30.0]%float)]
|}.

Definition demo_self : SplusGaiaAst := parser_defaults "tiles.txt" "/w".

(** The defaults but for [--filetype], [--flags_column], [--clstar_column] *)
Definition demo_config (ft : string) (fl cs : option string) : SplusGaiaAst := {|
  tiles := "tiles.txt";
  workdir := "/w";
  datadir := None;
  gaia_dr := "355";
  cat_name_preffix := "";
  cat_name_suffix := "";
  cathdu := 1;
  racolumn := "RA";
  decolumn := "DEC";
  mag_column := "MAG_AUTO";
  flags_column := fl;
  clstar_column := cs;
  fwhm_column := None;
  sn_column := None;
  filetype := ft;
  angle := 1.0%float;
  sn_limit := 10.0%float;
  output := "splus_gaia_astrometry";
  savefig := false;
  bins := 1000%Z;
  limit := 0.5%float;
  debug := false;
  verbose := false
|}.

Definition demo_self_txt : SplusGaiaAst := demo_config ".txt" None None.

(** [--clstar_column CLASS_STAR], for a catalogue that has no such column *)
Definition demo_self_clstar : SplusGaiaAst :=
  demo_config ".fits" None (Some "CLASS_STAR").

(** [--flags_column FLAG], for a catalogue whose column is named FLAGS *)
Definition demo_self_flag : SplusGaiaAst :=
  demo_config ".fits" (Some "FLAG") None.

(** The work directory before the run: the cached reference catalogue and
    the survey catalogue of tile T1 *)
Definition demo_world : world := {|
  files := {[ "/w/gaia_355/T1.csv" := Csv demo_gaia;
              "/w/T1" := Fits [None; Some demo_survey] ]};
  dirs := {[ "/w"; "/w/gaia_355"; "/w/results" ]};
  trace := []
|}.

Definition demo_run (self : SplusGaiaAst) (w : world) : result unit * world :=
  astdiff_tile (Eco := demo_eco) self demo_footprint ["T1"; "T2"]
    "/w" "355" "" "" "/w/results/" "T1" w.

(** The work directory after the run of tile T1 *)
Definition demo_done : world := (demo_run demo_self demo_world).2.

Definition file_cell (f : option file) (name : string) (k : nat) : option float :=
  match f with
  | Some (Csv t) => cell t name k
  | _ => None
  end.

(** The run writes one row, the pair of the survey entry (10.0, 20.0) and
    of the reference entry (10.001, 20.0005). *)
Example demo_result :
  (demo_run demo_self demo_world).1 = Ok tt /\
  files demo_done !! "/w/results/T1_mar-gaiaDR3_diff.csv"
  = Some (Csv [("RA", [10.0]); ("DEC", [20.0]);
               ("RAJ2000", [10.001]); ("DEJ2000", [20.0005]);
               ("radiff", [-3.3828826898188633]);
               ("dediff", [-1.799999999995805]);
               ("abspm", [2])]%float).
Proof. by vm_compute. Qed.

(** C1, the example as the specification states it: the Dec difference
    written for the pair (10.0, 20.0), (10.001, 20.0005) is not the float
    -1.8. *)
Lemma dec_difference_not_exact :
  file_cell (files demo_done !! "/w/results/T1_mar-gaiaDR3_diff.csv") "dediff" 0
  <> Some (-1.8)%float /\
  dediff_of 20.0 20.0005 <> (-1.8)%float.
Proof. split; vm_compute; intros H; discriminate H. Qed.

(** The separations of the worked tile, in arcsec *)
Definition demo_d2d : list float :=
  Eval vm_compute in
    match flat_sky_match [10.0; 10.5; 11.0]%float [20.0; 20.5; 21.0]%float
            [10.001; 10.5001; 11.01]%float [20.0005; 20.5001; 21.0]%float with
    | Ok m => m.2
    | Raise _ => []
    end.

(** The table of differences of the worked tile, and the state when it
    is built *)
Definition demo_diffs : table :=
  Eval vm_compute in
    match (astdiff_table (Eco := demo_eco) demo_self FitsRec demo_survey demo_gaia
             demo_world).1 with
    | Ok d => d
    | Raise _ => []
    end.

Definition demo_diffs_world : world :=
  (astdiff_table (Eco := demo_eco) demo_self FitsRec demo_survey demo_gaia demo_world).2.

(** [os.makedirs] on the cache directory of astroquery, in the work
    directory of the worked tile: the four directories are made, the
    parents first. *)
Example demo_makedirs :
  let r := os_makedirs "/w/.astropy/cache/astroquery/Vizier/" demo_world in
  r.1 = Ok tt /\
  dirs r.2 = {[ "/w/.astropy/cache/astroquery/Vizier" ]}
             ∪ ({[ "/w/.astropy/cache/astroquery" ]}
                ∪ ({[ "/w/.astropy/cache" ]}
                   ∪ ({[ "/w/.astropy" ]} ∪ dirs demo_world))) /\
  os_makedirs "/w/T1/cache" demo_world = (Raise (NotADirectoryError "/w/T1/cache"), demo_world) /\
  os_mkdir "/nowhere/results/" demo_world
  = (Raise (FileNotFoundError "/nowhere/results/"), demo_world).
Proof. by vm_compute. Qed.

(** The pair of the worked tile that passes the filters and the trim *)
Definition demo_pair : matched_pair := MatchedPair 10.0 20.0 10.001 20.0005 2.

Lemma written_differences_witness :
  files demo_done !! "/w/results/T1_mar-gaiaDR3_diff.csv"
  = Some (Csv (pairs_table (Eco := demo_eco) [demo_pair])) /\
  exists k,
    written_row (pairs_table (Eco := demo_eco) [demo_pair]) k 10.0 20.0 10.001 20.0005
      (3600 * (10.0 - 10.001) * cos_poly 20.0005)%float
      (3600 * (20.0 - 20.0005))%float.
Proof.
  destruct (written_differences (Eco := demo_eco) demo_self demo_footprint
              ["T1"; "T2"] "/w" "355" "" "" "/w/results/" "T1" demo_world demo_done)
    as [(g & scat & idx & d2d & d & w1 & w2 & Hg & Hs & Hm & Hf & Hrows) _].
  - done.
  - by vm_compute.
  - by vm_compute.
  - vm_compute in Hg. injection Hg as <- <-.
    vm_compute in Hs. injection Hs as <- <-.
    vm_compute in Hm. injection Hm as <- <-.
    destruct Hrows as (Hd & Hall & _); [by repeat constructor | done |].
    assert (trimmed (filtered_pairs demo_self demo_survey demo_gaia
                       [0; 1; 2] demo_d2d) = [demo_pair]) as Hp by (by vm_compute).
    change (d = pairs_table (Eco := demo_eco)
                  (trimmed (filtered_pairs demo_self demo_survey
                              demo_gaia [0; 1; 2] demo_d2d))) in Hd.
    rewrite Hp in Hd. subst d. split; [exact Hf|].
    destruct (Hall demo_pair) as [k Hk].
    + change (demo_pair ∈ trimmed (filtered_pairs demo_self
                                     demo_survey demo_gaia [0; 1; 2] demo_d2d)).
      rewrite Hp. by left.
    + exists k. exact Hk.
Defined.

Lemma existing_result_is_skipped_witness :
  let r := demo_run demo_self demo_done in
  r.1 = Ok tt /\ files r.2 = files demo_done /\ dirs r.2 = dirs demo_done /\
  exists msg, trace r.2 = (trace demo_done ++ [Log INFO msg])%list.
Proof.
  destruct (existing_result_is_skipped (Eco := demo_eco) demo_self demo_footprint
              ["T1"; "T2"] "/w" "355" "" "" "/w/results/" "T1" demo_done)
    as (H1 & H2 & H3 & H4 & _).
  - vm_compute. by eexists.
  - by repeat split.
Defined.

Lemma result_path_ignores_release_witness :
  path_to_results_of (results_dir_of "/w") "T1" = "/w/results/T1_mar-gaiaDR3_diff.csv" /\
  astdiff_tile (Eco := demo_eco) demo_self_txt demo_footprint ["T1"; "T2"]
    "/w" "345" "" "" (results_dir_of "/w") "T1" demo_done
  = (Ok tt, emit (Log INFO "Catalogue for tile T1 already exists. Skipping") demo_done).
Proof.
  destruct (result_path_ignores_release (Eco := demo_eco) demo_self demo_footprint
              ["T1"; "T2"] "/w" "355" "" "" "T1" demo_world demo_done)
    as (Hp & _ & Hskip).
  - done.
  - done.
  - done.
  - done.
  - by vm_compute.
  - split; [exact Hp|]. apply Hskip.
Defined.

Lemma quality_selection_rows_witness :
  exists sample w',
    quality_sample demo_self demo_survey demo_world = (Ok sample, w') /\
    length sample = 3 /\
    sample !! 0 = Some true.
Proof.
  destruct (quality_selection_rows demo_self demo_survey 3 demo_world)
    as [(sample & w' & Hrun & Hlen & Hrows) _].
  - by repeat constructor.
  - repeat split; try (by intros c [=]). by vm_compute; eexists.
  - exists sample, w'. split; [exact Hrun|]. split; [exact Hlen|].
    rewrite (Hrows 0) by lia. by vm_compute.
Defined.

Lemma outlier_trim_rows_witness :
  demo_diffs = pairs_table (Eco := demo_eco) [demo_pair] /\
  trim_limit (filtered_pairs demo_self demo_survey demo_gaia
                [0; 1; 2] demo_d2d) = 3.9%float.
Proof.
  destruct (outlier_trim_rows (Eco := demo_eco) demo_self FitsRec demo_survey
              demo_gaia [0; 1; 2] demo_d2d demo_diffs demo_world demo_diffs_world)
    as [(_ & Hd & _) _].
  - by repeat constructor.
  - done.
  - by vm_compute.
  - by vm_compute.
  - split; [|by vm_compute]. etrans; [exact Hd|]. by vm_compute.
Defined.

(** C6, as the specification states it: with the file type '.txt' the
    TypeError is raised, but the cache file of the reference catalogue
    was opened and read before. *)
Lemma unsupported_filetype_reads_first :
  (demo_run demo_self_txt demo_world).1
  = Raise (TypeError "Filetype for input catalogue not supported") /\
  trace (demo_run demo_self_txt demo_world).2
  = [Log INFO "Reading gaia cat from database";
     OpenFile "/w/gaia_355/T1.csv";
     Log ERROR "Filetype for input catalogue not supported. Use FITS or CSV"] /\
  ~ (forall p, OpenFile p ∉ trace (demo_run demo_self_txt demo_world).2).
Proof.
  split; [by vm_compute|]. split; [by vm_compute|].
  intros H. apply (H "/w/gaia_355/T1.csv").
  apply list_elem_of_In. vm_compute. tauto.
Qed.

Lemma unsupported_filetype_raises_witness :
  demo_run demo_self_txt demo_world
  = (Raise (TypeError "Filetype for input catalogue not supported"),
     emit (Log ERROR "Filetype for input catalogue not supported. Use FITS or CSV")
       (emit (OpenFile "/w/gaia_355/T1.csv")
          (emit (Log INFO "Reading gaia cat from database") demo_world))).
Proof.
  apply (unsupported_filetype_raises (Eco := demo_eco) demo_self_txt demo_footprint
           ["T1"; "T2"] "/w" "355" "" "" "/w/results/" "T1" demo_gaia demo_world).
  - done.
  - done.
  - done.
  - by vm_compute.
  - by vm_compute.
Defined.

Lemma far_entries_are_excluded_witness :
  exists separation,
    sky_match (Eco := demo_eco) demo_self demo_survey demo_gaia demo_world
    = (Ok ([0; 1; 2], separation), demo_world) /\
    separation !! 2 = Some false /\
    vand separation [true; true; true] !! 2 <> Some true.
Proof.
  destruct (far_entries_are_excluded (Eco := demo_eco) demo_self demo_survey demo_gaia
              [10.0; 10.5; 11.0]%float [20.0; 20.5; 21.0]%float
              [10.001; 10.5001; 11.01]%float [20.0005; 20.5001; 21.0]%float
              [0; 1; 2] demo_d2d demo_world)
    as (separation & Hrun & Hrows); try (by vm_compute).
  exists separation. split; [exact Hrun|].
  assert (demo_d2d !! 2 = Some (default nan (demo_d2d !! 2))) as Hd
    by (by vm_compute).
  destruct (Hrows [true; true; true] 2 _ Hd) as [Hfar _].
  apply Hfar. by vm_compute.
Defined.

(** C8, as the specification states it: a flags column that is configured
    and missing from the survey catalogue ends the tile by a KeyError,
    and no warning is logged for it. *)
Lemma missing_flags_column_is_fatal :
  flags_stage demo_self_flag demo_survey [true; true; true] demo_world
  = (Raise (KeyError "FLAG"), demo_world) /\
  (demo_run demo_self_flag demo_world).1 = Raise (KeyError "FLAG") /\
  trace (demo_run demo_self_flag demo_world).2
  = [Log INFO "Reading gaia cat from database";
     OpenFile "/w/gaia_355/T1.csv"; OpenFile "/w/T1"] /\
  files (demo_run demo_self_flag demo_world).2 = files demo_world.
Proof. by vm_compute. Qed.

(** The class-star column configured and missing: the line of the
    [finally] clause is logged and the KeyError ends the tile all the
    same. *)
Example missing_clstar_column :
  (demo_run demo_self_clstar demo_world).1 = Raise (KeyError "CLASS_STAR") /\
  trace (demo_run demo_self_clstar demo_world).2
  = [Log INFO "Reading gaia cat from database";
     OpenFile "/w/gaia_355/T1.csv"; OpenFile "/w/T1";
     Log WARNING "FLAGS column not available. Skipping using flags to object selection";
     Log WARNING "Column for CLASS_STAR not found. Ignoring"].
Proof. by vm_compute. Qed.

Lemma unconfigured_filter_is_skipped_witness :
  flags_stage demo_self demo_survey [true; true; true] demo_world
  = (Ok [true; true; true],
     emit (Log WARNING "FLAGS column not available. Skipping using flags to object selection")
       demo_world).
Proof.
  by destruct (unconfigured_filter_is_skipped Flags demo_self demo_survey
                 [true; true; true] demo_world eq_refl) as [H _].
Defined.

(** * Further properties of the script *)

(** ** The fetch of the reference catalogue *)

Section FetchFacts.
Context `{Eco : Ecosystem}.



(** X2. With the cache directory in place and Vizier answering with a
    table that has the two coordinate columns, [get_gaia] sends its query
    and ends by the NameError of line 181: the catalogue it fetched is not
    saved, the path of the save holds what it held. *)
Theorem get_gaia_loses_the_catalogue self tile_coords tilename workdir_arg
    gaia_dr_arg angle_arg t ts ra de w :
  is_dir w (vizier_cache_path (default (workdir self) workdir_arg)) = true ->
  (query_region ("I/" ++ default (gaia_dr self) gaia_dr_arg)
     tile_coords.1 tile_coords.2 (default (angle self) angle_arg)
     (vizier_cache_path (default (workdir self) workdir_arg))
     (files w) (dirs w)).1.1 = Ok (t :: ts) ->
  col_lookup t "RAJ2000" = Some ra -> col_lookup t "DEJ2000" = Some de ->
  let r := get_gaia self tile_coords tilename workdir_arg gaia_dr_arg angle_arg w in
  r.1 = Raise (NameError "logger") /\
  files r.2 !! get_gaia_cat_path (default (workdir self) workdir_arg)
                 (default (gaia_dr self) gaia_dr_arg) tilename
  = files w !! get_gaia_cat_path (default (workdir self) workdir_arg)
                 (default (gaia_dr self) gaia_dr_arg) tilename /\
  trace r.2
  = (trace w ++ [Log INFO "Querying gaia/vizier";
                 Query ("I/" ++ default (gaia_dr self) gaia_dr_arg)
                       tile_coords.1 tile_coords.2
                       (default (angle self) angle_arg)])%list.
Proof.
  intros Hd Hq Hra Hde.
  set (w1 := emit (Log INFO "Querying gaia/vizier") w).
  set (w2 := (vizier_query ("I/" ++ default (gaia_dr self) gaia_dr_arg) tile_coords
                (default (angle self) angle_arg)
                (vizier_cache_path (default (workdir self) workdir_arg)) w1).2).
  assert (vizier_query ("I/" ++ default (gaia_dr self) gaia_dr_arg) tile_coords
            (default (angle self) angle_arg)
            (vizier_cache_path (default (workdir self) workdir_arg)) w1
          = (Ok (t :: ts), w2)) as Hv.
  { unfold w2, vizier_query. simpl. by rewrite Hq. }
  destruct (after_query_raises self (default (workdir self) workdir_arg)
              (default (gaia_dr self) gaia_dr_arg) tilename (t :: ts) w2)
    as (e & Ha & He).
  assert (get_gaia self tile_coords tilename workdir_arg gaia_dr_arg angle_arg w
          = (Raise (NameError "logger"), w2)) as Hrun.
  { rewrite get_gaia_steps, (bind_ok _ _ _ _ _ (before_query_dir _ _ Hd)).
    fold w1. rewrite (bind_ok _ _ _ _ _ Hv), Ha. do 2 f_equal. by eapply He. }
  simpl. rewrite Hrun. simpl. split; [done|]. split.
  - destruct (get_gaia_raises self tile_coords tilename workdir_arg gaia_dr_arg
                angle_arg w) as (e0 & w0 & Hrun0 & Hfiles).
    rewrite Hrun in Hrun0. injection Hrun0 as _ <-.
    apply Hfiles, csv_is_no_pickle.
    unfold get_gaia_cat_path. rewrite <- !string_app_assoc.
    by rewrite last_char_suffix.
  - unfold w2, vizier_query. simpl. by rewrite <- app_assoc.
Qed.

(** The centre of a tile as lines 251-254 read it: the first row of the
    footprint whose name is the tile *)
Definition tile_centre (footprint : footprint_table) (field_names : list string)
    (tile : string) : option (float * float) :=
  match col_lookup (fp_cols footprint) "RA", col_lookup (fp_cols footprint) "DEC" with
  | Some ra, Some dec =>
      match mask_select (map (fun n => bool_decide (n = tile)) field_names) ra,
            mask_select (map (fun n => bool_decide (n = tile)) field_names) dec with
      | sra0 :: _, sdec0 :: _ => Some (sra0, sdec0)
      | _, _ => None
      end
  | _, _ => None
  end.

Lemma load_gaia_centre self footprint field_names workdir gaia_dr tile c w :
  tile_centre footprint field_names tile = Some c ->
  load_gaia self footprint field_names workdir gaia_dr tile w
  = (b <- os_path_isfile (astdiff_gaia_cat_path workdir gaia_dr tile);;
     if b then
       logger INFO "Reading gaia cat from database";;;
       read_csv (astdiff_gaia_cat_path workdir gaia_dr tile)
     else get_gaia self c tile None None (Some get_gaia_angle_default)) w.
Proof.
  unfold tile_centre, load_gaia. intros H.
  destruct (col_lookup (fp_cols footprint) "RA") as [ra|] eqn:Hra; [|done].
  destruct (col_lookup (fp_cols footprint) "DEC") as [dec|] eqn:Hdec; [|done].
  rewrite (bind_ok _ _ _ _ _ (getitem_some _ _ _ _ Hra)).
  rewrite (bind_ok _ _ _ _ _ (getitem_some _ _ _ _ Hdec)).
  destruct (mask_select _ ra) as [|sra0 ?]; [done|].
  destruct (mask_select _ dec) as [|sdec0 ?]; [done|].
  by injection H as <-.
Qed.


End FetchFacts.

(** ** Tiles and the footprint *)

Fixpoint has_underscore (s : string) : bool :=
  match s with
  | EmptyString => false
  | String c s' => bool_decide (c = "_"%char) || has_underscore s'
  end.

Lemma replace_underscore_clean s : has_underscore (replace_underscore s) = false.
Proof.
  induction s as [|c s IH]; [done|]. simpl. rewrite IH, orb_false_r.
  apply bool_decide_eq_false_2. by case_bool_decide.
Qed.

Lemma replace_underscore_id s : has_underscore s = false -> replace_underscore s = s.
Proof.
  induction s as [|c s IH]; [done|]. simpl.
  intros [Hc Hs]%orb_false_elim. by rewrite Hc, IH.
Qed.

Lemma replace_underscore_length s :
  String.length (replace_underscore s) = String.length s.
Proof. induction s as [|c s IH]; simpl; [done | by rewrite IH]. Qed.

(** X4. [get_fields_names] returns one name for each row of the footprint,
    in order and of the same length as the name of the row; no name it
    returns has an underscore, and a name without underscore is returned
    as it is. *)
Theorem fields_names_have_no_underscore footprint :
  length (get_fields_names footprint) = length (fp_NAME footprint) /\
  forall i n, fp_NAME footprint !! i = Some n ->
    exists n', get_fields_names footprint !! i = Some n' /\
               has_underscore n' = false /\
               String.length n' = String.length n /\
               (has_underscore n = false -> n' = n).
Proof.
  unfold get_fields_names. split; [by rewrite length_map|].
  intros i n Hn. exists (replace_underscore n). rewrite lookup_map, Hn.
  split; [done|]. split; [apply replace_underscore_clean|].
  split; [apply replace_underscore_length | apply replace_underscore_id].
Qed.

Lemma mask_select_no_match {A} (names : list string) (tile : string) (l : list A) :
  tile ∉ names ->
  mask_select (map (fun n => bool_decide (n = tile)) names) l = [].
Proof.
  revert l. induction names as [|n names IH]; intros l Hn; [done|].
  apply not_elem_of_cons in Hn as [Hne Hn]. simpl.
  rewrite bool_decide_eq_false_2 by done. destruct l; [done|]. by apply IH.
Qed.

Lemma underscore_not_in_fields_names footprint tile :
  has_underscore tile = true -> tile ∉ get_fields_names footprint.
Proof.
  intros Ht Hin. unfold get_fields_names in Hin.
  apply list_elem_of_In, in_map_iff in Hin as (n & <- & _).
  by rewrite replace_underscore_clean in Ht.
Qed.

Section FootprintFacts.
Context `{Eco : Ecosystem}.

Lemma astdiff_tile_no_match self footprint field_names workdir gaia_dr pre suf
    results_dir tile w :
  tile <> "fakename" ->
  files w !! path_to_results_of results_dir tile = None ->
  is_Some (col_lookup (fp_cols footprint) "RA") ->
  is_Some (col_lookup (fp_cols footprint) "DEC") ->
  tile ∉ field_names ->
  astdiff_tile self footprint field_names workdir gaia_dr pre suf results_dir tile w
  = (Raise IndexError, w).
Proof.
  intros Hne Hnone [ra Hra] [dec Hdec] Hnot. unfold astdiff_tile.
  rewrite bool_decide_eq_false_2 by done.
  rewrite (bind_ok _ _ _ _ _ (isfile_false _ _ Hnone)).
  apply bind_raise. unfold load_gaia.
  rewrite (bind_ok _ _ _ _ _ (getitem_some _ _ _ _ Hra)).
  rewrite (bind_ok _ _ _ _ _ (getitem_some _ _ _ _ Hdec)).
  by rewrite !mask_select_no_match by done.
Qed.

(** X5. A tile that is still to be done and that no row of the footprint
    names ends by an IndexError, with nothing logged, opened, queried or
    written. *)
Theorem tile_outside_footprint_raises self footprint field_names workdir gaia_dr
    pre suf results_dir tile w :
  tile <> "fakename" ->
  files w !! path_to_results_of results_dir tile = None ->
  is_Some (col_lookup (fp_cols footprint) "RA") ->
  is_Some (col_lookup (fp_cols footprint) "DEC") ->
  tile ∉ field_names ->
  astdiff_tile self footprint field_names workdir gaia_dr pre suf results_dir tile w
  = (Raise IndexError, w) /\
  tile_centre footprint field_names tile = None.
Proof.
  intros Hne Hnone Hra Hdec Hnot. split; [by apply astdiff_tile_no_match|].
  unfold tile_centre. destruct Hra as [ra ->], Hdec as [dec ->].
  by rewrite !mask_select_no_match by done.
Qed.

(** X6. The names of [get_fields_names] carry hyphens where the footprint
    has underscores, and a tile is compared with them as it is written in
    the list of tiles: a tile written with an underscore matches no row
    and ends by an IndexError. *)
Theorem underscore_tile_never_matches self footprint workdir gaia_dr pre suf
    results_dir tile w :
  has_underscore tile = true ->
  files w !! path_to_results_of results_dir tile = None ->
  is_Some (col_lookup (fp_cols footprint) "RA") ->
  is_Some (col_lookup (fp_cols footprint) "DEC") ->
  (tile ∉ get_fields_names footprint) /\
  astdiff_tile self footprint (get_fields_names footprint) workdir gaia_dr pre suf
    results_dir tile w
  = (Raise IndexError, w).
Proof.
  intros Ht Hnone Hra Hdec.
  pose proof (underscore_not_in_fields_names footprint tile Ht) as Hnot.
  split; [done|]. apply astdiff_tile_no_match; try done.
  by intros ->.
Qed.

(** The settings the loop over the tiles reads *)
Definition same_differencer_settings (a b : SplusGaiaAst) : Prop :=
  workdir a = workdir b /\ gaia_dr a = gaia_dr b /\ cathdu a = cathdu b /\
  racolumn a = racolumn b /\ decolumn a = decolumn b /\
  mag_column a = mag_column b /\ flags_column a = flags_column b /\
  clstar_column a = clstar_column b /\ fwhm_column a = fwhm_column b /\
  sn_column a = sn_column b /\ filetype a = filetype b /\
  sn_limit a = sn_limit b /\ verbose a = verbose b.

(** X7. The loop over the tiles reads none of [--tiles], [--datadir],
    [--angle], [--output], [--savefig], [--bins], [--limit], [--debug] (nor
    the prefix and suffix of the object, which it gets as arguments): two
    objects that agree on the other settings process every tile alike, in
    every state. *)
Theorem differencer_ignores_other_settings (a b : SplusGaiaAst) footprint
    field_names workdir gaia_dr pre suf results_dir tile w :
  same_differencer_settings a b ->
  astdiff_tile a footprint field_names workdir gaia_dr pre suf results_dir tile w
  = astdiff_tile b footprint field_names workdir gaia_dr pre suf results_dir tile w.
Proof.
  destruct a, b. unfold same_differencer_settings. simpl.
  intros (-> & -> & -> & -> & -> & -> & -> & -> & -> & -> & -> & -> & ->).
  reflexivity.
Qed.

End FootprintFacts.

(** ** What a run adds to the trace *)

(** Code whose every new event satisfies [P] *)
Definition adds_only (P : event -> bool) {A} (m : M A) : Prop :=
  forall w, exists evs, trace (m w).2 = (trace w ++ evs)%list /\
                        forallb P evs = true.

Lemma adds_silent P {A} (m : M A) :
  (forall w, trace (m w).2 = trace w) -> adds_only P m.
Proof. intros H w. exists []. by rewrite H, app_nil_r. Qed.

Lemma adds_emit P {A} (m : M A) e :
  P e = true -> (forall w, (m w).2 = emit e w) -> adds_only P m.
Proof. intros He H w. exists [e]. rewrite H. simpl. by rewrite He. Qed.

Lemma adds_bind P {A B} (m : M A) (k : A -> M B) :
  adds_only P m -> (forall a, adds_only P (k a)) -> adds_only P (bind m k).
Proof.
  intros Hm Hk w. unfold bind. destruct (Hm w) as (evs & Ht & Hf).
  destruct (m w) as [[a|e] w1]; simpl in *; [|by exists evs].
  destruct (Hk a w1) as (evs' & Ht' & Hf'). exists (evs ++ evs')%list.
  by rewrite Ht', Ht, app_assoc, forallb_app, Hf, Hf'.
Qed.

Lemma adds_try_finally P {A} (body : M A) cleanup :
  adds_only P body -> adds_only P cleanup -> adds_only P (try_finally body cleanup).
Proof.
  intros Hb Hc w. unfold try_finally. destruct (Hb w) as (evs & Ht & Hf).
  destruct (body w) as [[a|e] w1]; simpl in *;
    destruct (Hc w1) as (evs' & Ht' & Hf');
    destruct (cleanup w1) as [[[]|e'] w2]; simpl in *;
    exists (evs ++ evs')%list;
    by rewrite Ht', Ht, app_assoc, forallb_app, Hf, Hf'.
Qed.

Lemma adds_try_except P {A} (body handler : M A) :
  adds_only P body -> adds_only P handler ->
  adds_only P (try_except_TypeError body handler).
Proof.
  intros Hb Hh w. unfold try_except_TypeError. destruct (Hb w) as (evs & Ht & Hf).
  destruct (body w) as [[a|[]] w1]; simpl in *; try (by exists evs).
  destruct (Hh w1) as (evs' & Ht' & Hf'). exists (evs ++ evs')%list.
  by rewrite Ht', Ht, app_assoc, forallb_app, Hf, Hf'.
Qed.

(** The events of the differencer when it finds its inputs: log lines,
    prints, files opened and written, no query and no worker *)
Definition local_event (e : event) : bool :=
  match e with
  | Log _ _ | Print _ | OpenFile _ | WriteFile _ => true
  | Query _ _ _ _ | ProcStart _ | Sleep => false
  end.

Lemma local_ret {A} (a : A) : adds_only local_event (ret a).
Proof. by apply adds_silent. Qed.
Lemma local_raise {A} e : adds_only local_event (raise (A := A) e).
Proof. by apply adds_silent. Qed.
Lemma local_lift_result {A} (r : result A) : adds_only local_event (lift_result r).
Proof. by apply adds_silent. Qed.
Lemma local_logger lvl msg : adds_only local_event (logger lvl msg).
Proof. by apply (adds_emit _ _ (Log lvl msg)). Qed.
Lemma local_print msg : adds_only local_event (print msg).
Proof. by apply (adds_emit _ _ (Print msg)). Qed.
Lemma local_isfile p : adds_only local_event (os_path_isfile p).
Proof. by apply adds_silent. Qed.
Lemma local_exists p : adds_only local_event (os_path_exists p).
Proof. by apply adds_silent. Qed.
Lemma local_getitem t name : adds_only local_event (getitem t name).
Proof. apply adds_silent. intros w. unfold getitem. by destruct (col_lookup t name). Qed.
Lemma local_table_take idx t : adds_only local_event (table_take idx t).
Proof. apply adds_silent. intros w. unfold table_take. by destruct (mapM _ t). Qed.
Lemma local_open_file p : adds_only local_event (open_file p).
Proof.
  apply (adds_emit _ _ (OpenFile p)); [done|].
  intros w. unfold open_file. by destruct (files w !! p).
Qed.
Lemma local_read_csv p : adds_only local_event (read_csv p).
Proof.
  apply adds_bind; [apply local_open_file|]. intros []; by apply adds_silent.
Qed.
Lemma local_fits_open_data p hdu : adds_only local_event (fits_open_data p hdu).
Proof.
  apply adds_bind; [apply local_open_file|].
  intros [t|hdus|l|b]; apply adds_silent; try done. intros w. by destruct (hdus !! hdu).
Qed.
Lemma local_np_percentile a q : adds_only local_event (np_percentile a q).
Proof. apply adds_silent. intros w. by destruct a. Qed.
Lemma local_table_getitem kind m t : adds_only local_event (table_getitem kind m t).
Proof. apply adds_silent. intros w. by destruct kind. Qed.

Create HintDb local.

#[local] Hint Resolve local_ret local_raise local_lift_result local_logger
  local_print local_isfile local_exists local_getitem local_table_take
  local_open_file local_read_csv local_fits_open_data local_np_percentile
  local_table_getitem : local.

Ltac local_events :=
  repeat first
    [ solve [auto with local]
    | apply adds_bind; [|intros]
    | apply adds_try_finally
    | apply adds_try_except ].

Section TraceFacts.
Context `{Eco : Ecosystem}.

Lemma local_quality_sample self scat : adds_only local_event (quality_sample self scat).
Proof.
  unfold quality_sample, mag_stage, flags_stage, clstar_stage, fwhm_stage, sn_stage.
  local_events.
  - destruct (flags_column self); local_events.
  - destruct (clstar_column self); local_events.
  - destruct (fwhm_column self); local_events.
  - destruct (sn_column self); local_events.
Qed.

#[local] Hint Resolve local_quality_sample : local.

Lemma local_astdiff_table self kind scat gaia_data :
  adds_only local_event (astdiff_table self kind scat gaia_data).
Proof.
  unfold astdiff_table, sky_match, abspm_of, outlier_limit, differences.
  local_events.
Qed.

Lemma local_astdiff_survey self scat gaia_data :
  adds_only local_event (astdiff_survey self scat gaia_data).
Proof. destruct scat; [apply local_astdiff_table | by apply adds_silent]. Qed.

(** The files after the reference catalogue is asked for: those of
    before, or, for a tile of the footprint without a cache file, those of
    before and the response that astroquery kept for the fetch. *)
Lemma load_gaia_files self footprint field_names dir release tile w :
  files (load_gaia self footprint field_names dir release tile w).2 = files w \/
  exists c f,
    tile_centre footprint field_names tile = Some c /\
    files w !! astdiff_gaia_cat_path dir release tile = None /\
    (exists e, (load_gaia self footprint field_names dir release tile w).1 = Raise e) /\
    files (load_gaia self footprint field_names dir release tile w).2
    = <[request_file (vizier_cache_path (workdir self)) ("I/" ++ gaia_dr self) c
          get_gaia_angle_default := f]> (files w).
Proof.
  destruct (tile_centre footprint field_names tile) as [c|] eqn:Hc.
  - rewrite (load_gaia_centre _ _ _ _ _ _ _ _ Hc).
    destruct (files w !! astdiff_gaia_cat_path dir release tile) as [g|] eqn:Hg.
    + left. rewrite (bind_ok _ _ _ _ _ (isfile_true _ _ (mk_is_Some _ _ Hg))).
      assert (keeps_files
                (logger INFO "Reading gaia cat from database";;;
                 read_csv (astdiff_gaia_cat_path dir release tile))) as K by keeps.
      apply K.
    + rewrite (bind_ok _ _ _ _ _ (isfile_false _ _ Hg)).
      destruct (get_gaia_outcome self c tile None None (Some get_gaia_angle_default) w)
        as (e & w' & -> & [Hf|[f Hf]] & _); [by left|].
      right. exists c, f. simpl. eauto.
  - left. unfold tile_centre in Hc. unfold load_gaia, bind, getitem.
    destruct (col_lookup (fp_cols footprint) "RA") as [ra|]; [|done].
    destruct (col_lookup (fp_cols footprint) "DEC") as [dec|]; [|done]. simpl.
    destruct (mask_select _ ra) as [|sra0 ?]; [done|].
    destruct (mask_select _ dec) as [|sdec0 ?]; [done|]. done.
Qed.

Lemma local_load_survey self workdir pre suf tile :
  adds_only local_event (load_survey self workdir pre suf tile).
Proof. unfold load_survey. repeat case_bool_decide; local_events. Qed.

(** X8. A tile leaves the files as they were, or adds one file.  The
    filler name and a tile whose result exists change no file; a tile that
    is processed writes the one file of its result, where there was none;
    a tile that ends by an exception changes no file, unless it is a tile
    of the footprint without a cache file: its fetch may leave the
    response of Vizier in the file astroquery keeps for the request, under
    the work directory of the object, and nothing else. *)
Theorem tile_writes_its_result_or_nothing self footprint field_names dir release
    pre suf results_dir tile w :
  let r := astdiff_tile self footprint field_names dir release pre suf
             results_dir tile w in
  match r.1 with
  | Raise _ =>
      files r.2 = files w \/
      exists c f,
        tile_centre footprint field_names tile = Some c /\
        files w !! astdiff_gaia_cat_path dir release tile = None /\
        files r.2
        = <[request_file (vizier_cache_path (workdir self)) ("I/" ++ gaia_dr self) c
              1.0%float := f]> (files w)
  | Ok _ =>
      if bool_decide (tile = "fakename")
         || bool_decide (is_Some (files w !! path_to_results_of results_dir tile))
      then files r.2 = files w
      else exists d,
          files r.2 = <[path_to_results_of results_dir tile := Csv d]> (files w)
  end.
Proof.
  simpl.
  destruct (astdiff_tile self footprint field_names dir release pre suf
              results_dir tile w) as [r w'] eqn:Hrun.
  simpl. unfold astdiff_tile in Hrun.
  case_bool_decide.
  { injection Hrun as <- <-. done. }
  simpl. unfold bind at 1, os_path_isfile at 1 in Hrun.
  destruct (bool_decide (is_Some (files w !! _))) eqn:Hb.
  { injection Hrun as <- <-. done. }
  pose proof (load_gaia_files self footprint field_names dir release tile w) as K1.
  unfold bind at 1 in Hrun.
  destruct (load_gaia _ _ _ _ _ _ w) as [[g|e] w1]; simpl in K1.
  2: { injection Hrun as <- <-.
       destruct K1 as [K1|(c & f & ? & ? & _ & K1)]; [by left|].
       right. by exists c, f. }
  destruct K1 as [K1|(c & f & _ & _ & [e He] & _)]; [|done].
  pose proof (keeps_load_survey self dir pre suf tile w1) as K2.
  unfold bind at 1 in Hrun.
  destruct (load_survey _ _ _ _ _ w1) as [[s|e] w2]; simpl in K2;
    [|injection Hrun as <- <-; left; by rewrite K2].
  pose proof (keeps_astdiff_survey self s g w2) as K3.
  unfold bind at 1 in Hrun.
  destruct (astdiff_survey _ _ _ w2) as [[d|e] w3]; simpl in K3;
    [|injection Hrun as <- <-; left; by rewrite K3, K2].
  injection Hrun as <- <-. simpl. exists d. by rewrite K3, K2, K1.
Qed.

(** X9. A tile can only be processed from a cache file of the reference
    catalogue that is already there: when a tile that was still to be
    done returns, that file exists, it is the catalogue the tile was
    matched with, and the run made no query and started no worker. *)
Theorem processed_tile_read_its_cache self footprint field_names workdir gaia_dr
    pre suf results_dir tile w w' :
  tile <> "fakename" ->
  files w !! path_to_results_of results_dir tile = None ->
  astdiff_tile self footprint field_names workdir gaia_dr pre suf results_dir tile w
  = (Ok tt, w') ->
  (exists gaia_data w1,
     files w !! astdiff_gaia_cat_path workdir gaia_dr tile = Some (Csv gaia_data) /\
     load_gaia self footprint field_names workdir gaia_dr tile w = (Ok gaia_data, w1)) /\
  exists evs, trace w' = (trace w ++ evs)%list /\ forallb local_event evs = true.
Proof.
  intros Hne Hnone Hrun.
  unfold astdiff_tile in Hrun. rewrite bool_decide_eq_false_2 in Hrun by done.
  rewrite (bind_ok _ _ _ _ _ (isfile_false _ _ Hnone)) in Hrun.
  apply bind_ok_inv in Hrun as (gaia_data & w1 & Hg & Hrun).
  destruct (load_gaia_ok_inv _ _ _ _ _ _ _ _ _ Hg) as [Hcache Hw1].
  split; [by exists gaia_data, w1|].
  apply bind_ok_inv in Hrun as (scat & w2 & Hs & Hrun).
  apply bind_ok_inv in Hrun as (d & w3 & Ht & Hrun).
  destruct (local_load_survey self workdir pre suf tile w1) as (e1 & T1 & F1).
  destruct (local_astdiff_survey self scat gaia_data w2) as (e2 & T2 & F2).
  rewrite Hs in T1. rewrite Ht in T2. simpl in T1, T2.
  unfold bind, logger, print in Hrun. rewrite to_csv_file in Hrun.
  injection Hrun as <-. simpl. rewrite T2, T1, Hw1. simpl.
  exists ([Log INFO "Reading gaia cat from database";
           OpenFile (astdiff_gaia_cat_path workdir gaia_dr tile)] ++ e1 ++ e2 ++
          [Log INFO ("saving results to " ++ path_to_results_of results_dir tile);
           Print ("saving results to " ++ path_to_results_of results_dir tile);
           WriteFile (path_to_results_of results_dir tile)])%list.
  split.
  - by rewrite <- !app_assoc.
  - by rewrite !forallb_app, F1, F2.
Qed.

Lemma for_each_app {A} (l1 l2 : list A) (body : A -> M unit) w :
  for_each (l1 ++ l2) body w = (for_each l1 body;;; for_each l2 body) w.
Proof.
  revert w. induction l1 as [|x l1 IH]; intros w; [done|].
  simpl. unfold bind in *.
  destruct (body x w) as [[[]|e] w1]; [|done]. by rewrite IH.
Qed.

(** X10. There is no fault isolation between tiles: when the tiles before
    [tile] have been gone through and [tile] ends by an exception, the
    whole call ends by that exception in the state [tile] left, whatever
    tiles follow in the list; they are not visited. *)
Theorem first_failing_tile_ends_the_run self done tile rest footprint field_names
    workdir_arg gaia_dr_arg pre_arg suf_arg w w1 e w2 :
  calculate_astdiff self done footprint field_names workdir_arg gaia_dr_arg
    pre_arg suf_arg w = (Ok tt, w1) ->
  astdiff_tile self footprint field_names
    (default (workdir self) workdir_arg) (default (gaia_dr self) gaia_dr_arg)
    (default (cat_name_preffix self) pre_arg) (default (cat_name_suffix self) suf_arg)
    (results_dir_of (default (workdir self) workdir_arg)) tile w1 = (Raise e, w2) ->
  calculate_astdiff self (done ++ tile :: rest) footprint field_names workdir_arg
    gaia_dr_arg pre_arg suf_arg w = (Raise e, w2).
Proof.
  unfold calculate_astdiff. intros Hdone Htile.
  apply bind_ok_inv in Hdone as (b & wa & Hb & Hdone).
  apply bind_ok_inv in Hdone as ([] & wb & Hm & Hdone).
  rewrite (bind_ok _ _ _ _ _ Hb), (bind_ok _ _ _ _ _ Hm).
  rewrite for_each_app, (bind_ok _ _ _ _ _ Hdone). simpl.
  by rewrite (bind_raise _ _ _ _ _ Htile).
Qed.

End TraceFacts.

(** ** Floats that are not numbers *)

Lemma SFcompare_refl s : SFcompare s s = None \/ SFcompare s s = Some Eq.
Proof.
  destruct s as [b|b| |b m e]; simpl; auto; destruct b; auto;
    rewrite Z.compare_refl, Pos.compare_cont_refl; auto.
Qed.

Lemma float_ltb_irrefl x : (x <? x)%float = false.
Proof.
  rewrite FloatAxioms.ltb_spec. unfold SFltb.
  by destruct (SFcompare_refl (Prim2SF x)) as [-> | ->].
Qed.

Lemma is_nan_spec x : is_nan x = true -> Prim2SF x = S754_nan.
Proof.
  unfold is_nan. rewrite FloatAxioms.eqb_spec. unfold SFeqb.
  destruct (Prim2SF x) as [b|b| |b m e] eqn:E; simpl; try done; destruct b; try done;
    by rewrite Z.compare_refl, Pos.compare_cont_refl.
Qed.

(** A comparison with nan is false, on either side. *)
Lemma float_ltb_nan x y :
  is_nan x = true -> (x <? y)%float = false /\ (y <? x)%float = false.
Proof.
  intros H%is_nan_spec. rewrite !FloatAxioms.ltb_spec, H. unfold SFltb.
  split; [done|]. by destruct (Prim2SF y).
Qed.

(** ** The selection, end to end *)

Lemma vand_map_same {A} (f g : A -> bool) (l : list A) :
  vand (map f l) (map g l) = map (fun x => f x && g x) l.
Proof. induction l as [|x l IH]; [done|]. unfold vand in *. simpl. by rewrite IH. Qed.

Section SelectionFacts.
Context `{Eco : Ecosystem}.

(** X11. Under the defaults of the command line no optional filter is
    configured: the quality selection of a catalogue with a MAG_AUTO
    column is the magnitude cut alone, and the four warnings are logged,
    in the order flags, class-star, FWHM, signal-to-noise. *)
Theorem default_selection_is_the_magnitude_cut tiles0 workdir0 scat mag w :
  col_lookup scat "MAG_AUTO" = Some mag ->
  quality_sample (parser_defaults tiles0 workdir0) scat w
  = (Ok (map (fun m => (14 <? m)%float && (m <? 19)%float) mag),
     emit (Log WARNING (skip_warning SignalToNoise))
       (emit (Log WARNING (skip_warning Fwhm))
          (emit (Log WARNING (skip_warning ClassStar))
             (emit (Log WARNING (skip_warning Flags)) w)))).
Proof.
  intros Hmag. unfold quality_sample, mag_stage. simpl.
  unfold bind at 1. unfold bind at 1.
  rewrite (getitem_some _ _ _ _ Hmag).
  unfold bind at 1. rewrite (getitem_some _ _ _ _ Hmag).
  by rewrite vand_map_same.
Qed.

Lemma filter_stage_shrinks f self scat sample w s' w' i :
  filter_stage f self scat sample w = (Ok s', w') ->
  s' !! i = Some true -> sample !! i = Some true.
Proof.
  destruct (filter_column self f) as [c|] eqn:Hc.
  - destruct (col_lookup scat c) as [col|] eqn:Hl.
    + destruct (configured_stage f self scat sample c col w Hc Hl) as [w0 ->].
      intros [= <- _] Hi. by apply vand_true in Hi as [? _].
    + destruct f; simpl in *;
        unfold flags_stage, clstar_stage, fwhm_stage, sn_stage, try_finally;
        rewrite Hc, ?(bind_raise _ _ _ _ _ (getitem_none _ _ _ Hl)); done.
  - rewrite (filter_stage_none f self scat sample w Hc). by intros [= <- _].
Qed.

(** A row the quality selection keeps has a magnitude, strictly between
    14 and 19. *)
Lemma quality_sample_true self scat sample w w' i :
  quality_sample self scat w = (Ok sample, w') ->
  sample !! i = Some true ->
  exists m, cell scat (mag_column self) i = Some m /\
            (14 <? m)%float = true /\ (m <? 19)%float = true.
Proof.
  rewrite quality_sample_stages. intros H Hi.
  apply bind_ok_inv in H as (s0 & w0 & H0 & H).
  apply bind_ok_inv in H as (s1 & w1 & H1 & H).
  apply bind_ok_inv in H as (s2 & w2 & H2 & H).
  apply bind_ok_inv in H as (s3 & w3 & H3 & H).
  pose proof (filter_stage_shrinks _ _ _ _ _ _ _ i H Hi) as Hi3.
  pose proof (filter_stage_shrinks _ _ _ _ _ _ _ i H3 Hi3) as Hi2.
  pose proof (filter_stage_shrinks _ _ _ _ _ _ _ i H2 Hi2) as Hi1.
  pose proof (filter_stage_shrinks _ _ _ _ _ _ _ i H1 Hi1) as Hi0.
  unfold mag_stage in H0.
  apply bind_ok_inv in H0 as (mag & wa & [Hmag ->]%getitem_ok_inv & H0).
  apply bind_ok_inv in H0 as (mag' & wb & [Hmag' ->]%getitem_ok_inv & H0).
  injection H0 as <- _. rewrite Hmag in Hmag'. injection Hmag' as <-.
  apply vand_true in Hi0 as [Ha Hb]. rewrite lookup_map in Ha, Hb.
  unfold cell. rewrite Hmag.
  destruct (mag !! i) as [m|]; [|done]. simpl in *.
  exists m. split; [done|]. split; congruence.
Qed.

Lemma sky_match_ok_inv self scat gaia_data idx separation w w' :
  sky_match self scat gaia_data w = (Ok (idx, separation), w') ->
  exists ra_s dec_s ra_g dec_g d2d,
    col_lookup scat (racolumn self) = Some ra_s /\
    col_lookup scat (decolumn self) = Some dec_s /\
    col_lookup gaia_data "RAJ2000" = Some ra_g /\
    col_lookup gaia_data "DEJ2000" = Some dec_g /\
    match_to_catalog_3d ra_s dec_s ra_g dec_g = Ok (idx, d2d) /\
    separation = map (fun d => (d <? 5.0)%float) d2d.
Proof.
  unfold sky_match. intros H.
  apply bind_ok_inv in H as (ra_s & w1 & [H1 ->]%getitem_ok_inv & H).
  apply bind_ok_inv in H as (dec_s & w2 & [H2 ->]%getitem_ok_inv & H).
  apply bind_ok_inv in H as (ra_g & w3 & [H3 ->]%getitem_ok_inv & H).
  apply bind_ok_inv in H as (dec_g & w4 & [H4 ->]%getitem_ok_inv & H).
  unfold bind, lift_result in H.
  destruct (match_to_catalog_3d ra_s dec_s ra_g dec_g) as [[idx' d2d]|e] eqn:Hm;
    [|done].
  injection H as <- <- _. by exists ra_s, dec_s, ra_g, dec_g, d2d.
Qed.

(** X12. Values that are not numbers never get through: an entry whose
    magnitude is nan is not selected, whatever filters are configured, and
    an entry whose separation is nan is not matched. *)
Theorem nan_is_never_selected self scat gaia_data sample idx separation w w1 w2 i :
  quality_sample self scat w = (Ok sample, w1) ->
  sky_match self scat gaia_data w = (Ok (idx, separation), w2) ->
  (forall m, cell scat (mag_column self) i = Some m -> is_nan m = true ->
     sample !! i <> Some true) /\
  (exists ra_s dec_s ra_g dec_g d2d,
     col_lookup scat (racolumn self) = Some ra_s /\
     col_lookup scat (decolumn self) = Some dec_s /\
     col_lookup gaia_data "RAJ2000" = Some ra_g /\
     col_lookup gaia_data "DEJ2000" = Some dec_g /\
     match_to_catalog_3d ra_s dec_s ra_g dec_g = Ok (idx, d2d) /\
     forall d, d2d !! i = Some d -> is_nan d = true ->
       separation !! i = Some false).
Proof.
  intros Hq Hm. split.
  - intros m Hcell Hnan Hi.
    destruct (quality_sample_true _ _ _ _ _ _ Hq Hi) as (m' & Hcell' & Hlo & _).
    rewrite Hcell in Hcell'. injection Hcell' as <-.
    destruct (float_ltb_nan m 14 Hnan) as [_ Hf]. congruence.
  - destruct (sky_match_ok_inv _ _ _ _ _ _ _ Hm)
      as (ra_s & dec_s & ra_g & dec_g & d2d & ? & ? & ? & ? & Hmatch & ->).
    exists ra_s, dec_s, ra_g, dec_g, d2d. repeat (split; [done|]).
    intros d Hd Hnan. rewrite lookup_map, Hd. simpl.
    by destruct (float_ltb_nan d 5 Hnan) as [-> _].
Qed.

(** X13. Every row of the table of results comes from a survey entry
    whose magnitude is strictly between 14 and 19 and whose nearest
    reference entry is at less than 5 arcsec. *)
Theorem written_rows_are_bright_and_near self kind scat gaia_data d w w' k ra dec raj
    dej radiff dediff :
  astdiff_table self kind scat gaia_data w = (Ok d, w') ->
  written_row d k ra dec raj dej radiff dediff ->
  exists i m ra_s dec_s ra_g dec_g idx d2d sep,
    cell scat (racolumn self) i = Some ra /\
    cell scat (decolumn self) i = Some dec /\
    cell scat (mag_column self) i = Some m /\
    (14 <? m)%float = true /\ (m <? 19)%float = true /\
    col_lookup scat (racolumn self) = Some ra_s /\
    col_lookup scat (decolumn self) = Some dec_s /\
    col_lookup gaia_data "RAJ2000" = Some ra_g /\
    col_lookup gaia_data "DEJ2000" = Some dec_g /\
    match_to_catalog_3d ra_s dec_s ra_g dec_g = Ok (idx, d2d) /\
    d2d !! i = Some sep /\ (sep <? 5)%float = true.
Proof.
  intros Hrun Hrow.
  destruct (astdiff_table_rows _ _ _ _ _ _ _ Hrun)
    as (idx & separation & sample & w1 & w2 & Hm & Hq & Hrows).
  destruct (Hrows _ _ _ _ _ _ _ Hrow)
    as (_ & _ & i & j & Hj & Hsep & Hsam & Hra & Hdec & _ & _).
  destruct (quality_sample_true _ _ _ _ _ _ Hq Hsam) as (m & Hmag & Hlo & Hhi).
  destruct (sky_match_ok_inv _ _ _ _ _ _ _ Hm)
    as (ra_s & dec_s & ra_g & dec_g & d2d & ? & ? & ? & ? & Hmatch & ->).
  rewrite lookup_map in Hsep.
  destruct (d2d !! i) as [sep|] eqn:Hd; [|done]. simpl in Hsep.
  exists i, m, ra_s, dec_s, ra_g, dec_g, idx, d2d, sep.
  repeat split; try done. by injection Hsep.
Qed.

End SelectionFacts.

(** ** The trim and the shape of the table of results *)

Lemma percentile_singleton x q :
  (float_of_nat 0 <=? float_of_nat 0 * (q / 100))%float = true ->
  percentile [x] q = x.
Proof. intros H. unfold percentile. simpl. by rewrite H. Qed.

(** X14. Of a lone pair the trim keeps nothing.  When its proper motion
    is finite, the 95th percentile of the one value is that value, and no
    value is strictly below itself: the mask of line 328 is false and the
    selection is empty.  When it is not finite, no valid value is left and
    the percentile of line 327 raises IndexError. *)
Theorem lone_pair_is_trimmed (x : float) (w : world) :
  outlier_limit [x] w = (if is_finite x then Ok x else Raise IndexError, w) /\
  outlier_mask [x] x = [false] /\
  mask_select (outlier_mask [x] x) [x] = [] /\
  (forall p : matched_pair, trimmed [p] = []).
Proof.
  assert (percentile [x] 95 = x) as Hp by by apply percentile_singleton.
  assert (outlier_mask [x] x = [false]) as Hm.
  { rewrite outlier_mask_rows. simpl.
    by rewrite float_ltb_irrefl, andb_false_r. }
  split; [|split; [done|split; [by rewrite Hm|]]].
  - unfold outlier_limit. rewrite valid_values_are_finite_values.
    unfold finite_values. simpl. destruct (is_finite x); simpl; [|done].
    unfold np_percentile. by rewrite Hp.
  - intros p. unfold trimmed, trim_limit, survives_trim, finite_values. simpl.
    destruct (is_finite (g_pm p)) eqn:Hf; simpl; [|done].
    rewrite percentile_singleton by done.
    by rewrite float_ltb_irrefl.
Qed.

Lemma outlier_mask_true abspm lmt j :
  outlier_mask abspm lmt !! j = Some true ->
  exists x, abspm !! j = Some x /\ is_finite x = true /\ (x <? lmt)%float = true.
Proof.
  rewrite outlier_mask_rows, lookup_map.
  destruct (abspm !! j) as [x|]; [|done]. simpl.
  intros [= [H1 H2]%andb_true_iff]. by exists x.
Qed.

Lemma length_mask_select {A B} (m : list bool) (l : list A) (l' : list B) :
  length l = length l' -> length (mask_select m l) = length (mask_select m l').
Proof.
  revert l l'. induction m as [|b m IH]; intros [|x l] [|y l'] H; simpl in *;
    try done.
  destruct b; simpl; auto.
Qed.

Section ShapeFacts.
Context `{Eco : Ecosystem}.

(** X15. No proper motion that is not a number, or is infinite, is ever
    written: every value of the column abspm of a table of results is
    one of the sums |pmRA| + |pmDE| of the selected pairs of the run (line
    324), is finite, and is strictly below the 95th percentile of the
    finite ones among these sums. *)
Theorem written_abspm_is_finite self kind scat gaia_data d w w' k x :
  astdiff_table self kind scat gaia_data w = (Ok d, w') ->
  cell d "abspm" k = Some x ->
  is_finite x = true /\
  exists idx separation sample gaia_idx abspm j w1 w2,
    sky_match self scat gaia_data w = (Ok (idx, separation), w1) /\
    quality_sample self scat w1 = (Ok sample, w2) /\
    table_take idx gaia_data w2 = (Ok gaia_idx, w2) /\
    abspm_of (table_mask (vand separation sample) gaia_idx) w2 = (Ok abspm, w2) /\
    abspm !! j = Some x /\
    (x <? percentile (finite_values abspm) 95)%float = true.
Proof.
  intros Hrun Hx.
  destruct (astdiff_table_inv _ _ _ _ _ _ _ Hrun)
    as (idx & sep & sam & gi & abspm & lmt & w1 & w2 &
        _ & Hm & Hq & Ht & Ha & _ & -> & Hd).
  apply differences_ok_inv in Hd as (? & ? & ? & ? & _ & _ & _ & _ & ->).
  unfold cell in Hx. simpl in Hx.
  apply mask_select_cell in Hx as (j & Hj & Hx).
  apply sel_index_true, outlier_mask_true in Hj as (x' & Hx' & Hfin & Hlt).
  rewrite Hx in Hx'. injection Hx' as <-.
  split; [done|]. by exists idx, sep, sam, gi, abspm, j, w1, w2.
Qed.

(** X16. The table of results has the seven columns RA, DEC, RAJ2000,
    DEJ2000, radiff, dediff, abspm, in this order; when the survey table
    is well formed and the sky match returns one row number for each
    survey entry, the seven columns have the same number of rows. *)
Theorem result_table_shape self kind scat gaia_data d n w w' :
  table_wf n scat ->
  (forall idx separation w1,
     sky_match self scat gaia_data w = (Ok (idx, separation), w1) ->
     length idx = n) ->
  astdiff_table self kind scat gaia_data w = (Ok d, w') ->
  map fst d = ["RA"; "DEC"; "RAJ2000"; "DEJ2000"; "radiff"; "dediff"; "abspm"] /\
  exists rows, table_wf rows d.
Proof.
  intros Hwf Hlib Hrun.
  destruct (astdiff_table_inv _ _ _ _ _ _ _ Hrun)
    as (idx & sep & sam & gi & abspm & lmt & w1 & w2 &
        _ & Hm & _ & Ht & Ha & _ & _ & Hd).
  destruct (abspm_of_ok _ _ _ _ Ha) as (pmRA & pmDE & HpR & HpD & Hab & _).
  apply differences_ok_inv in Hd
    as (dec_s & dec_g & ra_s & ra_g & Hds & Hdg & Hrs & Hrg & ->).
  split; [done|].
  pose proof (Hlib _ _ _ Hm) as Hidx.
  set (sel := vand sep sam) in *.
  assert (forall name c, col_lookup (table_mask sel scat) name = Some c ->
            length c = length (mask_select sel idx)) as Hscat.
  { intros name c. rewrite col_lookup_table_mask.
    destruct (col_lookup scat name) as [c0|] eqn:Hc; [|done]. intros [= <-].
    apply length_mask_select. by rewrite (col_lookup_wf _ _ _ _ Hwf Hc). }
  assert (forall name c, col_lookup (table_mask sel gi) name = Some c ->
            length c = length (mask_select sel idx)) as Hgaia.
  { intros name c. rewrite col_lookup_table_mask.
    destruct (col_lookup gi name) as [c0|] eqn:Hc; [|done]. intros [= <-].
    destruct (table_take_col _ _ _ _ _ _ _ Ht Hc) as (c1 & _ & Hc1).
    apply length_mask_select. by apply take_rows_length in Hc1. }
  set (L := length (mask_select sel idx)) in *.
  pose proof (Hscat _ _ Hds) as Lds. pose proof (Hscat _ _ Hrs) as Lrs.
  pose proof (Hgaia _ _ Hdg) as Ldg. pose proof (Hgaia _ _ Hrg) as Lrg.
  pose proof (Hgaia _ _ HpR) as LpR. pose proof (Hgaia _ _ HpD) as LpD.
  assert (length abspm = L) as Lab.
  { rewrite Hab, length_zip_with. lia. }
  set (mask := outlier_mask abspm lmt).
  exists (length (mask_select mask abspm)).
  assert (forall c : column, length c = L ->
            length (mask_select mask c) = length (mask_select mask abspm)) as Hc.
  { intros c Hlen. apply length_mask_select. lia. }
  pose proof (Hc _ Lrs). pose proof (Hc _ Lds).
  pose proof (Hc _ Lrg). pose proof (Hc _ Ldg).
  unfold table_wf.
  repeat (apply List.Forall_cons; [simpl; rewrite ?length_zip_with; lia|]).
  apply List.Forall_nil.
Qed.

End ShapeFacts.

(** ** The main block, as a whole *)

(** Events that change nothing: log lines, prints and reads *)
Definition read_only_event (e : event) : bool :=
  match e with
  | Log _ _ | Print _ | OpenFile _ => true
  | WriteFile _ | Query _ _ _ _ | ProcStart _ | Sleep => false
  end.

Ltac frame_with H :=
  eexists _, _, _;
  split; [reflexivity|]; split; [reflexivity|]; split; [reflexivity|];
  split; [apply H | reflexivity].

Section MainOutcome.
Context `{Eco : Ecosystem}.

Lemma main_frame argv w :
  exists e w' evs,
    main argv w = (Raise e, w') /\ files w' = files w /\ dirs w' = dirs w /\
    trace w' = (trace w ++ evs)%list /\ forallb read_only_event evs = true.
Proof.
  assert (forall w0 : world, trace w0 = (trace w0 ++ [])%list) as Hnil.
  { intros. by rewrite app_nil_r. }
  assert (forall (w0 : world) (a b : event),
            ((trace w0 ++ [a]) ++ [b] = trace w0 ++ [a; b])%list) as H2.
  { intros. by rewrite <- app_assoc. }
  assert (forall (w0 : world) (a b c : event),
            (((trace w0 ++ [a]) ++ [b]) ++ [c] = trace w0 ++ [a; b; c])%list) as H3.
  { intros. by rewrite <- !app_assoc. }
  unfold main, bind, call_logger, parser, ret, raise, lift_result, print.
  destruct (bool_decide (length argv = 1)).
  { frame_with (@eq_refl (list event)). }
  destruct (parse_args argv) as [args|e]; [|frame_with Hnil].
  unfold os_path_exists.
  destruct (_ || _); simpl; [|frame_with Hnil].
  unfold read_fields, bind, open_file.
  destruct (files w !! _) as [[t|hdus|lines|payload]|]; simpl;
    try (frame_with (@eq_refl (list event))).
  destruct (forallb _ lines); simpl; [frame_with (@eq_refl (list event))|].
  unfold lift_result.
  destruct (pd_read_names lines) as [fields|e]; simpl;
    [|frame_with (@eq_refl (list event))].
  unfold get_footprint, open_file; simpl.
  destruct (files w !! os_path_abspath (ns_footprint args)) as [f|]; simpl.
  - unfold lift_result. destruct (ascii_read_footprint f) as [fp|e]; simpl.
    + unfold sys_exit, raise. frame_with H2.
    + frame_with H2.
  - unfold bind, logger, sys_exit, raise; simpl. frame_with H3.
Qed.

(** X17. Whatever the command line and the state, the main block changes
    no file and no directory, sends no query and writes nothing: it ends
    by an exception after log lines, prints and reads only. *)
Theorem main_changes_nothing argv w :
  let r := main argv w in
  (exists e, r.1 = Raise e) /\
  files r.2 = files w /\ dirs r.2 = dirs w /\
  exists evs, trace r.2 = (trace w ++ evs)%list /\
              forallb read_only_event evs = true.
Proof.
  destruct (main_frame argv w) as (e & w' & evs & Hrun & Hf & Hd & Ht & Hev).
  simpl. rewrite Hrun. simpl. eauto 10.
Qed.


End MainOutcome.

(** ** [plot_diffs] (lines 351-478)

    The calls to matplotlib are recorded on a canvas, in order.  The
    exceptions are those of the rest of the script and the AttributeError
    of an attribute that an object does not have. *)

Inductive draw : Type :=
| Call (name : string)
| Scatter (x y c : column)
| ContourPdf (x y : column)
| SetLim (axis : string) (lim : float)
| Axvline (x : float)
| Axhline (y : float)
| Hist (axis : string) (data : column) (label : float)
| SaveFig (path : string)
| Show
| Close.

Inductive plot_exn : Type :=
| Base (e : exn)
| AttributeError (type attr : string).

Inductive presult (A : Type) : Type :=
| POk (a : A)
| PRaise (e : plot_exn).
Arguments POk {A} a.
Arguments PRaise {A} e.

Record plot_state : Type := PlotState {
  pworld : world;
  canvas : list draw
}.

Definition PM (A : Type) : Type := plot_state -> presult A * plot_state.

Definition pret {A} (a : A) : PM A := fun s => (POk a, s).
Definition praise {A} (e : plot_exn) : PM A := fun s => (PRaise e, s).
Definition pbind {A B} (m : PM A) (k : A -> PM B) : PM B :=
  fun s => match m s with
           | (POk a, s') => k a s'
           | (PRaise e, s') => (PRaise e, s')
           end.

Notation "x <~ m ;; k" := (pbind m (fun x => k))
  (at level 100, m at next level, right associativity).
Notation "m ;;~ k" := (pbind m (fun _ => k))
  (at level 100, right associativity).

(** The code of the script proper, run on the world of the plot *)
Definition lift {A} (m : M A) : PM A :=
  fun s => match m (pworld s) with
           | (Ok a, w') => (POk a, PlotState w' (canvas s))
           | (Raise e, w') => (PRaise (Base e), PlotState w' (canvas s))
           end.

Definition plt (d : draw) : PM unit :=
  fun s => (POk tt, PlotState (pworld s) (canvas s ++ [d])).

(** [x.value] for a numpy float: there is no such attribute *)
Definition attr_value (x : float) : PM float :=
  praise (AttributeError "numpy.float64" "value").

(** [datatab.split('.')[0]] *)
Fixpoint before_first_dot (s : string) : string :=
  match s with
  | EmptyString => EmptyString
  | String c s' =>
      if bool_decide (c = "."%char) then EmptyString
      else String c (before_first_dot s')
  end.

(** [figpath] of line 469 *)
Definition figpath_of (datatab : string) : string :=
  before_first_dot datatab ++ ".png".

(** [np.percentile(a, [q1, ...])]: as for one percentile, of no entry
    there is none *)
Definition percentiles (a : column) (qs : list float) : list float :=
  map (percentile a) qs.

Definition np_percentiles (a : column) (qs : list float) : M (list float) :=
  match a with
  | [] => raise IndexError
  | _ :: _ => ret (percentiles a qs)
  end.

Definition plot_quantiles : list float :=
  [0.15; 2.5; 16; 50; 84; 97.5; 99.85]%float.

(** [np.abs([radiff, dediff]).max()]: a ValueError on no values *)
Definition max_abs (radiff dediff : column) : M float :=
  match map abs (radiff ++ dediff)%list with
  | [] => raise ValueError
  | x :: l => ret (foldl (fun acc y => if (acc <? y)%float then y else acc) x l)
  end.

(** [np.ceil] of a non-negative float *)
Definition float_ceil (x : float) : float :=
  let f := float_of_nat (floor_index x) in
  if (f =? x)%float then f else (f + 1)%float.

(** Lines 370-376: the rows with both differences inside (-10, 10) *)
Definition plot_mask (data : table) : M (list bool) :=
  r1 <- getitem data "radiff";;
  r2 <- getitem data "radiff";;
  let mask := vand (map (fun x => (-10 <? x)%float) r1)
                   (map (fun x => (x <? 10)%float) r2) in
  d1 <- getitem data "dediff";;
  d2 <- getitem data "dediff";;
  ret (vand mask (vand (map (fun x => (-10 <? x)%float) d1)
                       (map (fun x => (x <? 10)%float) d2))).

(** Lines 367-446: up to the labels of the histograms *)
Definition plot_head (datatab : string) (contour : bool)
  : PM (column * column * list float * list float) :=
  lift call_logger;;~
  data <~ lift (read_csv datatab);;
  mask <~ lift (plot_mask data);;
  r <~ lift (getitem data "radiff");;
  let radiff := mask_select mask r in
  d <~ lift (getitem data "dediff");;
  let dediff := mask_select mask d in
  a <~ lift (getitem data "abspm");;
  let abspm := mask_select mask a in
  percra <~ lift (np_percentiles radiff plot_quantiles);;
  lift (logger INFO "Percentiles for RA: %s");;~
  percde <~ lift (np_percentiles dediff plot_quantiles);;
  lift (logger INFO "Percentiles for DEC: %s");;~
  plt (Call "plt.figure");;~
  plt (Call "plt.axes(rect_scatter)");;~
  plt (Call "ax_scatter.tick_params");;~
  plt (Call "plt.axes(rect_histx)");;~
  plt (Call "ax_histx.tick_params");;~
  plt (Call "plt.axes(rect_histy)");;~
  plt (Call "ax_histy.tick_params");;~
  lift (logger INFO "Starting plot...");;~
  plt (Scatter radiff dediff abspm);;~
  lift (logger INFO "Finished scatter plot...");;~
  plt (Call "ax_scatter.grid");;~
  plt (Call "ax_scatter.legend");;~
  (if contour then
     lift (logger INFO "Calculatinig contours...");;~
     plt (ContourPdf radiff dediff);;~
     lift (logger INFO "Done!")
   else pret tt);;~
  plt (Call "plt.colorbar");;~
  plt (Call "cb.set_label");;~
  plt (Call "cb.ax.tick_params");;~
  m <~ lift (max_abs radiff dediff);;
  let lim := (float_ceil (m / 0.05) * 0.05)%float in
  plt (SetLim "x" lim);;~
  plt (SetLim "y" lim);;~
  plt (Call "plt.setp(xticklabels)");;~
  plt (Call "plt.setp(yticklabels)");;~
  lift (logger INFO "Plotting histograms for the percentiles...");;~
  plt (Axvline (nth 0 percra nan));;~
  plt (Axvline (nth 1 percra nan));;~
  plt (Axvline (nth 2 percra nan));;~
  plt (Axvline (nth 3 percra nan));;~
  plt (Axvline (nth 4 percra nan));;~
  plt (Axvline (nth 5 percra nan));;~
  plt (Axvline (nth 6 percra nan));;~
  plt (Axhline (nth 0 percde nan));;~
  plt (Axhline (nth 1 percde nan));;~
  plt (Axhline (nth 2 percde nan));;~
  plt (Axhline (nth 3 percde nan));;~
  plt (Axhline (nth 4 percde nan));;~
  plt (Axhline (nth 5 percde nan));;~
  plt (Axhline (nth 6 percde nan));;~
  lift (logger INFO "Building histograms...");;~
  pret (radiff, dediff, percra, percde).

(** Lines 448-478: the histograms, the labels, the figure saved and shown *)
Definition plot_diffs (datatab : string) (contour savefig : bool) : PM unit :=
  h <~ plot_head datatab contour;;
  let radiff := h.1.1.1 in
  let dediff := h.1.1.2 in
  let percra := h.1.2 in
  let percde := h.2 in
  xmean <~ attr_value (nth 3 percra nan);;
  lift (logger INFO "Building RA histogram...");;~
  plt (Hist "x" radiff xmean);;~
  plt (Call "ax_histx.legend");;~
  ymean <~ attr_value (nth 3 percde nan);;
  lift (logger INFO "Building DEC histogram...");;~
  plt (Hist "y" dediff ymean);;~
  plt (Call "ax_histy.legend");;~
  plt (Call "ax_histx.set_xlim");;~
  plt (Call "ax_histy.set_ylim");;~
  plt (Call "ax_scatter.set_xlabel");;~
  plt (Call "ax_scatter.set_ylabel");;~
  (if savefig then
     lift (logger INFO ("Saving figure at " ++ figpath_of datatab));;~
     plt (SaveFig (figpath_of datatab))
   else pret tt);;~
  plt Show.

(** Code of the plot that changes no file and draws only what [P] allows *)
Definition draws_only (P : draw -> bool) {A} (m : PM A) : Prop :=
  forall s, files (pworld (m s).2) = files (pworld s) /\
            exists ds, canvas (m s).2 = (canvas s ++ ds)%list /\
                       forallb P ds = true.

Lemma draws_pret P {A} (a : A) : draws_only P (pret a).
Proof. intros s. split; [done|]. exists []. by rewrite app_nil_r. Qed.

Lemma draws_plt P d : P d = true -> draws_only P (plt d).
Proof. intros Hd s. split; [done|]. exists [d]. simpl. by rewrite Hd. Qed.

Lemma draws_lift P {A} (m : M A) : keeps_files m -> draws_only P (lift m).
Proof.
  intros Hm s. unfold lift. specialize (Hm (pworld s)).
  destruct (m (pworld s)) as [[a|e] w']; simpl in *;
    (split; [done|]; exists []; by rewrite app_nil_r).
Qed.

Lemma draws_pbind P {A B} (m : PM A) (k : A -> PM B) :
  draws_only P m -> (forall a, draws_only P (k a)) -> draws_only P (pbind m k).
Proof.
  intros Hm Hk s. unfold pbind. destruct (Hm s) as (Hf & ds & Hc & Hp).
  destruct (m s) as [[a|e] s1]; simpl in *; [|eauto].
  destruct (Hk a s1) as (Hf' & ds' & Hc' & Hp'). split; [congruence|].
  exists (ds ++ ds')%list. by rewrite Hc', Hc, app_assoc, forallb_app, Hp, Hp'.
Qed.

Lemma keeps_call_logger : keeps_files call_logger.
Proof. done. Qed.

Lemma keeps_plot_mask data : keeps_files (plot_mask data).
Proof. unfold plot_mask. keeps. Qed.

Lemma keeps_max_abs radiff dediff : keeps_files (max_abs radiff dediff).
Proof. intros w. unfold max_abs. by destruct (map abs _). Qed.

Lemma keeps_np_percentiles a qs : keeps_files (np_percentiles a qs).
Proof. intros w. unfold np_percentiles. by destruct a. Qed.

(** What is drawn before the histograms *)
Definition before_histograms (d : draw) : bool :=
  match d with
  | Hist _ _ _ | SaveFig _ | Show | Close => false
  | _ => true
  end.

Lemma plot_head_draws datatab contour :
  draws_only before_histograms (plot_head datatab contour).
Proof.
  unfold plot_head.
  repeat first
    [ apply draws_pbind; [|intros]
    | apply draws_pret
    | apply draws_plt; reflexivity
    | apply draws_lift;
      first [ apply keeps_call_logger | apply keeps_read_csv | apply keeps_plot_mask
            | apply keeps_getitem | apply keeps_logger | apply keeps_max_abs
            | apply keeps_np_percentiles ]
    | destruct contour ].
Qed.

(** X19. [plot_diffs] never gets to its histograms: every call ends by an
    exception, at the latest the AttributeError of [percra[3].value] at
    line 448, so that no histogram is drawn and the figure is neither
    saved nor shown; no file is changed. *)
Theorem plot_diffs_never_shows datatab contour savefig s :
  let r := plot_diffs datatab contour savefig s in
  (exists e, r.1 = PRaise e) /\
  files (pworld r.2) = files (pworld s) /\
  exists ds, canvas r.2 = (canvas s ++ ds)%list /\
             forallb before_histograms ds = true.
Proof.
  assert (plot_diffs datatab contour savefig s
          = match plot_head datatab contour s with
            | (POk _, s') => (PRaise (AttributeError "numpy.float64" "value"), s')
            | (PRaise e, s') => (PRaise e, s')
            end) as Hrun.
  { unfold plot_diffs, pbind, attr_value, praise.
    by destruct (plot_head datatab contour s) as [[h|e] s1]. }
  simpl. rewrite Hrun.
  destruct (plot_head_draws datatab contour s) as (Hf & ds & Hc & Hp).
  destruct (plot_head datatab contour s) as [[h|e] s1]; simpl in *;
    (split; [eauto|]; split; [done|]; eauto).
Qed.

(** The mask of lines 371-372 *)
Definition plot_mask_of (r d : column) : list bool :=
  vand (vand (map (fun x => (-10 <? x)%float) r) (map (fun x => (x <? 10)%float) r))
       (vand (map (fun x => (-10 <? x)%float) d) (map (fun x => (x <? 10)%float) d)).

Lemma pbind_ok {A B} (m : PM A) (k : A -> PM B) s a s' :
  m s = (POk a, s') -> pbind m k s = k a s'.
Proof. intros H. unfold pbind. by rewrite H. Qed.

Lemma lift_ok {A} (m : M A) w c a w' :
  m w = (Ok a, w') -> lift m (PlotState w c) = (POk a, PlotState w' c).
Proof. intros H. unfold lift. simpl. by rewrite H. Qed.

Lemma read_csv_ok p t w :
  files w !! p = Some (Csv t) -> read_csv p w = (Ok t, emit (OpenFile p) w).
Proof. intros H. unfold read_csv, bind, open_file. by rewrite H. Qed.

Lemma plot_mask_ok data r d w :
  col_lookup data "radiff" = Some r -> col_lookup data "dediff" = Some d ->
  plot_mask data w = (Ok (plot_mask_of r d), w).
Proof.
  intros Hr Hd. unfold plot_mask.
  rewrite 2!(bind_ok _ _ _ _ _ (getitem_some _ _ _ _ Hr)).
  by rewrite 2!(bind_ok _ _ _ _ _ (getitem_some _ _ _ _ Hd)).
Qed.

Lemma np_percentiles_ok a qs w :
  a <> [] -> np_percentiles a qs w = (Ok (percentiles a qs), w).
Proof. by destruct a. Qed.

Lemma mask_select_nonempty {A B} (m : list bool) (l : list A) (l' : list B) :
  length m <= length l' -> mask_select m l <> [] -> mask_select m l' <> [].
Proof.
  revert l l'.
  induction m as [|b m IH]; intros [|x l] [|y l'] Hlen H; simpl in *;
    try done; try lia.
  destruct b; [done|]. apply (IH l l'); [lia|done].
Qed.

Lemma plot_mask_of_length r d : length (plot_mask_of r d) <= length d.
Proof. unfold plot_mask_of, vand. rewrite !length_zip_with, !length_map. lia. Qed.

Lemma max_abs_ok radiff dediff x l :
  radiff = x :: l -> exists m, forall w, max_abs radiff dediff w = (Ok m, w).
Proof. intros ->. unfold max_abs. simpl. by eexists. Qed.

Lemma pbind_assoc {A B C} (m : PM A) (f : A -> PM B) (k : B -> PM C) s :
  pbind (pbind m f) k s = pbind m (fun a => pbind (f a) k) s.
Proof. unfold pbind. by destruct (m s) as [[a|e] s']. Qed.

(** One statement of the plot that draws or logs, run *)
Ltac plot_step :=
  lazymatch goal with
  | |- context [pbind (plt ?d) ?k ?s] =>
      change (pbind (plt d) k s)
        with (k tt (PlotState (pworld s) (canvas s ++ [d])))
  | |- context [pbind (pret ?a) ?k ?s] =>
      change (pbind (pret a) k s) with (k a s)
  | |- context [pbind (lift (logger ?lvl ?msg)) ?k ?s] =>
      change (pbind (lift (logger lvl msg)) k s)
        with (k tt (PlotState (emit (Log lvl msg) (pworld s)) (canvas s)))
  end; cbv beta; cbn [pworld canvas].

(** One statement of the plot that returns, by [H], run *)
Ltac plot_ok H :=
  rewrite (pbind_ok _ _ _ _ _ (lift_ok _ _ _ _ _ H)); cbv beta.

Lemma plot_head_ok datatab contour data r d a x l s :
  files (pworld s) !! datatab = Some (Csv data) ->
  col_lookup data "radiff" = Some r ->
  col_lookup data "dediff" = Some d ->
  col_lookup data "abspm" = Some a ->
  mask_select (plot_mask_of r d) r = x :: l ->
  exists s',
    plot_head datatab contour s
    = (POk (mask_select (plot_mask_of r d) r, mask_select (plot_mask_of r d) d,
            percentiles (mask_select (plot_mask_of r d) r) plot_quantiles,
            percentiles (mask_select (plot_mask_of r d) d) plot_quantiles), s') /\
    Scatter (mask_select (plot_mask_of r d) r) (mask_select (plot_mask_of r d) d)
            (mask_select (plot_mask_of r d) a) ∈ canvas s'.
Proof.
  destruct s as [w c]. simpl. intros Hfile Hr Hd Ha Hsel. unfold plot_head.
  plot_ok (eq_refl : call_logger w = (Ok tt, w)).
  plot_ok (read_csv_ok _ _ _ Hfile).
  plot_ok (plot_mask_ok _ _ _ (emit (OpenFile datatab) w) Hr Hd).
  plot_ok (getitem_some _ _ _ (emit (OpenFile datatab) w) Hr).
  plot_ok (getitem_some _ _ _ (emit (OpenFile datatab) w) Hd).
  plot_ok (getitem_some _ _ _ (emit (OpenFile datatab) w) Ha).
  assert (mask_select (plot_mask_of r d) r <> []) as Hra by by rewrite Hsel.
  pose proof (mask_select_nonempty _ _ d (plot_mask_of_length r d) Hra) as Hde.
  plot_ok (np_percentiles_ok _ plot_quantiles (emit (OpenFile datatab) w) Hra).
  plot_step.
  plot_ok (np_percentiles_ok _ plot_quantiles
             (emit (Log INFO "Percentiles for RA: %s") (emit (OpenFile datatab) w))
             Hde).
  repeat plot_step.
  destruct (max_abs_ok _ (mask_select (plot_mask_of r d) d) _ _ Hsel) as [m Hm].
  destruct contour; repeat first [plot_step | rewrite pbind_assoc];
    (rewrite (pbind_ok _ _ _ _ _ (lift_ok _ _ _ _ _ (Hm _))); cbv beta);
    repeat plot_step;
    (eexists; split; [reflexivity|]); cbn [canvas];
    repeat (apply elem_of_app;
            first [right; apply list_elem_of_singleton; reflexivity | left]).
Qed.

(** X20. On a table of differences that is there, has its three columns
    and has a row with both differences inside (-10, 10), [plot_diffs]
    draws the scatter of the rows inside and then ends by the
    AttributeError: a numpy float has no attribute [value]. *)
Theorem plot_diffs_attribute_error datatab contour savefig data r d a x l s :
  files (pworld s) !! datatab = Some (Csv data) ->
  col_lookup data "radiff" = Some r ->
  col_lookup data "dediff" = Some d ->
  col_lookup data "abspm" = Some a ->
  mask_select (plot_mask_of r d) r = x :: l ->
  let res := plot_diffs datatab contour savefig s in
  res.1 = PRaise (AttributeError "numpy.float64" "value") /\
  Scatter (mask_select (plot_mask_of r d) r) (mask_select (plot_mask_of r d) d)
          (mask_select (plot_mask_of r d) a) ∈ canvas res.2.
Proof.
  intros Hfile Hr Hd Ha Hsel.
  destruct (plot_head_ok datatab contour data r d a x l s Hfile Hr Hd Ha Hsel)
    as (s' & Hhead & Hin).
  assert (Hrun : plot_diffs datatab contour savefig s
                 = (PRaise (AttributeError "numpy.float64" "value"), s')).
  { unfold plot_diffs. by rewrite (pbind_ok _ _ _ _ _ Hhead). }
  simpl. by rewrite Hrun.
Qed.

Fixpoint has_dot (s : string) : bool :=
  match s with
  | EmptyString => false
  | String c s' => bool_decide (c = "."%char) || has_dot s'
  end.

Lemma before_first_dot_spec s :
  has_dot (before_first_dot s) = false /\
  (has_dot s = false -> before_first_dot s = s) /\
  (has_dot s = true -> exists rest, s = before_first_dot s ++ "." ++ rest).
Proof.
  induction s as [|c s (IH1 & IH2 & IH3)]; [done|]. simpl.
  case_bool_decide as Hc; simpl.
  - subst c. split; [done|]. split; [done|]. intros _. by exists s.
  - rewrite bool_decide_eq_false_2 by done. simpl.
    split; [done|]. split.
    + intros H. by rewrite IH2.
    + intros H. destruct (IH3 H) as [rest Hrest]. exists rest.
      by rewrite string_app_cons, <- Hrest.
Qed.

(** X21. The figure goes to the text of the table's path before its first
    dot, with '.png' after it: for a path whose only dot is the one of its
    extension the table's name with the extension changed, and for a path
    with a dot earlier on (a dotted directory, a leading './') a path cut
    at that dot. *)
Theorem figpath_is_cut_at_the_first_dot datatab :
  exists stem,
    figpath_of datatab = stem ++ ".png" /\ has_dot stem = false /\
    (has_dot datatab = false -> stem = datatab) /\
    (has_dot datatab = true -> exists rest, datatab = stem ++ "." ++ rest) /\
    (forall name ext, has_dot name = false ->
       figpath_of (name ++ "." ++ ext) = name ++ ".png") /\
    figpath_of "./results.csv" = ".png".
Proof.
  exists (before_first_dot datatab).
  destruct (before_first_dot_spec datatab) as (H1 & H2 & H3).
  repeat (split; [done|]). split; [|done].
  intros name ext Hname. unfold figpath_of. f_equal.
  induction name as [|c name IH]; [done|]. simpl in Hname.
  apply orb_false_elim in Hname as [Hc Hn].
  change (before_first_dot (String c (name ++ "." ++ ext)) = String c name).
  cbn [before_first_dot]. by rewrite Hc, (IH Hn).
Qed.

(** ** The worked tile, again *)

(** Libraries that answer: Vizier returns the reference table, argparse
    the defaults, and the footprint is read. *)
Definition demo_eco_online : Ecosystem := {|
  match_to_catalog_3d := flat_sky_match;
  np_cos_deg := cos_poly;
  query_region := fun _ _ _ _ _ _ _ => (Ok [demo_gaia], Some (Pickle "response"), ∅);
  request_hash := fun _ _ _ _ => "0f3a";
  parse_args := fun _ => Ok {| ns_gasp := demo_self; ns_footprint := "footprint.csv" |};
  ascii_read_footprint := fun _ => Ok demo_footprint;
  pd_read_names := fun lines => Ok lines;
  os_path_abspath := demo_abspath;
  polls_alive := 0
|}.

(** The work directory of the worked tile with the cache directory of
    astroquery in place *)
Definition demo_world_online : world := {|
  files := files demo_world;
  dirs := {[ "/w"; "/w/gaia_355"; "/w/results"; "/w/.astropy"; "/w/.astropy/cache";
             "/w/.astropy/cache/astroquery"; "/w/.astropy/cache/astroquery/Vizier" ]};
  trace := []
|}.



(** The same settings for the loop, other values elsewhere *)
Definition demo_self_elsewhere : SplusGaiaAst := {|
  tiles := "other.txt";
  workdir := "/w";
  datadir := Some "/data";
  gaia_dr := "355";
  cat_name_preffix := "pre_";
  cat_name_suffix := ".cat";
  cathdu := 1;
  racolumn := "RA";
  decolumn := "DEC";
  mag_column := "MAG_AUTO";
  flags_column := None;
  clstar_column := None;
  fwhm_column := None;
  sn_column := None;
  filetype := ".fits";
  angle := 0.25%float;
  sn_limit := 10.0%float;
  output := "elsewhere";
  savefig := true;
  bins := 10%Z;
  limit := 2.0%float;
  debug := true;
  verbose := false
|}.

Lemma get_gaia_loses_the_catalogue_witness :
  let r := get_gaia (Eco := demo_eco_online) demo_self (1.5, -30.0)%float "T2" None None
             (Some 1.0%float) demo_world_online in
  r.1 = Raise (NameError "logger") /\
  files r.2 !! "/w/gaia_355_T2.csv" = None /\
  trace r.2 = [Log INFO "Querying gaia/vizier"; Query "I/355" 1.5 (-30.0) 1.0]%float.
Proof.
  apply (get_gaia_loses_the_catalogue (Eco := demo_eco_online) demo_self
           (1.5, -30.0)%float "T2" None None (Some 1.0%float) demo_gaia []
           [10.001; 10.5001; 11.01]%float [20.0005; 20.5001; 21.0]%float
           demo_world_online).
  - by vm_compute.
  - done.
  - done.
  - done.
Defined.


Lemma tile_outside_footprint_raises_witness :
  astdiff_tile (Eco := demo_eco) demo_self demo_footprint ["T1"; "T2"]
    "/w" "355" "" "" "/w/results/" "T9" demo_world
  = (Raise IndexError, demo_world).
Proof.
  destruct (tile_outside_footprint_raises (Eco := demo_eco) demo_self demo_footprint
              ["T1"; "T2"] "/w" "355" "" "" "/w/results/" "T9" demo_world)
    as [H _].
  - done.
  - by vm_compute.
  - by eexists.
  - by eexists.
  - intros Hin. by repeat (apply elem_of_cons in Hin as [Hin|Hin]; [done|]);
      apply elem_of_nil in Hin.
  - exact H.
Defined.

Lemma underscore_tile_never_matches_witness :
  astdiff_tile (Eco := demo_eco) demo_self
    {| fp_NAME := ["T_1"; "T_2"]; fp_cols := fp_cols demo_footprint |}
    (get_fields_names {| fp_NAME := ["T_1"; "T_2"]; fp_cols := fp_cols demo_footprint |})
    "/w" "355" "" "" "/w/results/" "T_1" demo_world
  = (Raise IndexError, demo_world).
Proof.
  destruct (underscore_tile_never_matches (Eco := demo_eco) demo_self
              {| fp_NAME := ["T_1"; "T_2"]; fp_cols := fp_cols demo_footprint |}
              "/w" "355" "" "" "/w/results/" "T_1" demo_world)
    as [_ H].
  - done.
  - by vm_compute.
  - by eexists.
  - by eexists.
  - exact H.
Defined.

Lemma differencer_ignores_other_settings_witness :
  demo_run demo_self_elsewhere demo_world = demo_run demo_self demo_world.
Proof.
  apply (differencer_ignores_other_settings (Eco := demo_eco)).
  by repeat split.
Defined.

Lemma processed_tile_read_its_cache_witness :
  exists gaia_data,
    files demo_world !! "/w/gaia_355/T1.csv" = Some (Csv gaia_data) /\
    exists evs, trace demo_done = (trace demo_world ++ evs)%list /\
                forallb local_event evs = true.
Proof.
  destruct (processed_tile_read_its_cache (Eco := demo_eco) demo_self demo_footprint
              ["T1"; "T2"] "/w" "355" "" "" "/w/results/" "T1" demo_world demo_done)
    as [(g & w1 & Hc & _) Hev].
  - done.
  - by vm_compute.
  - by vm_compute.
  - exists g. split; [exact Hc | exact Hev].
Defined.

Lemma first_failing_tile_ends_the_run_witness :
  (calculate_astdiff (Eco := demo_eco) demo_self ["T1"; "T2"; "T3"] demo_footprint
     ["T1"; "T2"] None None None None demo_world).1
  = Raise QueryError.
Proof.
  refine (f_equal fst
            (first_failing_tile_ends_the_run (Eco := demo_eco) demo_self ["T1"] "T2"
               ["T3"] demo_footprint ["T1"; "T2"] None None None None demo_world
               (calculate_astdiff (Eco := demo_eco) demo_self ["T1"] demo_footprint
                  ["T1"; "T2"] None None None None demo_world).2
               QueryError
               (astdiff_tile (Eco := demo_eco) demo_self demo_footprint ["T1"; "T2"]
                  "/w" "355" "" "" "/w/results/" "T2"
                  (calculate_astdiff (Eco := demo_eco) demo_self ["T1"] demo_footprint
                     ["T1"; "T2"] None None None None demo_world).2).2
               _ _)).
  - by vm_compute.
  - by vm_compute.
Defined.

(** The survey catalogue of the tile with an undefined first magnitude *)
Definition demo_survey_nan : table :=
  [("RA", [10.0; 10.5; 11.0]%float);
   ("DEC", [20.0; 20.5; 21.0]%float);
   ("MAG_AUTO", [nan; 17.0; 16.0]%float);
   ("FLAGS", [1; 0; 0]%float)].



(** The plotting state after the run of tile T1, nothing drawn yet *)
Definition demo_plot : plot_state := {| pworld := demo_done; canvas := [] |}.

Lemma default_selection_is_the_magnitude_cut_witness :
  (quality_sample (parser_defaults "tiles.txt" "/w") demo_survey demo_world).1
  = Ok [true; true; true].
Proof.
  by rewrite (default_selection_is_the_magnitude_cut "tiles.txt" "/w" demo_survey
                [18.5; 17.0; 16.0]%float demo_world eq_refl).
Defined.

Lemma nan_is_never_selected_witness :
  exists sample w1,
    quality_sample demo_self demo_survey_nan demo_world = (Ok sample, w1) /\
    sample !! 0 <> Some true.
Proof.
  destruct (quality_sample demo_self demo_survey_nan demo_world)
    as [[sample|e] w1] eqn:Hq; [|by vm_compute in Hq].
  destruct (sky_match (Eco := demo_eco) demo_self demo_survey_nan demo_gaia demo_world)
    as [[[idx separation]|e] w2] eqn:Hm; [|by vm_compute in Hm].
  destruct (nan_is_never_selected (Eco := demo_eco) demo_self demo_survey_nan demo_gaia
              sample idx separation demo_world w1 w2 0 Hq Hm) as [H _].
  exists sample, w1. split; [done|]. by apply (H nan).
Defined.

Lemma written_rows_are_bright_and_near_witness :
  exists i m,
    cell demo_survey "RA" i = Some 10.0%float /\
    cell demo_survey "DEC" i = Some 20.0%float /\
    cell demo_survey "MAG_AUTO" i = Some m /\
    (14 <? m)%float = true /\ (m <? 19)%float = true.
Proof.
  destruct (written_rows_are_bright_and_near (Eco := demo_eco) demo_self FitsRec
              demo_survey demo_gaia demo_diffs demo_world demo_diffs_world 0
              10.0%float 20.0%float 10.001%float 20.0005%float
              (-3.3828826898188633)%float (-1.799999999995805)%float)
    as (i & m & ra_s & dec_s & ra_g & dec_g & idx & d2d & sep &
        H1 & H2 & H3 & H4 & H5 & _).
  - by vm_compute.
  - by repeat split.
  - by exists i, m.
Defined.

Lemma written_abspm_is_finite_witness :
  is_finite 2 = true /\
  exists idx separation sample gaia_idx abspm j w1 w2,
    sky_match (Eco := demo_eco) demo_self demo_survey demo_gaia demo_world
    = (Ok (idx, separation), w1) /\
    quality_sample demo_self demo_survey w1 = (Ok sample, w2) /\
    table_take idx demo_gaia w2 = (Ok gaia_idx, w2) /\
    abspm_of (table_mask (vand separation sample) gaia_idx) w2 = (Ok abspm, w2) /\
    abspm !! j = Some 2%float /\
    (2 <? percentile (finite_values abspm) 95)%float = true.
Proof.
  apply (written_abspm_is_finite (Eco := demo_eco) demo_self FitsRec demo_survey
           demo_gaia demo_diffs demo_world demo_diffs_world 0 2%float).
  - by vm_compute.
  - done.
Defined.

Lemma result_table_shape_witness :
  map fst demo_diffs
  = ["RA"; "DEC"; "RAJ2000"; "DEJ2000"; "radiff"; "dediff"; "abspm"] /\
  exists rows, table_wf rows demo_diffs.
Proof.
  apply (result_table_shape (Eco := demo_eco) demo_self FitsRec demo_survey demo_gaia
           demo_diffs 3 demo_world demo_diffs_world).
  - by repeat constructor.
  - intros idx separation w1 Hm. vm_compute in Hm. by injection Hm as <- _ _.
  - by vm_compute.
Defined.


Lemma plot_diffs_attribute_error_witness :
  (plot_diffs "/w/results/T1_mar-gaiaDR3_diff.csv" false true demo_plot).1
  = PRaise (AttributeError "numpy.float64" "value").
Proof.
  destruct (plot_diffs_attribute_error "/w/results/T1_mar-gaiaDR3_diff.csv" false true
              demo_diffs [-3.3828826898188633]%float [-1.799999999995805]%float
              [2]%float (-3.3828826898188633)%float [] demo_plot) as [H _].
  - by vm_compute.
  - done.
  - done.
  - done.
  - by vm_compute.
  - exact H.
Defined.
